(** * Geofence attendance tracking: the screens' logic over the local store

    A shallow embedding of the business logic of the application's screens:
    the home screen (geofence evaluation and the check-in / check-out
    handler), the attendance screen (ledger query, filters) and the profile
    screen (geofence assignment, rejection of role-change requests).

    Conventions of the embedding.
    - A JavaScript [number] that holds a coordinate, a distance or a radius
      is a real number, with [NaN] and the two infinities as extra values;
      the worked hours, a quotient of integers, are a rational number.
      Arithmetic is exact; module [Binary64] evaluates the distance on the
      binary64 numbers of the engine, where rounding changes the outcome.
    - An instant ([Date]) is its number of milliseconds since the epoch, in
      [Z]; the date part of [toISOString()] is the number of the UTC day.
      Local time is read through the device's time zone, a function from
      instants to offsets ([Zone]).
    - The key-value store holds typed values: [JSON.stringify] followed by
      [JSON.parse] is the identity on the records the screens write.
    - A handler is a function from the state it closes over and the values
      it obtains from the device (position fix, clock readings) to the new
      state and the list of effects it performed. *)

From Stdlib Require Import Ascii String Reals Psatz QArith Qabs Qround.
From Stdlib Require Floats.
From Stdlib Require Import Sorting.Sorted Sorting.Permutation.
From stdpp Require Import gmap strings list fin_maps.

Local Open Scope Z_scope.

(** ** JavaScript numbers and values *)

Module Js.

Inductive number : Type :=
  | NaN
  | Fin (x : R)
  | Inf (negative : bool).

(** [a <= b] on numbers: false as soon as one side is [NaN]. *)
Definition leb (a b : number) : bool :=
  match a, b with
  | NaN, _ | _, NaN => false
  | Fin x, Fin y => if Rle_dec x y then true else false
  | Fin _, Inf neg => negb neg
  | Inf neg, Fin _ => neg
  | Inf n1, Inf n2 => orb n1 (negb n2)
  end.

(** [x / d] for a finite positive constant [d]. *)
Definition divc (a : number) (d : R) : number :=
  match a with
  | NaN => NaN
  | Fin x => Fin (x / d)%R
  | Inf neg => Inf neg
  end.

(** [x || dflt]: [NaN] and zero are falsy. *)
Definition orElse (a : number) (dflt : number) : number :=
  match a with
  | NaN => dflt
  | Fin x => if Req_dec_T x 0 then dflt else a
  | Inf _ => a
  end.

Definition isNaN (a : number) : bool :=
  match a with NaN => true | _ => false end.

(** The order of the extended reals, as propositions; nothing is related
    to [NaN]. *)
Definition le (a b : number) : Prop :=
  match a, b with
  | Fin x, Fin y => (x <= y)%R
  | Fin _, Inf neg => neg = false
  | Inf neg, Fin _ => neg = true
  | Inf n1, Inf n2 => n1 = true \/ n2 = false
  | _, _ => False
  end.

Definition lt (a b : number) : Prop :=
  match a, b with
  | Fin x, Fin y => (x < y)%R
  | Fin _, Inf neg => neg = false
  | Inf neg, Fin _ => neg = true
  | Inf n1, Inf n2 => n1 = true /\ n2 = false
  | _, _ => False
  end.

(** The values a field of a parsed JSON object holds in this program. *)
Inductive value : Type :=
  | Undefined
  | Num (x : R)
  | Str (s : string).

End Js.

(** ** [parseFloat] *)

Module ParseFloat.

(** A [string] holds characters of code below 256. Those of
    [StrWhiteSpaceChar] among them: TAB, LF, VT, FF, CR, SP and the
    no-break space. *)
Definition isWhiteSpace (c : ascii) : bool :=
  let n := Z.of_nat (nat_of_ascii c) in
  ((9 <=? n) && (n <=? 13)) || (n =? 32) || (n =? 160).

Definition digitValue (c : ascii) : option Z :=
  let n := Z.of_nat (nat_of_ascii c) in
  if (48 <=? n) && (n <=? 57) then Some (n - 48) else None.

Fixpoint trimStart (s : string) : string :=
  match s with
  | String c r => if isWhiteSpace c then trimStart r else s
  | EmptyString => s
  end.

(** The longest run of decimal digits at the head of [s]: how many there
    are, their value when read after the digits whose value is [acc], and
    what follows them. *)
Fixpoint decimalDigits (s : string) (count : Z) (acc : Z) : Z * Z * string :=
  match s with
  | String c r =>
      match digitValue c with
      | Some d => decimalDigits r (count + 1) (10 * acc + d)
      | None => (count, acc, s)
      end
  | EmptyString => (count, acc, s)
  end.

(** The value of the [ExponentPart] at the head of [s], 0 when there is
    none ([e] or [E], an optional sign, at least one digit). *)
Definition exponentPart (s : string) : Z :=
  match s with
  | String c r =>
      if (Ascii.eqb c "e" || Ascii.eqb c "E")%bool then
        match r with
        | String "+" r' =>
            let '(n, v, _) := decimalDigits r' 0 0 in if n =? 0 then 0 else v
        | String "-" r' =>
            let '(n, v, _) := decimalDigits r' 0 0 in if n =? 0 then 0 else - v
        | _ =>
            let '(n, v, _) := decimalDigits r 0 0 in if n =? 0 then 0 else v
        end
      else 0
  | EmptyString => 0
  end.

(** What the longest [StrUnsignedDecimalLiteral] prefix denotes:
    [Decimal m e] is [m * 10^e]. *)
Inductive literal : Type :=
  | NoLiteral
  | Infinity
  | Decimal (m e : Z).

Definition unsignedLiteral (s : string) : literal :=
  if String.prefix "Infinity" s then Infinity
  else
    let '(n, v, r) := decimalDigits s 0 0 in
    match r with
    | String "." r1 =>
        let '(k, w, r2) := decimalDigits r1 0 v in
        if (n =? 0) && (k =? 0) then NoLiteral
        else Decimal w (exponentPart r2 - k)
    | _ => if n =? 0 then NoLiteral else Decimal v (exponentPart r)
    end.

Definition negate (neg : bool) (x : R) : R := if neg then (- x)%R else x.

(** Where the nearest binary64 number leaves the finite range: a decimal
    of magnitude at least [2^1024 - 2^970], half way between the largest
    finite number and [2^1024], reads as an infinity, and one of
    magnitude at most [2^-1075], half way between zero and the smallest
    positive number, reads as zero. *)
Definition overflow : R := IZR (2 ^ 1024 - 2 ^ 970).
Definition underflow : R := (/ IZR (2 ^ 1075))%R.

(** In between the value is kept exact. *)
Definition numberOf (neg : bool) (l : literal) : Js.number :=
  match l with
  | NoLiteral => Js.NaN
  | Infinity => Js.Inf neg
  | Decimal m e =>
      let x := (IZR m * powerRZ 10 e)%R in
      if Rle_dec overflow (Rabs x) then Js.Inf neg
      else if Rle_dec (Rabs x) underflow then Js.Fin 0
      else Js.Fin (negate neg x)
  end.

(** The sign and the literal of the longest [StrDecimalLiteral] prefix
    of [s] once its leading white space is dropped. *)
Definition signedLiteral (s : string) : bool * literal :=
  match trimStart s with
  | String "+" r => (false, unsignedLiteral r)
  | String "-" r => (true, unsignedLiteral r)
  | t => (false, unsignedLiteral t)
  end.

Definition ofString (s : string) : Js.number :=
  let '(neg, l) := signedLiteral s in numberOf neg l.

End ParseFloat.

(** [parseFloat(v)]: the argument is first converted to a string; a finite
    number prints to a literal that reads back as itself, [undefined]
    prints to a string with no numeric prefix. *)
Definition parseFloat (v : Js.value) : Js.number :=
  match v with
  | Js.Undefined => Js.NaN
  | Js.Num x => Js.Fin x
  | Js.Str s => ParseFloat.ofString s
  end.


(** [v || dflt] on values: [undefined], 0 and the empty string are falsy. *)
Definition valueOr (v dflt : Js.value) : Js.value :=
  match v with
  | Js.Undefined => dflt
  | Js.Num x => if Req_dec_T x 0 then dflt else v
  | Js.Str s => if String.eqb s "" then dflt else v
  end.

(** Truthiness of an optional string field (absent and [""] are falsy),
    and [a || b] on such fields. *)
Definition truthy (s : option string) : bool :=
  match s with
  | Some t => negb (String.eqb t "")
  | None => false
  end.

Definition strOr (a b : option string) : option string :=
  if truthy a then a else b.

(** ** Data model *)

Module Coords.
Record t : Type := mk { latitude : R; longitude : R }.
End Coords.

Module AssignedLocation.
(** As stored under [users]: the profile screen writes the text of its
    four inputs, other writers store numbers, and the one-time clean-up
    leaves an object with no field at all. *)
Record t : Type := mk {
  name : Js.value;
  latitude : Js.value;
  longitude : Js.value;
  radius : Js.value }.
End AssignedLocation.

Module NotificationSettings.
Record t : Type := mk {
  enabled : bool;
  attendanceReminders : bool;
  approvalAlerts : bool;
  systemUpdates : bool }.
End NotificationSettings.

Module User.
Record t : Type := mk {
  id : string;
  email : string;
  password : string;
  name : option string;
  department : option string;
  role : string;
  assignedLocation : option AssignedLocation.t;
  roleChangeRequested : bool;
  notificationSettings : option NotificationSettings.t }.

Definition isAdmin (u : t) : bool := String.eqb (role u) "admin".
Definition isEmployee (u : t) : bool := String.eqb (role u) "employee".
End User.

Module AttendanceRecord.
Record t : Type := mk {
  date : option Z;
  email : string;
  name : option string;
  department : option string;
  checkInTime : option Z;
  checkInLocation : option Coords.t;
  checkOutTime : option Z;
  checkOutLocation : option Coords.t;
  totalHours : option Q;
  status : option string }.
End AttendanceRecord.

Module Snapshot.
Record t : Type := mk {
  latitude : R;
  longitude : R;
  timestamp : Z;
  isInside : bool }.
End Snapshot.

(** ** The key-value store

    Three families of keys: [users], [employeeLocations] and
    [attendance_<email>_<date>], the last one indexed here by the pair of
    the e-mail and the UTC day number (the date has a fixed width, so
    distinct pairs give distinct keys). *)

Module Store.
Record t : Type := mk {
  users : option (list User.t);
  employeeLocations : option (gmap string Snapshot.t);
  attendance : gmap (string * Z) AttendanceRecord.t }.

Inductive key : Type :=
  | Users
  | EmployeeLocations
  | Attendance (email : string) (day : Z).

Definition setUsers (us : list User.t) (s : t) : t :=
  mk (Some us) (employeeLocations s) (attendance s).

Definition setEmployeeLocations (m : gmap string Snapshot.t) (s : t) : t :=
  mk (users s) (Some m) (attendance s).

Definition setAttendance (k : string * Z) (r : AttendanceRecord.t) (s : t) : t :=
  mk (users s) (employeeLocations s) (<[k := r]> (attendance s)).
End Store.

(** ** Handlers

    A handler runs on the state [S] of its screen and on the store, and
    yields a result, the new state, the new store and the effects it
    performed, oldest first. *)

Inductive Message : Type :=
  | Text (s : string)
  | CheckedInAt (time : Z)
  | CheckedOutAt (time : Z) (totalHours : option Q)
  | GeofenceAssignedTo (name : option string).

Inductive Effect : Type :=
  | Alert (title : string) (message : Message)
  | GetCurrentPosition
  | SetItem (k : Store.key).

Definition Handler (S A : Type) : Type :=
  S -> Store.t -> A * S * Store.t * list Effect.

Definition ret {S A} (a : A) : Handler S A :=
  fun st db => (a, st, db, []).

Definition bind {S A B} (m : Handler S A) (k : A -> Handler S B) : Handler S B :=
  fun st db =>
    let '(a, st1, db1, e1) := m st db in
    let '(b, st2, db2, e2) := k a st1 db1 in
    (b, st2, db2, e1 ++ e2).

Declare Scope handler_scope.
Delimit Scope handler_scope with handler.
Notation "x <- m ;; k" := (bind m (fun x => k))
  (at level 100, m at next level, k at level 200, right associativity)
  : handler_scope.
Notation "m ;; k" := (bind m (fun _ => k))
  (at level 100, k at level 200, right associativity) : handler_scope.

Definition getState {S} : Handler S S := fun st db => (st, st, db, []).
Definition setState {S} (f : S -> S) : Handler S unit :=
  fun st db => (tt, f st, db, []).
Definition emit {S} (e : Effect) : Handler S unit :=
  fun st db => (tt, st, db, [e]).
Definition alert {S} (title : string) (message : Message) : Handler S unit :=
  emit (Alert title message).

(** [AsyncStorage.getItem] and [AsyncStorage.setItem]. *)
Definition getUsers {S} : Handler S (option (list User.t)) :=
  fun st db => (Store.users db, st, db, []).
Definition getEmployeeLocations {S} : Handler S (option (gmap string Snapshot.t)) :=
  fun st db => (Store.employeeLocations db, st, db, []).
Definition getAttendance {S} (k : string * Z) : Handler S (option AttendanceRecord.t) :=
  fun st db => (Store.attendance db !! k, st, db, []).
Definition setUsers {S} (us : list User.t) : Handler S unit :=
  fun st db => (tt, st, Store.setUsers us db, [SetItem Store.Users]).
Definition setEmployeeLocations {S} (m : gmap string Snapshot.t) : Handler S unit :=
  fun st db => (tt, st, Store.setEmployeeLocations m db, [SetItem Store.EmployeeLocations]).
Definition setAttendance {S} (k : string * Z) (r : AttendanceRecord.t) : Handler S unit :=
  fun st db => (tt, st, Store.setAttendance k r db, [SetItem (Store.Attendance k.1 k.2)]).

(** The components of a run. *)
Definition stateOf {S A} (r : A * S * Store.t * list Effect) : S := r.1.1.2.
Definition storeOf {S A} (r : A * S * Store.t * list Effect) : Store.t := r.1.2.
Definition effectsOf {S A} (r : A * S * Store.t * list Effect) : list Effect := r.2.

(** ** Time *)

Definition msPerDay : Z := 86400000.
Definition msPerHour : Z := 1000 * 60 * 60.

(** [new Date(t).toISOString().split('T')[0]], as a day number. *)
Definition isoDate (t : Z) : Z := t / msPerDay.

(** [new Date(d).getTime()] for a date string [d]: UTC midnight. *)
Definition dateTime (day : Z) : Z := day * msPerDay.

(** ** Home screen: geofence evaluation and attendance *)

Module HomeScreen.

Local Open Scope handler_scope.

Inductive LocationStatus : Type := inside | outside | unknown.

Definition isInsideStatus (s : LocationStatus) : bool :=
  match s with inside => true | _ => false end.

Module Geofence.
Record t : Type := mk {
  latitude : Js.number;
  longitude : Js.number;
  radius : Js.number;
  name : Js.value }.
End Geofence.

(** The screen's state: the signed-in user of the authentication context
    and the state variables the handlers below read or set. *)
Record State : Type := mkState {
  user : option User.t;
  location : option Coords.t;
  locationStatus : LocationStatus;
  attendanceStatus : option bool;
  fetchingLocation : bool }.

Definition setLocation (l : Coords.t) : Handler State unit :=
  setState (fun s => mkState (user s) (Some l) (locationStatus s)
                             (attendanceStatus s) (fetchingLocation s)).
Definition setLocationStatus (v : LocationStatus) : Handler State unit :=
  setState (fun s => mkState (user s) (location s) v
                             (attendanceStatus s) (fetchingLocation s)).
Definition setAttendanceStatus (v : bool) : Handler State unit :=
  setState (fun s => mkState (user s) (location s) (locationStatus s)
                             (Some v) (fetchingLocation s)).
Definition setFetchingLocation (v : bool) : Handler State unit :=
  setState (fun s => mkState (user s) (location s) (locationStatus s)
                             (attendanceStatus s) v).

(** The geofence boundary of the signed-in user, recomputed at each
    render. *)
Definition geofence (user : option User.t) : option Geofence.t :=
  match user with
  | Some u =>
      match User.assignedLocation u with
      | Some a =>
          Some (Geofence.mk
                  (parseFloat (AssignedLocation.latitude a))
                  (parseFloat (AssignedLocation.longitude a))
                  (Js.orElse (parseFloat (AssignedLocation.radius a)) (Js.Fin 100))
                  (valueOr (AssignedLocation.name a) (Js.Str "Office")))
      | None => None
      end
  | None => None
  end.

Definition deg2rad (deg : R) : R := (deg * (PI / 180))%R.

(** [Math.atan2(y, x)]. *)
Definition atan2 (y x : R) : R :=
  if Rlt_dec 0 x then atan (y / x)
  else if Rlt_dec x 0 then
    if Rle_dec 0 y then (atan (y / x) + PI)%R else (atan (y / x) - PI)%R
  else
    if Rlt_dec 0 y then (PI / 2)%R
    else if Rlt_dec y 0 then (- (PI / 2))%R else 0%R.

(** The haversine formula on finite coordinates, in km. *)
Definition haversine (lat1 lon1 lat2 lon2 : R) : R :=
  let R := 6371%R in
  let dLat := deg2rad (lat2 - lat1) in
  let dLon := deg2rad (lon2 - lon1) in
  let a :=
    (sin (dLat / 2) * sin (dLat / 2) +
     cos (deg2rad lat1) * cos (deg2rad lat2) *
     sin (dLon / 2) * sin (dLon / 2))%R in
  let c := (2 * atan2 (sqrt a) (sqrt (1 - a)))%R in
  (R * c)%R.

(** The formula of the code in its arcsine form,
    [d = 2 R asin (sqrt (hav dLat + cos lat1 * cos lat2 * hav dLon))]
    with [hav x = sin^2 (x / 2)], on the angles [deg2rad] returns. *)
Definition hav (x : R) : R := (sin (x / 2) * sin (x / 2))%R.

Definition greatCircleKm (lat1 lon1 lat2 lon2 : R) : R :=
  (2 * 6371 *
   asin (sqrt (hav (deg2rad lat2 - deg2rad lat1) +
               cos (deg2rad lat1) * cos (deg2rad lat2) *
               hav (deg2rad lon2 - deg2rad lon1))))%R.

(** The great-circle distance as the specification words it, with
    nothing of the code in it: the haversine formula on a sphere of
    radius 6371 km, each angle in degrees turned into radians by the
    factor [PI / 180] written out. *)
Definition greatCircleDistance (lat1 lon1 lat2 lon2 : R) : R :=
  (2 * 6371 *
   asin (sqrt (Rsqr (sin ((lat2 - lat1) * PI / 180 / 2)) +
               cos (lat1 * PI / 180) * cos (lat2 * PI / 180) *
               Rsqr (sin ((lon2 - lon1) * PI / 180 / 2)))))%R.

(** [calculateDistance]: the position comes from the device and is finite;
    a centre coordinate that is [NaN] or infinite makes every sine and
    cosine it enters [NaN], and so the distance. *)
Definition calculateDistance (lat1 lon1 : R) (lat2 lon2 : Js.number) : Js.number :=
  match lat2, lon2 with
  | Js.Fin la, Js.Fin lo => Js.Fin (haversine lat1 lon1 la lo)
  | _, _ => Js.NaN
  end.

(** The distance both [updateLocationStatus] and [handleAttendance]
    compute, and the test they make on it:
    [distance <= geofence.radius / 1000]. *)
Definition distanceTo (position : Coords.t) (g : Geofence.t) : Js.number :=
  calculateDistance (Coords.latitude position) (Coords.longitude position)
                    (Geofence.latitude g) (Geofence.longitude g).

Definition isInside (position : Coords.t) (g : Geofence.t) : bool :=
  let distance := distanceTo position g in
  Js.leb distance (Js.divc (Geofence.radius g) 1000).

(** [now] is the clock reading that stamps the snapshot kept for the
    admin's map. *)
Definition updateLocationStatus (user : option User.t) (geofence : option Geofence.t)
    (locationObj : Coords.t) (now : Z) : Handler State unit :=
  match geofence with
  | None => setLocationStatus unknown
  | Some g =>
      let isInside := isInside locationObj g in
      setLocationStatus (if isInside then inside else outside) ;;
      match user with
      | Some u =>
          if User.isEmployee u then
            locationsJSON <- getEmployeeLocations ;;
            let locationsMap := default ∅ locationsJSON in
            setEmployeeLocations
              (<[User.email u :=
                   Snapshot.mk (Coords.latitude locationObj)
                               (Coords.longitude locationObj) now isInside]>
                 locationsMap)
          else ret tt
      | None => ret tt
      end
  end.

(** [today] is the clock reading that names the day. *)
Definition getAttendanceStatus (today : Z) : Handler State unit :=
  st <- getState ;;
  match user st with
  | None => ret tt
  | Some u =>
      attendanceData <- getAttendance (User.email u, isoDate today) ;;
      match attendanceData with
      | Some data =>
          setAttendanceStatus
            (match AttendanceRecord.checkOutTime data with
             | Some _ => false
             | None => true
             end)
      | None => setAttendanceStatus false
      end
  end.

(** [Number.prototype.toFixed(2)], as the number of hundredths: the
    integer [n] with [n / 100] nearest to [x], the one of larger
    magnitude at a tie. It is applied to the exact quotient; the engine
    applies it to the binary64 quotient, which at a tie of the exact
    quotient is most often slightly off it, so that the engine gives one
    of the two nearest hundredths there, not always the larger. *)
Definition toFixed2 (x : Q) : Z :=
  let n := Qfloor (Qabs x * 100 + (1 # 2))%Q in
  if Qlt_le_dec x 0 then - n else n.

(** [calculateHours]: [NaN] (here [None]) when the record has no
    check-in time. *)
Definition calculateHours (startTime : option Z) (endTime : Z) : option Q :=
  match startTime with
  | Some start =>
      let diffMs := endTime - start in
      let diffHrs := (inject_Z diffMs / inject_Z msPerHour)%Q in
      Some (Qred (toFixed2 diffHrs # 100)%Q)
  | None => None
  end.


(** The store after [updateLocationStatus] ran for user [u] with a
    geofence assigned, and the writes it made. *)
Definition snapshotStore (u : User.t) (locationObj : Coords.t) (now : Z)
    (isInside : bool) (db : Store.t) : Store.t :=
  if User.isEmployee u then
    Store.setEmployeeLocations
      (<[User.email u :=
           Snapshot.mk (Coords.latitude locationObj)
                       (Coords.longitude locationObj) now isInside]>
         (default ∅ (Store.employeeLocations db))) db
  else db.

Definition snapshotEffects (u : User.t) : list Effect :=
  if User.isEmployee u then [SetItem Store.EmployeeLocations] else [].

(** What one run of [handleAttendance] obtains from the device: the
    position fix ([None] when the query fails) and three clock readings,
    for the stamp of the location snapshot, for the day and for the
    time of the action. *)
Record Readings : Type := mkReadings {
  position : option Coords.t;
  clockSnapshot : Z;
  clockToday : Z;
  clockNow : Z }.

Definition checkInData (u : User.t) (today currentTime : Z)
    (currentLocation : Coords.t) : AttendanceRecord.t :=
  AttendanceRecord.mk (Some today) (User.email u) (User.name u)
    (User.department u) (Some currentTime) (Some currentLocation)
    None None None None.

(** [{...storedData, checkOutTime, checkOutLocation, totalHours}] *)
Definition updatedData (storedData : AttendanceRecord.t) (currentTime : Z)
    (currentLocation : Coords.t) (totalHours : option Q) : AttendanceRecord.t :=
  AttendanceRecord.mk
    (AttendanceRecord.date storedData) (AttendanceRecord.email storedData)
    (AttendanceRecord.name storedData) (AttendanceRecord.department storedData)
    (AttendanceRecord.checkInTime storedData)
    (AttendanceRecord.checkInLocation storedData)
    (Some currentTime) (Some currentLocation) totalHours
    (AttendanceRecord.status storedData).

Definition noLocationMessage : Message :=
  Text "You have no assigned location. Please contact your administrator.".
Definition mustBeInsideMessage : Message :=
  Text "You must be inside your assigned location to check in or out.".
Definition failedMessage : Message :=
  Text "Failed to process your attendance.".

(** [handleAttendance], with the state variables it closes over read
    from the state at the moment of the press. The location snapshot
    written by [updateLocationStatus] goes to a key of its own, so its
    interleaving with the rest of the handler is immaterial and it is
    run to completion where it is called. *)
Definition handleAttendance (r : Readings) : Handler State unit :=
  st <- getState ;;
  match user st with
  | None => ret tt
  | Some u =>
      match geofence (user st) with
      | None => alert "Error" noLocationMessage
      | Some g =>
          if negb (isInsideStatus (locationStatus st)) then
            alert "Error" mustBeInsideMessage
          else
            setFetchingLocation true ;;
            emit GetCurrentPosition ;;
            match position r with
            | None =>
                alert "Error" failedMessage ;;
                setFetchingLocation false
            | Some currentLocation =>
                updateLocationStatus (user st) (Some g) currentLocation
                                     (clockSnapshot r) ;;
                if negb (isInside currentLocation g) then
                  alert "Error" mustBeInsideMessage ;;
                  setFetchingLocation false
                else
                  let today := isoDate (clockToday r) in
                  let attendanceKey := (User.email u, today) in
                  let currentTime := clockNow r in
                  attendanceData <- getAttendance attendanceKey ;;
                  match attendanceData, attendanceStatus st with
                  | None, _ | _, Some false =>
                      setAttendanceStatus true ;;
                      setAttendance attendanceKey
                        (checkInData u today currentTime currentLocation) ;;
                      alert "Success" (CheckedInAt currentTime) ;;
                      setFetchingLocation false
                  | Some storedData, _ =>
                      let totalHours :=
                        calculateHours (AttendanceRecord.checkInTime storedData)
                                       currentTime in
                      setAttendanceStatus false ;;
                      setAttendance attendanceKey
                        (updatedData storedData currentTime currentLocation
                                     totalHours) ;;
                      alert "Success" (CheckedOutAt currentTime totalHours) ;;
                      setFetchingLocation false
                  end
            end
      end
  end.

(** [refreshLocation] *)
Definition refreshLocation (position : option Coords.t) (now : Z)
  : Handler State unit :=
  st <- getState ;;
  setFetchingLocation true ;;
  emit GetCurrentPosition ;;
  match position with
  | Some currentLocation =>
      setLocation currentLocation ;;
      updateLocationStatus (user st) (geofence (user st)) currentLocation now ;;
      setFetchingLocation false
  | None =>
      alert "Error" (Text "Could not update your location.") ;;
      setFetchingLocation false
  end.

(** The attendance button, the only caller of [handleAttendance]: it is
    rendered when there is a geofence and disabled while a position is
    being fetched or when the cached status is not [inside]. *)
Definition buttonEnabled (st : State) : bool :=
  match geofence (user st) with
  | Some _ =>
      negb (fetchingLocation st || negb (isInsideStatus (locationStatus st)))
  | None => false
  end.

(** A press: a disabled or absent button runs nothing. *)
Definition pressAttendance (r : Readings) : Handler State unit :=
  st <- getState ;;
  if buttonEnabled st then handleAttendance r else ret tt.

End HomeScreen.

(** ** The distance on binary64 numbers

    [calculateDistance] and the test made on its result, on the numbers
    the engine computes with. Addition, subtraction, multiplication,
    division and [Math.sqrt] are the IEEE 754 operations; [Math.sin],
    [Math.cos] and [Math.atan2] are approximations the engine's library
    chooses, so they come as a parameter. *)

Module Binary64.
Import PrimFloat.
Local Open Scope float_scope.

Record Math : Type := mkMath {
  sin : float -> float;
  cos : float -> float;
  atan2 : float -> float -> float }.

(** [Math.PI] *)
Definition PI : float := 0x1.921fb54442d18p+1.

Definition deg2rad (deg : float) : float := deg * (PI / 180).

Definition calculateDistance (M : Math) (lat1 lon1 lat2 lon2 : float) : float :=
  let R := 6371 in
  let dLat := deg2rad (lat2 - lat1) in
  let dLon := deg2rad (lon2 - lon1) in
  let a :=
    sin M (dLat / 2) * sin M (dLat / 2) +
    cos M (deg2rad lat1) * cos M (deg2rad lat2) *
    sin M (dLon / 2) * sin M (dLon / 2) in
  let c := 2 * atan2 M (sqrt a) (sqrt (1 - a)) in
  R * c.

(** [distance <= geofence.radius / 1000], with the position first and
    the centre of the geofence second. *)
Definition isInside (M : Math) (lat lon centreLat centreLon radius : float) : bool :=
  let distance := calculateDistance M lat lon centreLat centreLon in
  distance <=? radius / 1000.

End Binary64.

(** The per-day state the ledger encodes through its optional fields. *)
Inductive DayState : Type := NoRecord | CheckedIn | CheckedOut.

Definition dayState (rec : option AttendanceRecord.t) : DayState :=
  match rec with
  | None => NoRecord
  | Some r =>
      match AttendanceRecord.checkOutTime r with
      | Some _ => CheckedOut
      | None => CheckedIn
      end
  end.


(** The home screen's [attendanceStatus] is in step with the day's
    record: [true] exactly when there is a record without check-out, as
    [getAttendanceStatus] sets it. *)
Definition inStep (status : option bool) (rec : option AttendanceRecord.t) : Prop :=
  status = Some (match dayState rec with CheckedIn => true | _ => false end).

(** ** Local time

    The device's time zone as [Date] reads it: [localTZA t true] is the
    offset of local time from UTC, in ms, at the instant [t], and
    [localTZA w false] the offset in force at the local wall-clock
    reading [w]. The two differ around a change of offset. *)

Module Zone.

Record t : Type := mk { localTZA : Z -> bool -> Z }.

(** A device whose offset never changes. *)
Definition fixed (offset : Z) : t := mk (fun _ _ => offset).

(** [LocalTime(t)] and [UTC(w)]. *)
Definition localTime (zone : t) (instant : Z) : Z :=
  instant + localTZA zone instant true.
Definition utc (zone : t) (wall : Z) : Z :=
  wall - localTZA zone wall false.


End Zone.

(** ** Calendar arithmetic for the period filters *)

Module Calendar.

(** Day number of the civil date [y]-[m]-[d] (proleptic Gregorian, day 0
    is 1970-01-01); linear in [d], so a day past the end of the month
    rolls over into the next one, as [Date] does. *)
Definition daysFromCivil (y m d : Z) : Z :=
  let y := if m <=? 2 then y - 1 else y in
  let era := y / 400 in
  let yoe := y - era * 400 in
  let doy := (153 * (if 2 <? m then m - 3 else m + 9) + 2) / 5 + d - 1 in
  let doe := yoe * 365 + yoe / 4 - yoe / 100 + doy in
  era * 146097 + doe - 719468.

Definition civilFromDays (z : Z) : Z * Z * Z :=
  let z := z + 719468 in
  let era := z / 146097 in
  let doe := z - era * 146097 in
  let yoe := (doe - doe / 1460 + doe / 36524 - doe / 146096) / 365 in
  let doy := doe - (365 * yoe + yoe / 4 - yoe / 100) in
  let mp := (5 * doy + 2) / 153 in
  let d := doy - (153 * mp + 2) / 5 + 1 in
  let m := if mp <? 10 then mp + 3 else mp - 9 in
  ((if m <=? 2 then yoe + era * 400 + 1 else yoe + era * 400), m, d).

(** [d.setDate(d.getDate() - n)]: the local reading of [t] moved back by
    [n] days, same time of day, and read back as an instant. *)
Definition minusDays (zone : Zone.t) (t n : Z) : Z :=
  let wall := Zone.localTime zone t in
  Zone.utc zone (wall - n * msPerDay).

(** [d.setMonth(d.getMonth() - 1)]: the local reading of [t] moved to
    the same day of the month and time of day one month earlier (a day
    past the end of that month rolls over), and read back as an instant. *)
Definition minusMonth (zone : Zone.t) (t : Z) : Z :=
  let wall := Zone.localTime zone t in
  let '(y, m, d) := civilFromDays (wall / msPerDay) in
  let month := m - 2 in
  let ym := y + month / 12 in
  let mn := month mod 12 in
  Zone.utc zone
    ((daysFromCivil ym (mn + 1) 1 + (d - 1)) * msPerDay + wall mod msPerDay).

End Calendar.

(** ** Attendance screen: the ledger query *)

Module AttendanceScreen.

Local Open Scope handler_scope.

Inductive Filter : Type := all | week | month.

Record State : Type := mkState {
  user : option User.t;
  attendanceHistory : list AttendanceRecord.t;
  filter : Filter;
  departments : list string;
  selectedDept : string;
  allUsers : list User.t;
  loading : bool;
  refreshing : bool }.

Definition setAttendanceHistory (h : list AttendanceRecord.t) : Handler State unit :=
  setState (fun s => mkState (user s) h (filter s) (departments s)
                             (selectedDept s) (allUsers s) (loading s) (refreshing s)).
Definition setDepartments (d : list string) : Handler State unit :=
  setState (fun s => mkState (user s) (attendanceHistory s) (filter s) d
                             (selectedDept s) (allUsers s) (loading s) (refreshing s)).
Definition setAllUsers (us : list User.t) : Handler State unit :=
  setState (fun s => mkState (user s) (attendanceHistory s) (filter s)
                             (departments s) (selectedDept s) us (loading s)
                             (refreshing s)).
Definition setLoading (v : bool) : Handler State unit :=
  setState (fun s => mkState (user s) (attendanceHistory s) (filter s)
                             (departments s) (selectedDept s) (allUsers s) v
                             (refreshing s)).
Definition setRefreshing (v : bool) : Handler State unit :=
  setState (fun s => mkState (user s) (attendanceHistory s) (filter s)
                             (departments s) (selectedDept s) (allUsers s)
                             (loading s) v).

(** [AsyncStorage.getAllKeys], restricted to the keys that start with
    [attendance_], followed by [multiGet]: the ledger's entries, in the
    order in which the store lists its keys. *)
Definition multiGetAttendance {S} : Handler S (list (string * Z * AttendanceRecord.t)) :=
  fun st db => (map_to_list (Store.attendance db), st, db, []).

(** [new Date(a.checkInTime || a.date || 0).getTime()] *)
Definition sortTime (a : AttendanceRecord.t) : Z :=
  match AttendanceRecord.checkInTime a with
  | Some t => t
  | None =>
      match AttendanceRecord.date a with
      | Some d => dateTime d
      | None => 0
      end
  end.

(** For an admin, a record without name or department takes them from
    the employee with the same e-mail. *)
Definition complete (user : User.t) (employees : list User.t)
    (record : AttendanceRecord.t) : AttendanceRecord.t :=
  if User.isAdmin user &&
     (negb (truthy (AttendanceRecord.name record)) ||
      negb (truthy (AttendanceRecord.department record)))
  then
    match List.find (fun e => String.eqb (User.email e) (AttendanceRecord.email record))
                    employees with
    | Some employeeData =>
        AttendanceRecord.mk
          (AttendanceRecord.date record) (AttendanceRecord.email record)
          (strOr (AttendanceRecord.name record) (User.name employeeData))
          (strOr (AttendanceRecord.department record) (User.department employeeData))
          (AttendanceRecord.checkInTime record)
          (AttendanceRecord.checkInLocation record)
          (AttendanceRecord.checkOutTime record)
          (AttendanceRecord.checkOutLocation record)
          (AttendanceRecord.totalHours record)
          (AttendanceRecord.status record)
    | None => record
    end
  else record.

Definition noAttendance : string := "No attendance recorded".

(** The pseudo-record shown for an employee; [today] and [now] are the
    two clock readings its construction makes. *)
Definition placeholder (emp : User.t) (today now : Z) : AttendanceRecord.t :=
  AttendanceRecord.mk (Some (isoDate today)) (User.email emp) (User.name emp)
    (User.department emp) (Some now) None None None None (Some noAttendance).

(** [employees.map(emp => ...)], the [i]-th reading of the clock during
    the query being [clock i]. *)
Fixpoint placeholders (clock : nat -> Z) (i : nat) (employees : list User.t)
  : list AttendanceRecord.t :=
  match employees with
  | [] => []
  | emp :: rest =>
      placeholder emp (clock i) (clock (S i)) :: placeholders clock (S (S i)) rest
  end.

(** [history.sort((a, b) => dateB.getTime() - dateA.getTime())]: newest
    first, records with the same time in their order of arrival. *)
Fixpoint insertByTime (a : AttendanceRecord.t) (l : list AttendanceRecord.t)
  : list AttendanceRecord.t :=
  match l with
  | [] => [a]
  | b :: l' =>
      if sortTime a <? sortTime b then b :: insertByTime a l' else a :: l
  end.

Definition sortByTime (l : list AttendanceRecord.t) : list AttendanceRecord.t :=
  foldr insertByTime [] l.

(** The order of the displayed sequence: [a] is shown before [b] only if
    it is not older. *)
Definition newestFirst (a b : AttendanceRecord.t) : Prop :=
  sortTime b <= sortTime a.

(** [Array.from(new Set(l))]: first occurrences, in order. *)
Fixpoint unique (l : list string) (seen : list string) : list string :=
  match l with
  | [] => []
  | x :: l' =>
      if existsb (String.eqb x) seen then unique l' seen
      else x :: unique l' (x :: seen)
  end.

Definition departmentsOf (users : list User.t) : list string :=
  let uniqueDepts :=
    unique (omap (fun u => if truthy (User.department u) then User.department u
                           else None) users) [] in
  let filteredDepts := List.filter (fun dept => negb (String.eqb dept "All")) uniqueDepts in
  "All"%string :: filteredDepts.

Definition fetchHistory (clock : nat -> Z) : Handler State unit :=
  st <- getState ;;
  match user st with
  | None => ret tt
  | Some user =>
      setLoading true ;;
      usersData <- getUsers ;;
      let users := default [] usersData in
      setAllUsers users ;;
      let employees := List.filter User.isEmployee users in
      attendanceData <- multiGetAttendance ;;
      let history := map (fun kv => complete user employees kv.2) attendanceData in
      let history :=
        if User.isAdmin user && (length history =? 0)%nat &&
           (0 <? length employees)%nat
        then placeholders clock 0 employees
        else history in
      let history := sortByTime history in
      setDepartments (departmentsOf users) ;;
      let history :=
        if negb (User.isAdmin user)
        then List.filter (fun rec => String.eqb (AttendanceRecord.email rec) (User.email user))
                         history
        else history in
      setAttendanceHistory history ;;
      setLoading false ;;
      setRefreshing false
  end.

Definition inDepartment (dept : string) (rec : AttendanceRecord.t) : bool :=
  match AttendanceRecord.department rec with
  | Some d => String.eqb d dept
  | None => false
  end.

Definition inPeriod (f : Filter) (tz : Zone.t) (now : Z)
    (item : AttendanceRecord.t) : bool :=
  let dateObj := sortTime item in
  match f with
  | week =>
      let weekAgo := Calendar.minusDays tz now 7 in
      (weekAgo <=? dateObj) && (dateObj <=? now)
  | month =>
      let monthAgo := Calendar.minusMonth tz now in
      (monthAgo <=? dateObj) && (dateObj <=? now)
  | all => true
  end.

(** [filteredHistory], recomputed at each render; [now] is the clock
    reading it makes and [tz] the device's time zone. *)
Definition filteredHistory (tz : Zone.t) (now : Z) (st : State)
  : list AttendanceRecord.t :=
  let history := attendanceHistory st in
  let history :=
    match user st with
    | Some u =>
        if User.isAdmin u && negb (String.eqb (selectedDept st) "All")
        then List.filter (inDepartment (selectedDept st)) history
        else history
    | None => history
    end in
  match filter st with
  | all => history
  | f => List.filter (inPeriod f tz now) history
  end.

End AttendanceScreen.

(** ** Profile screen: geofence assignment and role requests *)

Module ProfileScreen.

Local Open Scope handler_scope.

(** The four text inputs of the geofence form. *)
Module GeofenceLocation.
Record t : Type := mk {
  name : string;
  latitude : string;
  longitude : string;
  radius : string }.
End GeofenceLocation.

Module RoleRequest.
Record t : Type := mk { id : string; email : string; name : string }.
End RoleRequest.

Record State : Type := mkState {
  isSaving : bool;
  showGeofenceModal : bool;
  employees : list User.t;
  selectedEmployee : option User.t;
  geofenceLocation : GeofenceLocation.t;
  roleRequests : list RoleRequest.t }.

Definition setIsSaving (v : bool) : Handler State unit :=
  setState (fun s => mkState v (showGeofenceModal s) (employees s)
                             (selectedEmployee s) (geofenceLocation s) (roleRequests s)).
Definition setShowGeofenceModal (v : bool) : Handler State unit :=
  setState (fun s => mkState (isSaving s) v (employees s)
                             (selectedEmployee s) (geofenceLocation s) (roleRequests s)).
Definition setSelectedEmployee (v : option User.t) : Handler State unit :=
  setState (fun s => mkState (isSaving s) (showGeofenceModal s) (employees s)
                             v (geofenceLocation s) (roleRequests s)).
Definition setRoleRequests (f : list RoleRequest.t -> list RoleRequest.t)
  : Handler State unit :=
  setState (fun s => mkState (isSaving s) (showGeofenceModal s) (employees s)
                             (selectedEmployee s) (geofenceLocation s)
                             (f (roleRequests s))).

(** The object stored as [assignedLocation]: the text of the inputs. *)
Definition enteredLocation (f : GeofenceLocation.t) : AssignedLocation.t :=
  AssignedLocation.mk (Js.Str (GeofenceLocation.name f))
                      (Js.Str (GeofenceLocation.latitude f))
                      (Js.Str (GeofenceLocation.longitude f))
                      (Js.Str (GeofenceLocation.radius f)).

(** [{...u, assignedLocation: ...}] *)
Definition withAssignedLocation (u : User.t) (a : AssignedLocation.t) : User.t :=
  User.mk (User.id u) (User.email u) (User.password u) (User.name u)
          (User.department u) (User.role u) (Some a)
          (User.roleChangeRequested u) (User.notificationSettings u).

Definition handleSaveGeofence : Handler State unit :=
  st <- getState ;;
  match selectedEmployee st with
  | None => alert "Error" (Text "Please select an employee")
  | Some selected =>
      setIsSaving true ;;
      let form := geofenceLocation st in
      let latitude := parseFloat (Js.Str (GeofenceLocation.latitude form)) in
      let longitude := parseFloat (Js.Str (GeofenceLocation.longitude form)) in
      let radius := parseFloat (Js.Str (GeofenceLocation.radius form)) in
      if Js.isNaN latitude || Js.isNaN longitude || Js.isNaN radius then
        alert "Error" (Text "Please enter valid coordinates and radius") ;;
        setIsSaving false
      else
        usersData <- getUsers ;;
        match usersData with
        | None =>
            alert "Error" (Text "Failed to update user data") ;;
            setIsSaving false
        | Some users =>
            let updatedUsers :=
              map (fun u =>
                     if String.eqb (User.email u) (User.email selected)
                     then withAssignedLocation u (enteredLocation form)
                     else u) users in
            setUsers updatedUsers ;;
            setShowGeofenceModal false ;;
            setSelectedEmployee None ;;
            alert "Success" (GeofenceAssignedTo (User.name selected)) ;;
            setIsSaving false
        end
  end.

Definition handleRejectRequest (userId : string) : Handler State unit :=
  setRoleRequests
    (List.filter (fun req => negb (String.eqb (RoleRequest.id req) userId))).

End ProfileScreen.

(** ** A worked scenario

    An employee whose geofence was entered on the profile screen as
    centre (37.7749, -122.4194) and radius 100 m, standing at the centre
    on day 20000 of the epoch. *)

Module Scenario.
Import HomeScreen.

Definition office : AssignedLocation.t :=
  AssignedLocation.mk (Js.Str "Office") (Js.Str "37.7749")
                      (Js.Str "-122.4194") (Js.Str "100").

Definition ana : User.t :=
  User.mk "u1" "ana@example.com" "secret" (Some "Ana") (Some "Engineering")
          "employee" (Some office) false None.

Definition boundary : Geofence.t :=
  Geofence.mk (Js.Fin 37.7749) (Js.Fin (-122.4194)) (Js.Fin 100)
              (Js.Str "Office").

Definition desk : Coords.t := Coords.mk 37.7749 (-122.4194).

(** A point one degree of latitude south of the desk. *)
Definition street : Coords.t := Coords.mk 36.7749 (-122.4194).

Definition midnight : Z := 20000 * msPerDay.

(** A reading of the device at the desk, [ms] milliseconds into the day. *)
Definition atDesk (ms : Z) : Readings :=
  mkReadings (Some desk) (midnight + ms) (midnight + ms) (midnight + ms).

(** A reading taken from the street at 09:00. *)
Definition fromStreet : Readings :=
  mkReadings (Some street) (midnight + 9 * msPerHour) (midnight + 9 * msPerHour)
             (midnight + 9 * msPerHour).

Definition at0900 : Readings := atDesk (9 * msPerHour).
Definition at1800 : Readings := atDesk (18 * msPerHour).

(** The screen once mounted (status sampled inside, no record today) and
    the store it runs on. *)
Definition mounted : State := mkState (Some ana) (Some desk) inside (Some false) false.
Definition emptyLedger : Store.t := Store.mk (Some [ana]) None ∅.

(** The screen and the store after a refresh of the location made from
    the street at 08:00, before the walk to the desk. *)
Definition afterStreetRefresh :=
  refreshLocation (Some street) (midnight + 8 * msPerHour) mounted emptyLedger.
Definition stale : State := stateOf afterStreetRefresh.
Definition staleStore : Store.t := storeOf afterStreetRefresh.

(** Three presses of the attendance button on the same day. *)
Definition afterCheckIn := handleAttendance at0900 mounted emptyLedger.

Definition today : string * Z := ("ana@example.com"%string, 20000).

(** A ledger whose only record, for today, is closed. *)
Definition closedRecord : AttendanceRecord.t :=
  AttendanceRecord.mk (Some 20000) "ana@example.com" (Some "Ana")
    (Some "Engineering") (Some (midnight + 9 * msPerHour)) (Some desk)
    (Some (midnight + 17 * msPerHour)) (Some desk) (Some 8%Q) None.
Definition closedLedger : Store.t :=
  Store.mk (Some [ana]) None {[ today := closedRecord ]}.

(** A user nobody assigned a geofence to, and the screen of that user. *)
Definition bo : User.t :=
  User.mk "u2" "bo@example.com" "secret" (Some "Bo") (Some "Sales")
          "employee" None false None.
Definition unassigned : State := mkState (Some bo) (Some desk) unknown (Some false) false.

Definition staff : Store.t := Store.mk (Some [ana; bo]) None ∅.

(** An admin, and the attendance screen as the admin and as Ana open it. *)
Definition root : User.t :=
  User.mk "u0" "root@example.com" "secret" (Some "Root") (Some "Management")
          "admin" None false None.

Definition adminView (f : AttendanceScreen.Filter) (dept : string)
  : AttendanceScreen.State :=
  AttendanceScreen.mkState (Some root) [] f [] dept [] true false.

Definition anaView : AttendanceScreen.State :=
  AttendanceScreen.mkState (Some ana) [] AttendanceScreen.month [] "All" [] true false.

(** A clock that advances by one millisecond per reading, from 18:00. *)
Definition tick (i : nat) : Z := midnight + 18 * msPerHour + Z.of_nat i.

(** The admin's profile screen, about to assign the office to Bo, with
    two role requests pending. *)
Definition officeForm : ProfileScreen.GeofenceLocation.t :=
  ProfileScreen.GeofenceLocation.mk "Office" "37.7749" "-122.4194" "100".

Definition assigning : ProfileScreen.State :=
  ProfileScreen.mkState false true [ana; bo] (Some bo) officeForm
    [ProfileScreen.RoleRequest.mk "u1" "ana@example.com" "Ana";
     ProfileScreen.RoleRequest.mk "u2" "bo@example.com" "Bo"].

End Scenario.

(** ** Invariants of the ledger *)

(** Every record sits under the key made of its own e-mail and date, as
    the records written by [handleAttendance] do. *)
Definition wellKeyed (ledger : gmap (string * Z) AttendanceRecord.t) : Prop :=
  forall (k : string * Z) (rec : AttendanceRecord.t),
    ledger !! k = Some rec ->
    AttendanceRecord.email rec = k.1 /\ AttendanceRecord.date rec = Some k.2.

(** ** Attendance screen: the statistics strip *)

Module AttendanceStats.

(** [Number.prototype.toFixed(1)], as the number of tenths, on the exact
    average (see [HomeScreen.toFixed2] for ties). *)
Definition toFixed1 (x : Q) : Z :=
  let n := Qfloor (Qabs x * 10 + (1 # 2))%Q in
  if Qlt_le_dec x 0 then - n else n.

(** Truthiness of [item.totalHours]: absent and 0 are falsy. *)
Definition hasHours (item : AttendanceRecord.t) : bool :=
  match AttendanceRecord.totalHours item with
  | Some h => negb (Qeq_bool h 0)
  | None => false
  end.

Definition isSome {A} (o : option A) : bool :=
  match o with Some _ => true | None => false end.

(** [item.totalHours || 0] *)
Definition hoursOf (item : AttendanceRecord.t) : Q :=
  match AttendanceRecord.totalHours item with
  | Some h => h
  | None => 0
  end.

Record t : Type := mk {
  total : nat;
  checkIns : nat;
  checkOuts : nat;
  avgHours : Z }.

(** [stats], recomputed from the filtered history; [avgHours] is the
    number of tenths that [toFixed(1)] prints. *)
Definition stats (filteredHistory : list AttendanceRecord.t) : t :=
  let total := length filteredHistory in
  let checkIns :=
    length (List.filter
              (fun item => isSome (AttendanceRecord.checkInTime item) &&
                           negb (isSome (AttendanceRecord.checkOutTime item)))
              filteredHistory) in
  let checkOuts :=
    length (List.filter (fun item => isSome (AttendanceRecord.checkOutTime item))
                        filteredHistory) in
  let recordsWithHours := List.filter hasHours filteredHistory in
  let avgHours :=
    if (0 <? length recordsWithHours)%nat
    then (foldl (fun sum item => sum + hoursOf item) 0 recordsWithHours
          / inject_Z (Z.of_nat (length recordsWithHours)))%Q
    else 0%Q in
  mk total checkIns checkOuts (toFixed1 avgHours).

End AttendanceStats.

(** ** Profile screen: clean-up of the default office, employee list *)

Module ProfileAdmin.

Local Open Scope handler_scope.

(** The coordinates of the default office the one-time clean-up looks
    for. *)
Definition defaultLatitude : R := 16.732237531322607%R.
Definition defaultLongitude : R := 74.24010578614681%R.

(** [u.assignedLocation && u.assignedLocation.latitude === ... &&
    u.assignedLocation.longitude === ...]: strict equality with a number,
    so a coordinate stored as text never matches. *)
Definition hasDefaultOffice (u : User.t) : bool :=
  match User.assignedLocation u with
  | Some a =>
      match AssignedLocation.latitude a, AssignedLocation.longitude a with
      | Js.Num x, Js.Num y =>
          (if Req_dec_T x defaultLatitude then true else false) &&
          (if Req_dec_T y defaultLongitude then true else false)
      | _, _ => false
      end
  | None => false
  end.

(** The object [{}]. *)
Definition emptyLocation : AssignedLocation.t :=
  AssignedLocation.mk Js.Undefined Js.Undefined Js.Undefined Js.Undefined.

(** [cleanupDefaultOffice]: the flag [changed] is raised by the first
    user found with the default office. *)
Definition cleanupDefaultOffice {S} : Handler S unit :=
  usersData <- getUsers ;;
  let users := default [] usersData in
  let changed := existsb hasDefaultOffice users in
  let users :=
    map (fun u => if hasDefaultOffice u
                  then ProfileScreen.withAssignedLocation u emptyLocation
                  else u) users in
  if changed then setUsers users else ret tt.

Definition setEmployees (v : list User.t) : Handler ProfileScreen.State unit :=
  setState (fun s => ProfileScreen.mkState
                       (ProfileScreen.isSaving s) (ProfileScreen.showGeofenceModal s) v
                       (ProfileScreen.selectedEmployee s)
                       (ProfileScreen.geofenceLocation s) (ProfileScreen.roleRequests s)).

(** [manageEmployeeLocations]; [user] is the signed-in user of the
    authentication context. *)
Definition manageEmployeeLocations (user : option User.t)
  : Handler ProfileScreen.State unit :=
  if match user with Some u => User.isAdmin u | None => false end then
    ProfileScreen.setIsSaving true ;;
    usersData <- getUsers ;;
    match usersData with
    | None =>
        alert "Error" (Text "No users found") ;;
        ProfileScreen.setIsSaving false
    | Some users =>
        let employeesList := List.filter User.isEmployee users in
        if (length employeesList =? 0)%nat then
          alert "Info" (Text "No employees found to assign locations") ;;
          ProfileScreen.setIsSaving false
        else
          setEmployees employeesList ;;
          ProfileScreen.setShowGeofenceModal true ;;
          ProfileScreen.setIsSaving false
    end
  else ret tt.

End ProfileAdmin.

(** ** Sign-in and registration screens

    Both screens call into the authentication context. A context
    function is a parameter of the handler that calls it: it may read
    and write the store and perform effects of its own, it cannot touch
    the state of the screen, and it either settles or throws an error
    whose [message] may be absent. *)

Module Auth.

Inductive Outcome : Type :=
  | Resolved
  | Rejected (message : option string).

Definition Call : Type := Store.t -> Outcome * Store.t * list Effect.

Definition call {S} (c : Call) : Handler S Outcome :=
  fun st db => let '(o, db1, e) := c db in (o, st, db1, e).

(** [error.message || dflt] *)
Definition messageOr (message : option string) (dflt : string) : string :=
  match message with
  | Some m => if String.eqb m "" then dflt else m
  | None => dflt
  end.

End Auth.

Module LoginScreen.

Local Open Scope handler_scope.

Record State : Type := mkState {
  email : string;
  password : string;
  userMessage : string;
  isLoggingIn : bool }.

Definition setUserMessage (v : string) : Handler State unit :=
  setState (fun s => mkState (email s) (password s) v (isLoggingIn s)).
Definition setIsLoggingIn (v : bool) : Handler State unit :=
  setState (fun s => mkState (email s) (password s) (userMessage s) v).

Definition adminUser : User.t :=
  User.mk "admin" "admin@onsite.com" "admin123" (Some "Admin") (Some "Admin")
          "admin" None false None.

(** The effect run when the screen mounts. *)
Definition checkStoredUsers : Handler State unit :=
  usersData <- getUsers ;;
  let users := default [] usersData in
  if (0 <? length users)%nat then ret tt
  else
    let adminExists := existsb User.isAdmin users in
    if negb adminExists then
      setUsers [adminUser] ;;
      setUserMessage "Default admin account was created: admin@onsite.com / admin123"
    else ret tt.

Definition noAccountMessage (email : string) : Message :=
  Text (String.append "No account found with email: " email).

(** [handleLogin]; the [finally] clause runs on every path, the early
    return included. *)
Definition handleLogin (login : string -> string -> Auth.Call) : Handler State unit :=
  st <- getState ;;
  (if String.eqb (email st) "" || String.eqb (password st) "" then
     alert "Error" (Text "Please fill in all fields")
   else
     setIsLoggingIn true ;;
     outcome <- Auth.call (login (email st) (password st)) ;;
     match outcome with
     | Auth.Resolved => ret tt
     | Auth.Rejected message =>
         usersData <- getUsers ;;
         let users := default [] usersData in
         let userWithEmail :=
           List.find (fun u => String.eqb (User.email u) (email st)) users in
         match userWithEmail with
         | None => alert "Login Failed" (noAccountMessage (email st))
         | Some found =>
             if negb (String.eqb (User.password found) (password st)) then
               alert "Login Failed" (Text "Incorrect password. Please try again.")
             else
               alert "Login Error"
                     (Text (Auth.messageOr message "Something went wrong during login"))
         end
     end) ;;
  setIsLoggingIn false.

End LoginScreen.

Module RegisterScreen.

Local Open Scope handler_scope.

Module FormState.
Record t : Type := mk {
  email : string;
  password : string;
  confirmPassword : string;
  name : string;
  department : string;
  inviteToken : string }.
End FormState.

Record State : Type := mkState {
  formState : FormState.t;
  hasInvitation : bool }.

(** [register(email, password, {name, department}, token)] *)
Definition Register : Type :=
  string -> string -> string -> string -> option string -> Auth.Call.

Definition blank (s : string) : bool := String.eqb s "".

(** [handleRegister]; dismissing the keyboard and the button of the
    success notice act on nothing modelled here. *)
Definition handleRegister (register : Register) : Handler State unit :=
  st <- getState ;;
  let f := formState st in
  if blank (FormState.email f) || blank (FormState.password f)
     || blank (FormState.confirmPassword f) || blank (FormState.name f)
     || blank (FormState.department f) then
    alert "Missing Information" (Text "Please fill in all required fields")
  else if negb (String.eqb (FormState.password f) (FormState.confirmPassword f)) then
    alert "Password Mismatch"
          (Text "Passwords do not match. Please check and try again.")
  else if hasInvitation st && blank (FormState.inviteToken f) then
    alert "Token Required" (Text "Please enter your admin invitation token")
  else
    let token := if hasInvitation st then Some (FormState.inviteToken f) else None in
    outcome <- Auth.call (register (FormState.email f) (FormState.password f)
                                   (FormState.name f) (FormState.department f) token) ;;
    match outcome with
    | Auth.Resolved =>
        alert "Registration Successful"
              (Text "Your account has been created successfully")
    | Auth.Rejected message =>
        alert "Registration Failed"
              (Text (Auth.messageOr message "An error occurred during registration"))
    end.

End RegisterScreen.

(** ** Further inputs of the worked scenario *)

Module Cases.

(** A press during which the position query fails. *)
Definition noFix : HomeScreen.Readings :=
  HomeScreen.mkReadings None Scenario.midnight Scenario.midnight Scenario.midnight.

(** Ana after the clean-up emptied her assigned location, on her home
    screen. *)
Definition cleared : User.t :=
  ProfileScreen.withAssignedLocation Scenario.ana ProfileAdmin.emptyLocation.

Definition clearedHome : HomeScreen.State :=
  HomeScreen.mkState (Some cleared) (Some Scenario.desk) HomeScreen.inside
                     (Some false) false.


(** New York around the end of daylight saving time on 3 November 2024
    (day 20030): four hours behind UTC until 06:00 UTC, which is 02:00 on
    the wall clock, five hours behind from then on. *)
Definition newYork : Zone.t :=
  Zone.mk (fun t isUTC =>
             let change :=
               20030 * msPerDay + (if isUTC then 6 else 2) * msPerHour in
             if t <? change then - 4 * msPerHour else - 5 * msPerHour).

(** Noon in New York on 5 November 2024. *)
Definition noon : Z := 20032 * msPerDay + 17 * msPerHour.

(** Three records on file at that moment: Ana's check-in of 29 October
    at 12:30 in New York, 7 days and 30 minutes earlier; her check-in of
    24 October; Bo's check-in of the day before. *)
Definition lastWeek : AttendanceRecord.t :=
  AttendanceRecord.mk (Some 20025) "ana@example.com" (Some "Ana")
    (Some "Engineering") (Some (noon - 7 * msPerDay - 30 * 60000)) None
    None None None None.
Definition earlier : AttendanceRecord.t :=
  AttendanceRecord.mk (Some 20020) "ana@example.com" (Some "Ana")
    (Some "Engineering") (Some (20020 * msPerDay + 13 * msPerHour)) None
    None None None None.
Definition yesterday : AttendanceRecord.t :=
  AttendanceRecord.mk (Some 20031) "bo@example.com" (Some "Bo")
    (Some "Sales") (Some (20031 * msPerDay + 14 * msPerHour)) None
    None None None None.

Definition autumn : Store.t :=
  Store.mk (Some [Scenario.ana; Scenario.bo; Scenario.root]) None
    (<[ ("ana@example.com"%string, 20025) := lastWeek ]>
       (<[ ("ana@example.com"%string, 20020) := earlier ]>
          {[ ("bo@example.com"%string, 20031) := yesterday ]})).

End Cases.

(** ** Two antipodal points on binary64 numbers *)

Module Antipodes.
Import PrimFloat.
Local Open Scope float_scope.

(** The sines and cosines the distance between the antipodal points
    (-87.5, 0) and (87.5, 180) asks for, each the binary64 number nearest
    to the exact value; elsewhere this library answers NaN. *)
Definition nearest : Binary64.Math :=
  Binary64.mkMath
    (fun x => if x =? 0x1.86f4291ecf2f4p+0 then 0x1.ff833f9da45f7p-1
              else if x =? 0x1.921fb54442d18p+0 then 1 else nan)
    (fun x => if abs x =? 0x1.86f4291ecf2f4p+0 then 0x1.65547c4694e12p-5
              else nan)
    (fun _ _ => nan).

End Antipodes.
(** * Properties *)

(** ** [parseFloat] on sample inputs *)

Example parseFloat_radius :
  ParseFloat.unsignedLiteral "100" = ParseFloat.Decimal 100 0.
Proof. reflexivity. Qed.

Example parseFloat_latitude :
  ParseFloat.unsignedLiteral "37.7749abc" = ParseFloat.Decimal 377749 (-4).
Proof. reflexivity. Qed.

Example parseFloat_exp :
  ParseFloat.unsignedLiteral ".5e-3x" = ParseFloat.Decimal 5 (-4).
Proof. reflexivity. Qed.

Example parseFloat_dot : ParseFloat.unsignedLiteral ".e3" = ParseFloat.NoLiteral.
Proof. reflexivity. Qed.

Example parseFloat_trailing_dot :
  ParseFloat.unsignedLiteral "5.e" = ParseFloat.Decimal 5 0.
Proof. reflexivity. Qed.

Example parseFloat_empty : parseFloat (Js.Str "  ") = Js.NaN.
Proof. reflexivity. Qed.

Example parseFloat_signed :
  ParseFloat.signedLiteral "  -122.4194" = (true, ParseFloat.Decimal 1224194 (-4)).
Proof. reflexivity. Qed.

(** ** The calendar on sample dates *)

Example day_20000 : Calendar.civilFromDays 20000 = (2024, 10, 4).
Proof. reflexivity. Qed.

Example leap_day : Calendar.daysFromCivil 2000 2 29 = 11016.
Proof. reflexivity. Qed.

Example before_epoch : Calendar.civilFromDays (-1) = (1969, 12, 31).
Proof. reflexivity. Qed.

(** One month before 31 March 2024 is "31 February", that is 2 March. *)
Example month_before_march_31 :
  Calendar.minusMonth (Zone.fixed 0) (Calendar.daysFromCivil 2024 3 31 * msPerDay + 5)
  = Calendar.daysFromCivil 2024 3 2 * msPerDay + 5.
Proof. reflexivity. Qed.

(** One month before 15 January is 15 December of the year before, also
    west of Greenwich. *)
Example month_before_january_15 :
  Calendar.minusMonth (Zone.fixed (- 8 * msPerHour))
    (Calendar.daysFromCivil 2024 1 15 * msPerDay + 20 * msPerHour)
  = Calendar.daysFromCivil 2023 12 15 * msPerDay + 20 * msPerHour.
Proof. reflexivity. Qed.

(** The clocks of New York went back on 3 November 2024, day 20030. At
    noon two days later, seven days back on the wall clock is 7 days and
    an hour earlier; ten days after that, one month back is 31 days and
    an hour earlier. *)
Example day_20030 : Calendar.civilFromDays 20030 = (2024, 11, 3).
Proof. reflexivity. Qed.

Example week_before_noon :
  Calendar.minusDays Cases.newYork Cases.noon 7
  = Cases.noon - 7 * msPerDay - msPerHour.
Proof. reflexivity. Qed.

Example month_before_november_15 :
  Calendar.minusMonth Cases.newYork (Cases.noon + 10 * msPerDay)
  = Cases.noon + 10 * msPerDay - (31 * msPerDay + msPerHour).
Proof. reflexivity. Qed.

(** ** Numbers *)

Lemma leb_le (a b : Js.number) : Js.leb a b = true <-> Js.le a b.
Proof.
  destruct a as [|x|n1], b as [|y|n2]; simpl; try (split; [discriminate|tauto]).
  - destruct (Rle_dec x y); split; auto; discriminate.
  - destruct n2; simpl; split; auto; discriminate.
  - destruct n1; simpl; split; auto; discriminate.
  - destruct n1, n2; simpl; split; auto; try discriminate; intros [H|H]; discriminate.
Qed.

Lemma lt_not_le (a b : Js.number) : Js.lt b a -> ~ Js.le a b.
Proof.
  destruct a as [|x|n1], b as [|y|n2]; simpl; try tauto.
  - lra.
  - intros -> H; discriminate.
  - intros -> H; discriminate.
  - intros [-> ->] [H|H]; discriminate.
Qed.

(** ** The geofence evaluator *)

Section Evaluator.
Import HomeScreen.

Lemma atan2_0_1 : atan2 0 1 = 0%R.
Proof.
  unfold atan2. destruct (Rlt_dec 0 1) as [_|H]; [|lra].
  replace (0 / 1)%R with 0%R by lra. apply atan_0.
Qed.

(** A point is at distance 0 from itself. *)
Lemma haversine_self (lat lon : R) : haversine lat lon lat lon = 0%R.
Proof.
  unfold haversine, deg2rad.
  replace ((lat - lat) * (PI / 180) / 2)%R with 0%R by lra.
  replace ((lon - lon) * (PI / 180) / 2)%R with 0%R by lra.
  rewrite sin_0.
  replace (0 * 0 + cos (lat * (PI / 180)) * cos (lat * (PI / 180)) * 0 * 0)%R
    with 0%R by ring.
  rewrite sqrt_0. replace (1 - 0)%R with 1%R by ring. rewrite sqrt_1.
  rewrite atan2_0_1. ring.
Qed.

(** The quantity under the square roots is a number between 0 and 1. *)
Lemma hav_sum_bounds (lat1 lat2 dLon : R) :
  (0 <= hav (lat2 - lat1) + cos lat1 * cos lat2 * hav dLon <= 1)%R.
Proof.
  unfold hav.
  pose proof (cos_2a_sin ((lat2 - lat1) / 2)) as Hd.
  replace (2 * ((lat2 - lat1) / 2))%R with (lat2 - lat1)%R in Hd by lra.
  rewrite cos_minus in Hd.
  replace (2 * sin ((lat2 - lat1) / 2) * sin ((lat2 - lat1) / 2))%R
    with (2 * (sin ((lat2 - lat1) / 2) * sin ((lat2 - lat1) / 2)))%R in Hd
    by ring.
  pose proof (cos_plus lat2 lat1) as Hs.
  pose proof (COS_bound (lat2 + lat1)) as Hb1.
  pose proof (cos_minus lat2 lat1) as Hm.
  pose proof (COS_bound (lat2 - lat1)) as Hb2.
  pose proof (SIN_bound (dLon / 2)) as Hy.
  set (s := (sin (dLon / 2) * sin (dLon / 2))%R).
  assert (Hs01 : (0 <= s <= 1)%R) by (subst s; nra).
  set (x := (sin ((lat2 - lat1) / 2) * sin ((lat2 - lat1) / 2))%R) in *.
  set (P := (cos lat1 * cos lat2)%R).
  set (Q := (sin lat2 * sin lat1)%R) in *.
  assert (HP : (cos lat2 * cos lat1 = P)%R) by (subst P; ring).
  rewrite HP in *.
  assert (Hx : (x = (1 - (P + Q)) / 2)%R) by lra.
  clearbody s x P Q. subst x.
  replace ((1 - (P + Q)) / 2 + P * s)%R
    with ((1 - s) * ((1 - (P + Q)) / 2) + s * ((1 + (P - Q)) / 2))%R by field.
  split.
  - apply Rplus_le_le_0_compat; apply Rmult_le_pos; lra.
  - assert (H0 : ((1 - s) * ((1 - (P + Q)) / 2) <= (1 - s) * 1)%R)
      by (apply Rmult_le_compat_l; lra).
    assert (H1 : (s * ((1 + (P - Q)) / 2) <= s * 1)%R)
      by (apply Rmult_le_compat_l; lra).
    lra.
Qed.

Lemma atan2_asin (a : R) :
  (0 <= a <= 1)%R -> atan2 (sqrt a) (sqrt (1 - a)) = asin (sqrt a).
Proof.
  intros [H0 H1]. unfold atan2.
  destruct (Req_dec a 1) as [->|Hne].
  - replace (1 - 1)%R with 0%R by ring. rewrite sqrt_0, sqrt_1, asin_1.
    destruct (Rlt_dec 0 0) as [H|_]; [lra|].
    destruct (Rlt_dec 0 1) as [_|H]; [reflexivity|lra].
  - assert (Hpos : (0 < sqrt (1 - a))%R) by (apply sqrt_lt_R0; lra).
    destruct (Rlt_dec 0 (sqrt (1 - a))) as [_|H]; [|contradiction].
    assert (Hlt : (sqrt a < 1)%R)
      by (rewrite <- sqrt_1; apply sqrt_lt_1; lra).
    pose proof (sqrt_pos a) as Hge.
    rewrite asin_atan by lra. now rewrite Rsqr_sqrt.
Qed.

(** The distance the code computes is the great-circle distance of the
    specification. *)
Lemma haversine_greatCircle (lat1 lon1 lat2 lon2 : R) :
  haversine lat1 lon1 lat2 lon2 = greatCircleKm lat1 lon1 lat2 lon2.
Proof.
  unfold haversine, greatCircleKm.
  replace (deg2rad (lat2 - lat1)) with (deg2rad lat2 - deg2rad lat1)%R
    by (unfold deg2rad; ring).
  replace (deg2rad (lon2 - lon1)) with (deg2rad lon2 - deg2rad lon1)%R
    by (unfold deg2rad; ring).
  pose proof (hav_sum_bounds (deg2rad lat1) (deg2rad lat2)
                (deg2rad lon2 - deg2rad lon1)) as Hb.
  unfold hav in *.
  replace (sin ((deg2rad lat2 - deg2rad lat1) / 2) *
           sin ((deg2rad lat2 - deg2rad lat1) / 2) +
           cos (deg2rad lat1) * cos (deg2rad lat2) *
           sin ((deg2rad lon2 - deg2rad lon1) / 2) *
           sin ((deg2rad lon2 - deg2rad lon1) / 2))%R
    with (sin ((deg2rad lat2 - deg2rad lat1) / 2) *
          sin ((deg2rad lat2 - deg2rad lat1) / 2) +
          cos (deg2rad lat1) * cos (deg2rad lat2) *
          (sin ((deg2rad lon2 - deg2rad lon1) / 2) *
           sin ((deg2rad lon2 - deg2rad lon1) / 2)))%R by ring.
  rewrite atan2_asin by exact Hb. ring.
Qed.

(** Due north of a point, the distance is the arc of the meridian. *)
Lemma haversine_meridian (lat lon d : R) :
  (0 <= d <= 180)%R ->
  haversine lat lon (lat + d) lon = (6371 * deg2rad d)%R.
Proof.
  intros Hd. rewrite haversine_greatCircle. unfold greatCircleKm, hav.
  replace ((deg2rad lon - deg2rad lon) / 2)%R with 0%R by lra.
  rewrite sin_0.
  replace ((deg2rad (lat + d) - deg2rad lat) / 2)%R with (deg2rad d / 2)%R
    by (unfold deg2rad; lra).
  replace (sin (deg2rad d / 2) * sin (deg2rad d / 2) +
           cos (deg2rad lat) * cos (deg2rad (lat + d)) * (0 * 0))%R
    with (Rsqr (sin (deg2rad d / 2))) by (unfold Rsqr; ring).
  pose proof PI_RGT_0 as Hpi.
  assert (Hx : (0 <= deg2rad d / 2 <= PI / 2)%R) by (unfold deg2rad; nra).
  rewrite sqrt_Rsqr by (apply sin_ge_0; lra).
  rewrite asin_sin by lra. lra.
Qed.

Lemma updateLocationStatus_status u g p now st db :
  locationStatus (stateOf (updateLocationStatus u g p now st db)) =
  match g with
  | None => unknown
  | Some g => if isInside p g then inside else outside
  end.
Proof.
  destruct g as [g|]; [|reflexivity].
  unfold updateLocationStatus.
  destruct u as [u|]; [destruct (User.isEmployee u)|]; reflexivity.
Qed.

Lemma isInside_le p g :
  isInside p g = true <->
  Js.le (distanceTo p g) (Js.divc (Geofence.radius g) 1000).
Proof. unfold isInside. apply leb_le. Qed.



(** Between the antipodal points (-87.5, 0) and (87.5, 180) the
    great-circle distance is half the circumference. *)
Lemma antipodes_greatCircleDistance :
  greatCircleDistance (-87.5) 0 87.5 180 = (6371 * PI)%R.
Proof.
  unfold greatCircleDistance.
  replace ((87.5 - -87.5) * PI / 180 / 2)%R with (87.5 * PI / 180)%R by lra.
  replace ((180 - 0) * PI / 180 / 2)%R with (PI / 2)%R by lra.
  replace (-87.5 * PI / 180)%R with (- (87.5 * PI / 180))%R by lra.
  rewrite cos_neg, sin_PI2.
  replace (Rsqr (sin (87.5 * PI / 180)) +
           cos (87.5 * PI / 180) * cos (87.5 * PI / 180) * Rsqr 1)%R
    with (Rsqr (sin (87.5 * PI / 180)) + Rsqr (cos (87.5 * PI / 180)))%R
    by (unfold Rsqr; ring).
  rewrite sin2_cos2, sqrt_1, asin_1. lra.
Qed.

End Evaluator.

(** ** The evaluator on binary64 numbers *)

Section Rounding.
Import PrimFloat.
Import Binary64.
Local Open Scope float_scope.

(** No number is at least NaN. *)
Lemma leb_nan (x : float) : (nan <=? x) = false.
Proof. rewrite FloatAxioms.leb_spec. reflexivity. Qed.

(** C1. On the binary64 numbers of the engine the evaluator does not
    classify by the great-circle distance at antipodal points. Between
    (-87.5, 0) and (87.5, 180) the sum under the square roots comes out
    as 1 + 2^-52, so [Math.sqrt(1 - a)] is NaN, and with it the distance
    and the comparison: the position is outside whatever the radius of
    the geofence, although the great-circle distance between the two
    points is 6371 pi km, which a radius of 20,015,087 m or more covers.
    The sines and cosines assumed are the binary64 numbers nearest to the
    exact values, and [Math.atan2] of a NaN is NaN. *)
Theorem antipodes_classified_outside (M : Math) (radius : float) :
  (forall y : float, atan2 M y nan = nan) ->
  sin M 0x1.86f4291ecf2f4p+0 = 0x1.ff833f9da45f7p-1 ->
  sin M 0x1.921fb54442d18p+0 = 1 ->
  cos M (-0x1.86f4291ecf2f4p+0) = 0x1.65547c4694e12p-5 ->
  cos M 0x1.86f4291ecf2f4p+0 = 0x1.65547c4694e12p-5 ->
  calculateDistance M (-87.5) 0 87.5 180 = nan /\
  isInside M (-87.5) 0 87.5 180 radius = false /\
  HomeScreen.greatCircleDistance (-87.5) 0 87.5 180 = (6371 * Rtrigo1.PI)%R.
Proof.
  intros Hnan Hs Ht Hc1 Hc2.
  assert (Hd : calculateDistance M (-87.5) 0 87.5 180 = nan).
  { unfold calculateDistance. cbv zeta.
    change (deg2rad (87.5 - -87.5) / 2) with 0x1.86f4291ecf2f4p+0.
    change (deg2rad (180 - 0) / 2) with 0x1.921fb54442d18p+0.
    change (deg2rad (-87.5)) with (-0x1.86f4291ecf2f4p+0).
    change (deg2rad 87.5) with 0x1.86f4291ecf2f4p+0.
    rewrite Hs, Ht, Hc1, Hc2.
    change (0x1.ff833f9da45f7p-1 * 0x1.ff833f9da45f7p-1 +
            0x1.65547c4694e12p-5 * 0x1.65547c4694e12p-5 * 1 * 1)
      with 0x1.0000000000001p+0.
    change (sqrt (1 - 0x1.0000000000001p+0)) with nan.
    rewrite Hnan. reflexivity. }
  split; [exact Hd|]. split.
  - unfold isInside. cbv zeta. rewrite Hd. apply leb_nan.
  - exact antipodes_greatCircleDistance.
Qed.

Lemma antipodes_classified_outside_witness :
  isInside Antipodes.nearest (-87.5) 0 87.5 180 infinity = false.
Proof.
  pose proof (antipodes_classified_outside Antipodes.nearest infinity
                (fun _ => eq_refl) eq_refl eq_refl eq_refl eq_refl) as H.
  destruct H as (_ & H & _). exact H.
Defined.

End Rounding.

(** ** Worked hours *)

Section Hours.
Import HomeScreen.



Example calculateHours_0900_1730 :
  calculateHours (Some (9 * msPerHour)) (17 * msPerHour + 30 * 60000)
  = Some (17 # 2)%Q.
Proof. reflexivity. Qed.

End Hours.

(** ** The attendance handler, case by case *)

Section Attendance.
Import HomeScreen.

Ltac run :=
  unfold handleAttendance, updateLocationStatus, getAttendanceStatus,
    refreshLocation, bind, getState, setState, emit, alert, ret,
    setLocation, setLocationStatus, setAttendanceStatus, setFetchingLocation,
    getAttendance, setAttendance, getEmployeeLocations, setEmployeeLocations,
    snapshotStore, snapshotEffects; simpl.

Lemma updateLocationStatus_run u g p now st db :
  updateLocationStatus (Some u) (Some g) p now st db =
  (tt,
   mkState (user st) (location st)
           (if isInside p g then inside else outside)
           (attendanceStatus st) (fetchingLocation st),
   snapshotStore u p now (isInside p g) db,
   snapshotEffects u).
Proof. run. destruct (User.isEmployee u); reflexivity. Qed.

Variables (u : User.t) (g : Geofence.t) (r : Readings).
Variables (st : State) (db : Store.t).
Hypothesis Huser : user st = Some u.

Lemma handleAttendance_no_geofence :
  geofence (Some u) = None ->
  handleAttendance r st db = (tt, st, db, [Alert "Error" noLocationMessage]).
Proof. intros Hg. run. rewrite Huser, Hg. reflexivity. Qed.

Hypothesis Hgeo : geofence (Some u) = Some g.

Lemma handleAttendance_cached_not_inside :
  locationStatus st <> inside ->
  handleAttendance r st db = (tt, st, db, [Alert "Error" mustBeInsideMessage]).
Proof.
  intros Hs. run. rewrite Huser, Hgeo.
  destruct (locationStatus st); [congruence | reflexivity | reflexivity].
Qed.

Hypothesis Hcached : locationStatus st = inside.

Lemma handleAttendance_position_fails :
  position r = None ->
  handleAttendance r st db =
  (tt, mkState (Some u) (location st) inside (attendanceStatus st) false, db,
   [GetCurrentPosition; Alert "Error" failedMessage]).
Proof.
  intros Hp. run. rewrite Huser, Hgeo, Hcached, Hp. simpl.
  rewrite Huser, Hcached. reflexivity.
Qed.

Variable p : Coords.t.
Hypothesis Hpos : position r = Some p.

Lemma handleAttendance_fresh_outside :
  isInside p g = false ->
  handleAttendance r st db =
  (tt, mkState (Some u) (location st) outside (attendanceStatus st) false,
   snapshotStore u p (clockSnapshot r) false db,
   GetCurrentPosition :: snapshotEffects u ++
     [Alert "Error" mustBeInsideMessage]).
Proof.
  intros Hout. run. rewrite Huser, Hgeo, Hcached, Hpos. simpl.
  rewrite Huser, Hout. simpl.
  destruct (User.isEmployee u); simpl; rewrite ?Huser; reflexivity.
Qed.

Hypothesis Hin : isInside p g = true.

Let key : string * Z := (User.email u, isoDate (clockToday r)).

Lemma handleAttendance_check_in :
  Store.attendance db !! key = None \/ attendanceStatus st = Some false ->
  handleAttendance r st db =
  (tt, mkState (Some u) (location st) inside (Some true) false,
   Store.setAttendance key
     (checkInData u (isoDate (clockToday r)) (clockNow r) p)
     (snapshotStore u p (clockSnapshot r) true db),
   GetCurrentPosition :: snapshotEffects u ++
     [SetItem (Store.Attendance (User.email u) (isoDate (clockToday r)));
      Alert "Success" (CheckedInAt (clockNow r))]).
Proof.
  intros Hbranch. subst key. run. rewrite Huser, Hgeo, Hcached, Hpos. simpl.
  rewrite Huser, Hin. simpl.
  destruct (User.isEmployee u); simpl; rewrite ?Huser;
    destruct Hbranch as [-> | ->]; simpl;
    try destruct (Store.attendance db !! _); reflexivity.
Qed.

Lemma handleAttendance_check_out (storedData : AttendanceRecord.t) :
  Store.attendance db !! key = Some storedData ->
  attendanceStatus st <> Some false ->
  handleAttendance r st db =
  (tt, mkState (Some u) (location st) inside (Some false) false,
   Store.setAttendance key
     (updatedData storedData (clockNow r) p
        (calculateHours (AttendanceRecord.checkInTime storedData) (clockNow r)))
     (snapshotStore u p (clockSnapshot r) true db),
   GetCurrentPosition :: snapshotEffects u ++
     [SetItem (Store.Attendance (User.email u) (isoDate (clockToday r)));
      Alert "Success"
        (CheckedOutAt (clockNow r)
           (calculateHours (AttendanceRecord.checkInTime storedData)
                           (clockNow r)))]).
Proof.
  intros Hrec Hst. subst key. run. rewrite Huser, Hgeo, Hcached, Hpos. simpl.
  rewrite Huser, Hin. simpl.
  destruct (User.isEmployee u); simpl; rewrite ?Huser, Hrec;
    destruct (attendanceStatus st) as [[|]|]; try congruence; reflexivity.
Qed.

End Attendance.

(** ** Check-in followed by check-out *)

Section Ledger.
Import HomeScreen.

Lemma LocationStatus_eq_dec (a b : LocationStatus) : {a = b} + {a <> b}.
Proof. decide equality. Qed.

Lemma snapshotStore_attendance u p now b db :
  Store.attendance (snapshotStore u p now b db) = Store.attendance db.
Proof. unfold snapshotStore. destruct (User.isEmployee u); reflexivity. Qed.

Lemma snapshotStore_users u p now b db :
  Store.users (snapshotStore u p now b db) = Store.users db.
Proof. unfold snapshotStore. destruct (User.isEmployee u); reflexivity. Qed.

Lemma isInside_centre (lat lon r : R) (name : Js.value) :
  (0 <= r)%R ->
  isInside (Coords.mk lat lon)
           (Geofence.mk (Js.Fin lat) (Js.Fin lon) (Js.Fin r) name) = true.
Proof.
  intros Hr. unfold isInside, distanceTo, calculateDistance. simpl.
  rewrite haversine_self. destruct (Rle_dec 0 (r / 1000)); [reflexivity|lra].
Qed.


(** Whatever its outcome, a run leaves the users as they are and
    touches the ledger at most under the key of the signed-in user and of
    the day read from the clock. *)
Lemma handleAttendance_frame (u : User.t) (st : State) (db : Store.t) (r : Readings) :
  user st = Some u ->
  let run := handleAttendance r st db in
  Store.users (storeOf run) = Store.users db /\
  forall k, k <> (User.email u, isoDate (clockToday r)) ->
    Store.attendance (storeOf run) !! k = Store.attendance db !! k.
Proof.
  intros Hu run. subst run.
  destruct (geofence (Some u)) as [g|] eqn:Hg;
    [|now rewrite (handleAttendance_no_geofence u r st db Hu Hg)].
  destruct (LocationStatus_eq_dec (locationStatus st) inside) as [Hs|Hs];
    [|now rewrite (handleAttendance_cached_not_inside u g r st db Hu Hg Hs)].
  destruct (position r) as [p|] eqn:Hp;
    [|now rewrite (handleAttendance_position_fails u g r st db Hu Hg Hs Hp)].
  destruct (isInside p g) eqn:Hin.
  - assert (Hcases :
      (Store.attendance db !! (User.email u, isoDate (clockToday r)) = None
       \/ attendanceStatus st = Some false) \/
      (exists rec, Store.attendance db !! (User.email u, isoDate (clockToday r)) = Some rec
                   /\ attendanceStatus st <> Some false)).
    { destruct (Store.attendance db !! _) as [rec|]; [|now left; left].
      destruct (attendanceStatus st) as [[|]|]; [right| left; now right |right];
        exists rec; split; congruence. }
    destruct Hcases as [Hfirst|(rec & Hrec & Hst)].
    + rewrite (handleAttendance_check_in u g r st db Hu Hg Hs p Hp Hin Hfirst).
      unfold storeOf. cbn [fst snd Store.users Store.attendance Store.setAttendance].
      split; [apply snapshotStore_users|].
      intros k Hk. rewrite lookup_insert_ne by congruence.
      now rewrite snapshotStore_attendance.
    + rewrite (handleAttendance_check_out u g r st db Hu Hg Hs p Hp Hin rec Hrec Hst).
      unfold storeOf. cbn [fst snd Store.users Store.attendance Store.setAttendance].
      split; [apply snapshotStore_users|].
      intros k Hk. rewrite lookup_insert_ne by congruence.
      now rewrite snapshotStore_attendance.
  - rewrite (handleAttendance_fresh_outside u g r st db Hu Hg Hs p Hp Hin).
    unfold storeOf. cbn [fst snd].
    split; [apply snapshotStore_users|].
    intros k _. now rewrite snapshotStore_attendance.
Qed.


End Ledger.

(** ** The worked scenario *)

Section ScenarioFacts.
Import HomeScreen Scenario.

Lemma overflow_large : (1000000 < ParseFloat.overflow)%R.
Proof.
  unfold ParseFloat.overflow. apply IZR_lt. apply Z.ltb_lt. vm_compute. reflexivity.
Qed.

Lemma underflow_small : (ParseFloat.underflow < / 1000000)%R.
Proof.
  unfold ParseFloat.underflow. apply Rinv_lt_contravar.
  - apply Rmult_lt_0_compat; [lra|]. apply IZR_lt. apply Z.ltb_lt.
    vm_compute. reflexivity.
  - apply IZR_lt. apply Z.ltb_lt. vm_compute. reflexivity.
Qed.

(** An entry that starts with a decimal literal reads as a number. *)
Lemma parseFloat_decimal_number (s : string) (neg : bool) (m e : Z) :
  ParseFloat.signedLiteral s = (neg, ParseFloat.Decimal m e) ->
  Js.isNaN (parseFloat (Js.Str s)) = false.
Proof.
  intros H. unfold parseFloat, ParseFloat.ofString. rewrite H.
  unfold ParseFloat.numberOf. cbv zeta.
  destruct (Rle_dec _ _); [reflexivity|].
  destruct (Rle_dec _ _); reflexivity.
Qed.

(** A decimal entry of ordinary size reads as its exact value. *)
Lemma parseFloat_decimal (s : string) (neg : bool) (m e : Z) :
  ParseFloat.signedLiteral s = (neg, ParseFloat.Decimal m e) ->
  (/ 1000000 <= IZR m * powerRZ 10 e <= 1000000)%R ->
  parseFloat (Js.Str s) = Js.Fin (ParseFloat.negate neg (IZR m * powerRZ 10 e)).
Proof.
  intros H Hrange. unfold parseFloat, ParseFloat.ofString. rewrite H.
  unfold ParseFloat.numberOf. cbv zeta.
  pose proof overflow_large as Hbig. pose proof underflow_small as Hsmall.
  assert (Hpos : (0 < / 1000000)%R) by lra.
  rewrite Rabs_pos_eq by lra.
  destruct (Rle_dec ParseFloat.overflow (IZR m * powerRZ 10 e)); [lra|].
  destruct (Rle_dec (IZR m * powerRZ 10 e) ParseFloat.underflow); [lra|].
  reflexivity.
Qed.

Lemma scenario_geofence : geofence (Some ana) = Some boundary.
Proof.
  unfold geofence, boundary, ana, office. cbn [User.assignedLocation
    AssignedLocation.latitude AssignedLocation.longitude
    AssignedLocation.radius AssignedLocation.name].
  rewrite (parseFloat_decimal "37.7749" false 377749 (-4))
    by (reflexivity || (simpl; lra)).
  rewrite (parseFloat_decimal "-122.4194" true 1224194 (-4))
    by (reflexivity || (simpl; lra)).
  rewrite (parseFloat_decimal "100" false 100 0)
    by (reflexivity || (simpl; lra)).
  unfold Js.orElse, ParseFloat.negate. simpl.
  destruct (Req_dec_T (100 * 1) 0) as [H|_]; [lra|].
  f_equal; f_equal; f_equal; lra.
Qed.

Lemma scenario_inside : isInside desk boundary = true.
Proof. apply isInside_centre. lra. Qed.

(** One degree of latitude south of the centre is about 111 km away. *)
Lemma scenario_far :
  Js.lt (Js.divc (Geofence.radius boundary) 1000) (distanceTo street boundary).
Proof.
  unfold distanceTo, calculateDistance, street, boundary. simpl.
  replace 37.7749%R with (36.7749 + 1)%R by lra.
  rewrite haversine_meridian by lra.
  pose proof PI2_1 as Hpi. unfold deg2rad. lra.
Qed.

Lemma scenario_outside : isInside street boundary = false.
Proof.
  destruct (isInside street boundary) eqn:H; [|reflexivity].
  apply isInside_le in H. now apply (lt_not_le _ _ scenario_far) in H.
Qed.

End ScenarioFacts.

Section ScenarioRuns.
Import HomeScreen Scenario.




End ScenarioRuns.

(** ** The per-day cycle *)

Section Cycle.
Import HomeScreen Scenario.

(** On mount, [getAttendanceStatus] puts the screen in step with the
    record of the day. *)
Lemma getAttendanceStatus_inStep (u : User.t) (st : State) (db : Store.t) (today : Z) :
  user st = Some u ->
  let run := getAttendanceStatus today st db in
  inStep (attendanceStatus (stateOf run))
         (Store.attendance db !! (User.email u, isoDate today)) /\
  storeOf run = db.
Proof.
  intros Hu. unfold getAttendanceStatus, bind, getState, getAttendance.
  rewrite Hu. unfold inStep, dayState.
  destruct (Store.attendance db !! (User.email u, isoDate today)) as [rec|];
    [destruct (AttendanceRecord.checkOutTime rec)|]; split; reflexivity.
Qed.


(** C4. For a user with no assigned geofence every run of the attendance
    handler ends in the error notice and nothing else: no position query,
    no write, state and store exactly as before. *)
Theorem no_geofence_attempt_fails
    (u : User.t) (st : State) (db : Store.t) (r : Readings) :
  user st = Some u ->
  User.assignedLocation u = None ->
  handleAttendance r st db = (tt, st, db, [Alert "Error" noLocationMessage]).
Proof.
  intros Hu Ha. apply (handleAttendance_no_geofence u r st db Hu).
  unfold geofence. now rewrite Ha.
Qed.

Lemma no_geofence_attempt_fails_witness :
  handleAttendance at0900 unassigned emptyLedger =
  (tt, unassigned, emptyLedger, [Alert "Error" noLocationMessage]).
Proof.
  apply (no_geofence_attempt_fails bo unassigned emptyLedger at0900);
    reflexivity.
Defined.

Lemma snapshotEffects_no_attendance (u : User.t) (e : string) (d : Z) :
  ~ In (SetItem (Store.Attendance e d)) (snapshotEffects u).
Proof.
  unfold snapshotEffects. destruct (User.isEmployee u); simpl; [|tauto].
  intros [H|[]]. discriminate.
Qed.

(** The handler taken alone, whatever calls it. A run whose cached
    location status is not [inside] is turned down on that status,
    without a position query and without a write. A run whose cached
    status is [inside] queries the device for a fresh position, and
    whenever that position lies farther from the centre than
    [radius / 1000] km it ends in the error notice and no attendance
    record is written or modified. *)
Lemma attempt_checks_cached_then_fresh
    (u : User.t) (g : Geofence.t) (st : State) (db : Store.t) (r : Readings) :
  user st = Some u ->
  geofence (Some u) = Some g ->
  let run := handleAttendance r st db in
  (locationStatus st <> inside ->
   run = (tt, st, db, [Alert "Error" mustBeInsideMessage])) /\
  (locationStatus st = inside ->
   In GetCurrentPosition (effectsOf run) /\
   forall p : Coords.t,
     position r = Some p ->
     Js.lt (Js.divc (Geofence.radius g) 1000) (distanceTo p g) ->
     In (Alert "Error" mustBeInsideMessage) (effectsOf run) /\
     Store.attendance (storeOf run) = Store.attendance db /\
     forall e d, ~ In (SetItem (Store.Attendance e d)) (effectsOf run)).
Proof.
  intros Hu Hg run. split.
  - intros Hs. apply (handleAttendance_cached_not_inside u g r st db Hu Hg Hs).
  - intros Hs. split.
    + subst run. destruct (position r) as [p|] eqn:Hp.
      * destruct (isInside p g) eqn:Hin.
        -- destruct (Store.attendance db !! (User.email u, isoDate (clockToday r)))
             as [rec|] eqn:Hrec.
           ++ destruct (attendanceStatus st) as [[|]|] eqn:Hst.
              ** rewrite (handleAttendance_check_out u g r st db Hu Hg Hs p Hp Hin rec Hrec)
                   by (rewrite Hst; discriminate). now left.
              ** rewrite (handleAttendance_check_in u g r st db Hu Hg Hs p Hp Hin)
                   by now right. now left.
              ** rewrite (handleAttendance_check_out u g r st db Hu Hg Hs p Hp Hin rec Hrec)
                   by (rewrite Hst; discriminate). now left.
           ++ rewrite (handleAttendance_check_in u g r st db Hu Hg Hs p Hp Hin)
                by now left. now left.
        -- rewrite (handleAttendance_fresh_outside u g r st db Hu Hg Hs p Hp Hin).
           now left.
      * rewrite (handleAttendance_position_fails u g r st db Hu Hg Hs Hp). now left.
    + intros p Hp Hfar.
      assert (Hout : isInside p g = false).
      { destruct (isInside p g) eqn:Hin; [|reflexivity].
        apply isInside_le in Hin. now apply lt_not_le in Hfar. }
      subst run.
      rewrite (handleAttendance_fresh_outside u g r st db Hu Hg Hs p Hp Hout).
      unfold effectsOf, storeOf. cbn [fst snd].
      split; [|split].
      * right. apply in_or_app. right. now left.
      * apply snapshotStore_attendance.
      * intros e d [H|H]; [discriminate|].
        apply in_app_or in H as [H|[H|[]]]; [|discriminate].
        now apply snapshotEffects_no_attendance in H.
Qed.



Lemma refreshLocation_run (u : User.t) (g : Geofence.t) (p : Coords.t) (now : Z)
    (st : State) (db : Store.t) :
  user st = Some u ->
  geofence (Some u) = Some g ->
  refreshLocation (Some p) now st db =
  (tt,
   mkState (Some u) (Some p) (if isInside p g then inside else outside)
           (attendanceStatus st) false,
   snapshotStore u p now (isInside p g) db,
   GetCurrentPosition :: snapshotEffects u).
Proof.
  intros Hu Hg.
  unfold refreshLocation, updateLocationStatus, bind, getState, setState, emit,
    setLocation, setLocationStatus, setFetchingLocation, getEmployeeLocations,
    setEmployeeLocations, ret, snapshotStore, snapshotEffects.
  rewrite Hu, Hg. cbn [fst snd user].
  destruct (User.isEmployee u); cbn; rewrite ?Hu; reflexivity.
Qed.

Lemma scenario_stale :
  stale = mkState (Some ana) (Some street) outside (Some false) false.
Proof.
  unfold stale, afterStreetRefresh.
  rewrite (refreshLocation_run ana boundary street _ mounted emptyLedger
             eq_refl scenario_geofence).
  now rewrite scenario_outside.
Qed.

(** The guard of the handler at work: after a refresh made from the
    street the cached status is [outside], and a run of the handler once
    back at the desk would be turned down on that status, without
    querying the device. The button is disabled in that state, so no
    press starts such a run. *)
Lemma stale_attempt_not_resampled :
  position at0900 = Some desk /\
  isInside desk boundary = true /\
  locationStatus stale = outside /\
  handleAttendance at0900 stale staleStore =
    (tt, stale, staleStore, [Alert "Error" mustBeInsideMessage]) /\
  ~ In GetCurrentPosition (effectsOf (handleAttendance at0900 stale staleStore)).
Proof.
  assert (Hs : locationStatus stale = outside) by now rewrite scenario_stale.
  assert (E : handleAttendance at0900 stale staleStore =
              (tt, stale, staleStore, [Alert "Error" mustBeInsideMessage])).
  { apply (handleAttendance_cached_not_inside ana boundary);
      [now rewrite scenario_stale | exact scenario_geofence
      | rewrite Hs; discriminate]. }
  split; [reflexivity|]. split; [exact scenario_inside|]. split; [exact Hs|].
  split; [exact E|].
  rewrite E. intros [H|[]]. discriminate.
Qed.

Lemma attempt_checks_cached_then_fresh_witness :
  In GetCurrentPosition (effectsOf (handleAttendance fromStreet mounted emptyLedger)) /\
  In (Alert "Error" mustBeInsideMessage)
     (effectsOf (handleAttendance fromStreet mounted emptyLedger)) /\
  Store.attendance (storeOf (handleAttendance fromStreet mounted emptyLedger))
  = Store.attendance emptyLedger.
Proof.
  pose proof (attempt_checks_cached_then_fresh ana boundary mounted emptyLedger
                fromStreet eq_refl scenario_geofence) as H.
  cbv zeta in H. destruct H as [_ H]. destruct (H eq_refl) as [Hq Hfar].
  destruct (Hfar street eq_refl scenario_far) as (Halert & Hledger & _).
  split; [exact Hq|]. split; [exact Halert|exact Hledger].
Defined.

(** *** Attempts: presses of the attendance button *)

Lemma option_eq_dec_false (o : option bool) : {o = Some false} + {o <> Some false}.
Proof. destruct o as [[|]|]; [right|left|right]; congruence. Qed.

Lemma pressAttendance_run (r : Readings) (st : State) (db : Store.t) :
  pressAttendance r st db =
  if buttonEnabled st then handleAttendance r st db else (tt, st, db, []).
Proof.
  unfold pressAttendance, bind, getState, ret. cbn [fst snd].
  destruct (buttonEnabled st); [|reflexivity].
  destruct (handleAttendance r st db) as [[[[] st'] db'] e]. reflexivity.
Qed.

Lemma buttonEnabled_true (u : User.t) (st : State) :
  user st = Some u ->
  buttonEnabled st = true ->
  (exists g, geofence (Some u) = Some g) /\
  locationStatus st = inside /\ fetchingLocation st = false.
Proof.
  intros Hu. unfold buttonEnabled. rewrite Hu.
  destruct (geofence (Some u)) as [g|]; [|discriminate].
  destruct (fetchingLocation st); [discriminate|].
  destruct (locationStatus st); try discriminate. eauto.
Qed.

(** What the handler writes and shows does not depend on the cached
    position. *)
Lemma handleAttendance_ignores_cached_location
    (u : User.t) (st : State) (db : Store.t) (r : Readings) (cached : option Coords.t) :
  user st = Some u ->
  let st' := mkState (user st) cached (locationStatus st) (attendanceStatus st)
                     (fetchingLocation st) in
  storeOf (handleAttendance r st' db) = storeOf (handleAttendance r st db) /\
  effectsOf (handleAttendance r st' db) = effectsOf (handleAttendance r st db).
Proof.
  intros Hu st'.
  assert (Hu' : user st' = Some u) by exact Hu.
  destruct (geofence (Some u)) as [g|] eqn:Hg.
  2: { rewrite (handleAttendance_no_geofence u r st db Hu Hg).
       now rewrite (handleAttendance_no_geofence u r st' db Hu' Hg). }
  destruct (LocationStatus_eq_dec (locationStatus st) inside) as [Hs|Hs].
  2: { rewrite (handleAttendance_cached_not_inside u g r st db Hu Hg Hs).
       now rewrite (handleAttendance_cached_not_inside u g r st' db Hu' Hg Hs). }
  assert (Hs' : locationStatus st' = inside) by exact Hs.
  destruct (position r) as [p|] eqn:Hp.
  2: { rewrite (handleAttendance_position_fails u g r st db Hu Hg Hs Hp).
       now rewrite (handleAttendance_position_fails u g r st' db Hu' Hg Hs' Hp). }
  destruct (isInside p g) eqn:Hin.
  2: { rewrite (handleAttendance_fresh_outside u g r st db Hu Hg Hs p Hp Hin).
       now rewrite (handleAttendance_fresh_outside u g r st' db Hu' Hg Hs' p Hp Hin). }
  destruct (Store.attendance db !! (User.email u, isoDate (clockToday r)))
    as [rec|] eqn:Hrec.
  - destruct (option_eq_dec_false (attendanceStatus st)) as [Hst|Hst].
    + rewrite (handleAttendance_check_in u g r st db Hu Hg Hs p Hp Hin (or_intror Hst)).
      now rewrite (handleAttendance_check_in u g r st' db Hu' Hg Hs' p Hp Hin
                     (or_intror Hst)).
    + rewrite (handleAttendance_check_out u g r st db Hu Hg Hs p Hp Hin rec Hrec Hst).
      now rewrite (handleAttendance_check_out u g r st' db Hu' Hg Hs' p Hp Hin
                     rec Hrec Hst).
  - rewrite (handleAttendance_check_in u g r st db Hu Hg Hs p Hp Hin (or_introl Hrec)).
    now rewrite (handleAttendance_check_in u g r st' db Hu' Hg Hs' p Hp Hin
                   (or_introl Hrec)).
Qed.

(** C5. An attempt is a press of the attendance button, the only caller
    of the handler, and the button is enabled only while there is a
    geofence, the cached status is [inside] and no position is being
    fetched; a press of a disabled button runs nothing. Every press of
    the enabled button first queries the device for a fresh position, and
    what it then writes and shows does not depend on the cached position.
    Whenever the fresh position lies farther from the centre than
    [radius / 1000] km the attempt ends in the error notice and no
    attendance record is written or modified; the same when the query
    fails. *)
Theorem press_resamples_position (st : State) (db : Store.t) (r : Readings) :
  let run := pressAttendance r st db in
  (buttonEnabled st = true <->
   (exists g, geofence (user st) = Some g) /\
   locationStatus st = inside /\ fetchingLocation st = false) /\
  (buttonEnabled st = false -> run = (tt, st, db, [])) /\
  (buttonEnabled st = true ->
   exists (u : User.t) (g : Geofence.t),
     user st = Some u /\ geofence (Some u) = Some g /\
     (exists rest, effectsOf run = GetCurrentPosition :: rest) /\
     (forall cached : option Coords.t,
        let st' := mkState (user st) cached (locationStatus st) (attendanceStatus st)
                           (fetchingLocation st) in
        storeOf (pressAttendance r st' db) = storeOf run /\
        effectsOf (pressAttendance r st' db) = effectsOf run) /\
     (forall p : Coords.t,
        position r = Some p ->
        Js.lt (Js.divc (Geofence.radius g) 1000) (distanceTo p g) ->
        In (Alert "Error" mustBeInsideMessage) (effectsOf run) /\
        Store.attendance (storeOf run) = Store.attendance db /\
        forall e d, ~ In (SetItem (Store.Attendance e d)) (effectsOf run)) /\
     (position r = None ->
      storeOf run = db /\ In (Alert "Error" failedMessage) (effectsOf run))).
Proof.
  intros run. subst run. rewrite pressAttendance_run.
  split.
  { unfold buttonEnabled.
    destruct (geofence (user st)) as [g|].
    - destruct (fetchingLocation st), (locationStatus st); cbn;
        split; try discriminate; try (intros (_ & ? & ?); discriminate);
        intros _; eauto.
    - split; [discriminate|]. intros ((g & Hg) & _). discriminate. }
  split; [intros Hoff; now rewrite Hoff|].
  intros Hon. rewrite Hon.
  assert (Huser : exists u, user st = Some u).
  { unfold buttonEnabled in Hon. destruct (user st) as [u|]; [eauto|discriminate]. }
  destruct Huser as (u & Hu).
  destruct (buttonEnabled_true u st Hu Hon) as ((g & Hg) & Hs & _).
  exists u, g. split; [exact Hu|]. split; [exact Hg|].
  pose proof (attempt_checks_cached_then_fresh u g st db r Hu Hg) as Hrun.
  cbv zeta in Hrun. destruct Hrun as [_ Hrun]. destruct (Hrun Hs) as [_ Hfar].
  split; [|split; [|split]].
  - destruct (position r) as [p|] eqn:Hp.
    + destruct (isInside p g) eqn:Hin.
      * destruct (Store.attendance db !! (User.email u, isoDate (clockToday r)))
          as [rec|] eqn:Hrec.
        -- destruct (option_eq_dec_false (attendanceStatus st)) as [Hst|Hst].
           ++ rewrite (handleAttendance_check_in u g r st db Hu Hg Hs p Hp Hin
                         (or_intror Hst)). eexists. reflexivity.
           ++ rewrite (handleAttendance_check_out u g r st db Hu Hg Hs p Hp Hin
                         rec Hrec Hst). eexists. reflexivity.
        -- rewrite (handleAttendance_check_in u g r st db Hu Hg Hs p Hp Hin
                      (or_introl Hrec)). eexists. reflexivity.
      * rewrite (handleAttendance_fresh_outside u g r st db Hu Hg Hs p Hp Hin).
        eexists. reflexivity.
    + rewrite (handleAttendance_position_fails u g r st db Hu Hg Hs Hp).
      eexists. reflexivity.
  - intros cached st'. rewrite pressAttendance_run.
    assert (Hon' : buttonEnabled st' = true) by exact Hon.
    rewrite Hon'. apply (handleAttendance_ignores_cached_location u st db r cached Hu).
  - exact Hfar.
  - intros Hp. rewrite (handleAttendance_position_fails u g r st db Hu Hg Hs Hp).
    split; [reflexivity|]. right. now left.
Qed.

Lemma press_resamples_position_witness :
  (exists rest,
     effectsOf (pressAttendance fromStreet mounted emptyLedger)
     = GetCurrentPosition :: rest) /\
  Store.attendance (storeOf (pressAttendance fromStreet mounted emptyLedger))
  = Store.attendance emptyLedger /\
  pressAttendance at0900 stale staleStore = (tt, stale, staleStore, []).
Proof.
  pose proof (press_resamples_position mounted emptyLedger fromStreet) as H.
  cbv zeta in H. destruct H as (Hen & _ & H).
  assert (Hgeo : geofence (user mounted) = Some boundary) by exact scenario_geofence.
  assert (Hon : buttonEnabled mounted = true).
  { apply Hen. split; [eauto|]. split; reflexivity. }
  destruct (H Hon) as (u & g & Hu & Hg & Hq & _ & Hfar & _).
  injection Hu as <-. rewrite scenario_geofence in Hg. injection Hg as <-.
  destruct (Hfar street eq_refl scenario_far) as (_ & Hledger & _).
  split; [exact Hq|]. split; [exact Hledger|].
  pose proof (press_resamples_position stale staleStore at0900) as H'.
  cbv zeta in H'. destruct H' as (Hen' & Hoff & _).
  apply Hoff. apply not_true_is_false. intros E.
  apply Hen' in E as (_ & E & _). rewrite scenario_stale in E. discriminate.
Defined.

End Cycle.

(** ** Profile screen *)

Section Profile.
Import ProfileScreen.

(** C9. Rejecting a role-change request writes nothing: the store is
    left as it was (so the requester's [roleChangeRequested] flag keeps
    its value and no rejection time is recorded), no effect is performed,
    and in the screen's state only the request list changes, losing the
    entries with the rejected id. *)
Theorem handleRejectRequest_only_filters_list
    (userId : string) (st : State) (db : Store.t) :
  let run := handleRejectRequest userId st db in
  storeOf run = db /\
  effectsOf run = [] /\
  roleRequests (stateOf run) =
    List.filter (fun req => negb (String.eqb (RoleRequest.id req) userId))
                (roleRequests st) /\
  isSaving (stateOf run) = isSaving st /\
  showGeofenceModal (stateOf run) = showGeofenceModal st /\
  employees (stateOf run) = employees st /\
  selectedEmployee (stateOf run) = selectedEmployee st /\
  geofenceLocation (stateOf run) = geofenceLocation st /\
  (forall us : list User.t,
     Store.users db = Some us -> Store.users (storeOf run) = Some us).
Proof. cbv zeta. repeat split. intros us H. exact H. Qed.

Lemma handleRejectRequest_only_filters_list_witness :
  Store.users (storeOf (handleRejectRequest "u2" Scenario.assigning Scenario.staff))
  = Some [Scenario.ana; Scenario.bo].
Proof.
  apply (handleRejectRequest_only_filters_list "u2" Scenario.assigning Scenario.staff).
  reflexivity.
Defined.

Lemma handleSaveGeofence_run (st : State) (db : Store.t)
    (selected : User.t) (users : list User.t) :
  selectedEmployee st = Some selected ->
  Js.isNaN (parseFloat (Js.Str (GeofenceLocation.latitude (geofenceLocation st)))) = false ->
  Js.isNaN (parseFloat (Js.Str (GeofenceLocation.longitude (geofenceLocation st)))) = false ->
  Js.isNaN (parseFloat (Js.Str (GeofenceLocation.radius (geofenceLocation st)))) = false ->
  Store.users db = Some users ->
  handleSaveGeofence st db =
  (tt,
   mkState false false (employees st) None (geofenceLocation st) (roleRequests st),
   Store.setUsers
     (map (fun u => if String.eqb (User.email u) (User.email selected)
                    then withAssignedLocation u (enteredLocation (geofenceLocation st))
                    else u) users) db,
   [SetItem Store.Users; Alert "Success" (GeofenceAssignedTo (User.name selected))]).
Proof.
  intros Hsel Hlat Hlon Hrad Hus.
  unfold handleSaveGeofence, bind, getState, getUsers, setUsers, alert, emit,
    setIsSaving, setShowGeofenceModal, setSelectedEmployee, setState.
  rewrite Hsel. cbn [fst snd geofenceLocation]. rewrite Hlat, Hlon, Hrad.
  cbn [orb]. rewrite Hus. reflexivity.
Qed.

(** C10. When an employee is selected and the three entries parse as
    numbers, the users collection written back has the users of the one
    read, in the same order; a user with another e-mail is written back
    as read, and a user with the selected e-mail differs at most in
    [assignedLocation], which holds the entered name, latitude, longitude
    and radius. The rest of the store is untouched. *)
Theorem handleSaveGeofence_frame (st : State) (db : Store.t)
    (selected : User.t) (users : list User.t) :
  selectedEmployee st = Some selected ->
  Js.isNaN (parseFloat (Js.Str (GeofenceLocation.latitude (geofenceLocation st)))) = false ->
  Js.isNaN (parseFloat (Js.Str (GeofenceLocation.longitude (geofenceLocation st)))) = false ->
  Js.isNaN (parseFloat (Js.Str (GeofenceLocation.radius (geofenceLocation st)))) = false ->
  Store.users db = Some users ->
  let run := handleSaveGeofence st db in
  let form := geofenceLocation st in
  exists written : list User.t,
    Store.users (storeOf run) = Some written /\
    length written = length users /\
    (forall (i : nat) (u : User.t), users !! i = Some u ->
       exists u' : User.t,
         written !! i = Some u' /\
         (User.email u <> User.email selected -> u' = u) /\
         (User.email u = User.email selected ->
            User.assignedLocation u' =
              Some (AssignedLocation.mk
                      (Js.Str (GeofenceLocation.name form))
                      (Js.Str (GeofenceLocation.latitude form))
                      (Js.Str (GeofenceLocation.longitude form))
                      (Js.Str (GeofenceLocation.radius form)))) /\
         User.id u' = User.id u /\
         User.email u' = User.email u /\
         User.password u' = User.password u /\
         User.name u' = User.name u /\
         User.department u' = User.department u /\
         User.role u' = User.role u /\
         User.roleChangeRequested u' = User.roleChangeRequested u /\
         User.notificationSettings u' = User.notificationSettings u) /\
    Store.employeeLocations (storeOf run) = Store.employeeLocations db /\
    Store.attendance (storeOf run) = Store.attendance db.
Proof.
  intros Hsel Hlat Hlon Hrad Hus run form.
  subst run. rewrite (handleSaveGeofence_run st db selected users Hsel Hlat Hlon Hrad Hus).
  unfold storeOf. cbn [fst snd Store.users Store.setUsers Store.attendance
                       Store.employeeLocations].
  eexists. split; [reflexivity|]. split; [apply length_map|].
  split; [|split; reflexivity].
  intros i u Hi. rewrite list_lookup_fmap, Hi. cbn [fmap option_fmap option_map].
  destruct (String.eqb_spec (User.email u) (User.email selected)) as [He|He].
  - eexists. split; [reflexivity|]. split; [congruence|].
    repeat split; reflexivity.
  - eexists. split; [reflexivity|]. split; [reflexivity|].
    split; [congruence|]. repeat split; reflexivity.
Qed.

Lemma handleSaveGeofence_frame_witness :
  exists written : list User.t,
    Store.users (storeOf (handleSaveGeofence Scenario.assigning Scenario.staff))
      = Some written /\
    written !! 0%nat = Some Scenario.ana /\
    (exists u', written !! 1%nat = Some u' /\
       User.assignedLocation u' = Some Scenario.office /\
       User.email u' = "bo@example.com"%string).
Proof.
  destruct (handleSaveGeofence_frame Scenario.assigning Scenario.staff
              Scenario.bo [Scenario.ana; Scenario.bo]
              eq_refl
              (parseFloat_decimal_number "37.7749" false 377749 (-4) eq_refl)
              (parseFloat_decimal_number "-122.4194" true 1224194 (-4) eq_refl)
              (parseFloat_decimal_number "100" false 100 0 eq_refl)
              eq_refl)
    as (written & Hw & _ & Hframe & _).
  exists written. split; [exact Hw|]. split.
  - destruct (Hframe 0%nat Scenario.ana eq_refl) as (u' & Hu' & Hne & _).
    rewrite Hu'. f_equal. apply Hne. discriminate.
  - destruct (Hframe 1%nat Scenario.bo eq_refl) as (u' & Hu' & _ & Heq & _ & He & _).
    exists u'. split; [exact Hu'|]. split; [exact (Heq eq_refl)|exact He].
Defined.

End Profile.

(** ** The ledger query *)

Section Query.
Import AttendanceScreen.

Lemma insertByTime_perm a l : Permutation (insertByTime a l) (a :: l).
Proof.
  induction l as [|b l IH]; simpl; [reflexivity|].
  destruct (sortTime a <? sortTime b); [|reflexivity].
  rewrite IH. apply perm_swap.
Qed.

Lemma sortByTime_perm l : Permutation (sortByTime l) l.
Proof.
  induction l as [|a l IH]; simpl; [reflexivity|].
  unfold sortByTime in *. simpl. rewrite insertByTime_perm. now constructor.
Qed.

Lemma insertByTime_sorted a l :
  StronglySorted newestFirst l -> StronglySorted newestFirst (insertByTime a l).
Proof.
  induction 1 as [|b l Hs IH Hb]; simpl.
  - repeat constructor.
  - destruct (Z.ltb_spec (sortTime a) (sortTime b)) as [Hlt|Hge].
    + constructor; [exact IH|].
      rewrite insertByTime_perm. constructor; [unfold newestFirst; lia|exact Hb].
    + constructor; [now constructor|].
      constructor; [exact Hge|].
      eapply Forall_impl; [exact Hb|].
      unfold newestFirst. intros c Hc. lia.
Qed.

Lemma sortByTime_sorted l : StronglySorted newestFirst (sortByTime l).
Proof.
  induction l as [|a l IH]; simpl; [constructor|].
  now apply insertByTime_sorted.
Qed.

Lemma filter_sorted (f : AttendanceRecord.t -> bool) l :
  StronglySorted newestFirst l -> StronglySorted newestFirst (List.filter f l).
Proof.
  induction 1 as [|b l Hs IH Hb]; simpl; [constructor|].
  destruct (f b); [|exact IH].
  constructor; [exact IH|].
  apply List.Forall_forall. intros c Hc. apply filter_In in Hc as [Hc _].
  rewrite List.Forall_forall in Hb. now apply Hb.
Qed.

Lemma complete_email u employees rec :
  AttendanceRecord.email (complete u employees rec) = AttendanceRecord.email rec.
Proof.
  unfold complete.
  destruct (User.isAdmin u && _); [|reflexivity].
  destruct (List.find _ employees); reflexivity.
Qed.

(** What a query loads into the screen: the store and the effects are
    those of a read-only run. *)
Lemma fetchHistory_run (u : User.t) (st : State) (db : Store.t) (clock : nat -> Z) :
  user st = Some u ->
  let users := default [] (Store.users db) in
  let employees := List.filter User.isEmployee users in
  let stored := map (fun kv => complete u employees kv.2)
                    (map_to_list (Store.attendance db)) in
  let shown :=
    if User.isAdmin u && (length stored =? 0)%nat && (0 <? length employees)%nat
    then placeholders clock 0 employees else stored in
  let history :=
    if negb (User.isAdmin u)
    then List.filter (fun rec => String.eqb (AttendanceRecord.email rec) (User.email u))
                     (sortByTime shown)
    else sortByTime shown in
  fetchHistory clock st db =
  (tt,
   mkState (Some u) history (filter st) (departmentsOf users) (selectedDept st)
           users false false,
   db, []).
Proof.
  intros Hu. cbv zeta.
  unfold fetchHistory, bind, getState, getUsers, multiGetAttendance,
    setLoading, setAllUsers, setDepartments, setAttendanceHistory, setRefreshing,
    setState.
  rewrite Hu. cbn [fst snd user filter selectedDept]. rewrite Hu. reflexivity.
Qed.

Section Loaded.
Variables (u : User.t) (st : State) (db : Store.t) (clock : nat -> Z).
Hypothesis Huser : user st = Some u.

Let loaded : State := stateOf (fetchHistory clock st db).
Let employees : list User.t :=
  List.filter User.isEmployee (default [] (Store.users db)).


Lemma fetchHistory_keeps_filters :
  user loaded = Some u /\ filter loaded = filter st /\
  selectedDept loaded = selectedDept st.
Proof. subst loaded. now rewrite (fetchHistory_run u st db clock Huser). Qed.

Lemma fetchHistory_employee :
  User.isAdmin u = false ->
  attendanceHistory loaded =
  List.filter (fun rec => String.eqb (AttendanceRecord.email rec) (User.email u))
    (sortByTime (map (fun kv => complete u employees kv.2)
                     (map_to_list (Store.attendance db)))).
Proof.
  intros Hrole. subst loaded. rewrite (fetchHistory_run u st db clock Huser).
  unfold stateOf. cbn [fst snd attendanceHistory]. now rewrite Hrole.
Qed.

Lemma fetchHistory_admin_records :
  User.isAdmin u = true ->
  map_to_list (Store.attendance db) <> [] ->
  attendanceHistory loaded =
  sortByTime (map (fun kv => complete u employees kv.2)
                  (map_to_list (Store.attendance db))).
Proof.
  intros Hrole Hne. subst loaded. rewrite (fetchHistory_run u st db clock Huser).
  unfold stateOf. cbn [fst snd attendanceHistory]. rewrite Hrole. cbn [negb andb].
  destruct (map_to_list (Store.attendance db)); [congruence|reflexivity].
Qed.

Lemma fetchHistory_admin_placeholders :
  User.isAdmin u = true ->
  Store.attendance db = ∅ ->
  employees <> [] ->
  attendanceHistory loaded = sortByTime (placeholders clock 0 employees).
Proof.
  intros Hrole Hempty Hemp. subst loaded.
  rewrite (fetchHistory_run u st db clock Huser).
  unfold stateOf. cbn [fst snd attendanceHistory]. rewrite Hrole, Hempty.
  rewrite map_to_list_empty. cbn [negb andb map length Nat.eqb].
  fold employees. destruct employees; [congruence|reflexivity].
Qed.

End Loaded.

Lemma filteredHistory_incl tz now st rec :
  In rec (filteredHistory tz now st) -> In rec (attendanceHistory st).
Proof.
  unfold filteredHistory. intros H.
  assert (Hdept : In rec
    match user st with
    | Some u =>
        if User.isAdmin u && negb (String.eqb (selectedDept st) "All")
        then List.filter (inDepartment (selectedDept st)) (attendanceHistory st)
        else attendanceHistory st
    | None => attendanceHistory st
    end).
  { destruct (filter st); [exact H| |]; now apply filter_In in H as [H _]. }
  destruct (user st) as [u|]; [|exact Hdept].
  destruct (User.isAdmin u && _); [|exact Hdept].
  now apply filter_In in Hdept as [Hdept _].
Qed.

Lemma filteredHistory_unfiltered tz now st :
  filter st = all -> selectedDept st = "All"%string ->
  filteredHistory tz now st = attendanceHistory st.
Proof.
  intros Hf Hd. unfold filteredHistory. rewrite Hf, Hd.
  destruct (user st) as [u|]; [|reflexivity].
  now rewrite andb_false_r.
Qed.

Lemma filteredHistory_admin_week tz now st u :
  user st = Some u -> User.isAdmin u = true ->
  filter st = week -> selectedDept st <> "All"%string ->
  filteredHistory tz now st =
  List.filter (inPeriod week tz now)
    (List.filter (inDepartment (selectedDept st)) (attendanceHistory st)).
Proof.
  intros Hu Hrole Hf Hd. unfold filteredHistory. rewrite Hu, Hrole, Hf.
  apply String.eqb_neq in Hd. now rewrite Hd.
Qed.

(** C6. A requester who is not an admin gets only records whose e-mail
    is their own, whatever the filters; for an admin every record of the
    ledger, of whatever user, is loaded (with name and department
    completed from the employee list) and, with no filter set, shown. *)
Theorem query_visibility
    (u : User.t) (st : State) (db : Store.t) (clock : nat -> Z) (tz : Zone.t) (now : Z) :
  user st = Some u ->
  let loaded := stateOf (fetchHistory clock st db) in
  let employees := List.filter User.isEmployee (default [] (Store.users db)) in
  (User.role u <> "admin"%string ->
   Forall (fun rec => AttendanceRecord.email rec = User.email u)
          (filteredHistory tz now loaded)) /\
  (User.role u = "admin"%string ->
   forall (k : string * Z) (rec : AttendanceRecord.t),
     Store.attendance db !! k = Some rec ->
     AttendanceRecord.email (complete u employees rec) = AttendanceRecord.email rec /\
     In (complete u employees rec) (attendanceHistory loaded) /\
     (filter st = all -> selectedDept st = "All"%string ->
      In (complete u employees rec) (filteredHistory tz now loaded))).
Proof.
  intros Hu loaded employees.
  destruct (fetchHistory_keeps_filters u st db clock Hu) as (_ & Hf & Hd).
  fold loaded in Hf, Hd. split.
  - intros Hrole. apply String.eqb_neq in Hrole.
    apply List.Forall_forall. intros rec Hin.
    apply filteredHistory_incl in Hin. subst loaded.
    rewrite (fetchHistory_employee u st db clock Hu Hrole) in Hin.
    apply filter_In in Hin as [_ Heq]. now apply String.eqb_eq in Heq.
  - intros Hrole. apply String.eqb_eq in Hrole.
    intros k rec Hrec. split; [apply complete_email|].
    assert (Hk : (k, rec) ∈ map_to_list (Store.attendance db))
      by now apply elem_of_map_to_list.
    assert (Hloaded : In (complete u employees rec) (attendanceHistory loaded)).
    { subst loaded. rewrite (fetchHistory_admin_records u st db clock Hu Hrole).
      - eapply Permutation_in; [symmetry; apply sortByTime_perm|].
        apply in_map_iff. exists (k, rec). split; [reflexivity|].
        now apply list_elem_of_In.
      - intros Hnil. rewrite Hnil in Hk. inversion Hk. }
    split; [exact Hloaded|].
    intros Hall Hdept. rewrite filteredHistory_unfiltered; [exact Hloaded| |];
      congruence.
Qed.

(** C7. For an admin who filters by a department and by the past week,
    every record shown is of that department and has its check-in time
    (the record's date when there is no check-in time) between [weekAgo]
    and [now], where [weekAgo] is the instant at which the device's wall
    clock showed the same time of day seven days before: [now] minus
    7 x 86,400,000 ms, shifted by the change of the zone's offset between
    the two instants, if there is one. The sequence runs from the newest
    to the oldest by that same time. *)
Theorem admin_week_by_department
    (u : User.t) (st : State) (db : Store.t) (clock : nat -> Z)
    (tz : Zone.t) (now : Z) :
  user st = Some u ->
  User.role u = "admin"%string ->
  filter st = week ->
  selectedDept st <> "All"%string ->
  let result := filteredHistory tz now (stateOf (fetchHistory clock st db)) in
  let offsetNow := Zone.localTZA tz now true in
  let offsetThen := Zone.localTZA tz (now + offsetNow - 7 * msPerDay) false in
  let weekAgo := now - 7 * msPerDay + (offsetNow - offsetThen) in
  Forall (fun rec =>
            AttendanceRecord.department rec = Some (selectedDept st) /\
            weekAgo <= sortTime rec <= now) result /\
  StronglySorted newestFirst result /\
  (offsetThen = offsetNow ->
   Forall (fun rec => now - 7 * msPerDay <= sortTime rec <= now) result).
Proof.
  intros Hu Hadmin Hweek Hdept result offsetNow offsetThen weekAgo.
  assert (Hrole : User.isAdmin u = true)
    by (unfold User.isAdmin; now apply String.eqb_eq).
  destruct (fetchHistory_keeps_filters u st db clock Hu) as (Hu' & Hf & Hd).
  assert (Hres : result =
    List.filter (inPeriod week tz now)
      (List.filter (inDepartment (selectedDept st))
         (attendanceHistory (stateOf (fetchHistory clock st db))))).
  { subst result.
    rewrite (filteredHistory_admin_week tz now _ u Hu' Hrole); [|congruence..].
    now rewrite Hd. }
  assert (Hall : Forall (fun rec =>
            AttendanceRecord.department rec = Some (selectedDept st) /\
            weekAgo <= sortTime rec <= now) result).
  { rewrite Hres. apply List.Forall_forall. intros rec Hin.
    apply filter_In in Hin as [Hin Hperiod].
    apply filter_In in Hin as [_ Hin].
    unfold inDepartment in Hin.
    unfold inPeriod, Calendar.minusDays, Zone.utc, Zone.localTime in Hperiod.
    cbv zeta in Hperiod. apply andb_true_iff in Hperiod as [Hlo Hhi].
    apply Z.leb_le in Hlo, Hhi.
    split.
    - destruct (AttendanceRecord.department rec) as [d|]; [|discriminate].
      apply String.eqb_eq in Hin. now subst d.
    - subst weekAgo offsetThen offsetNow. lia. }
  split; [exact Hall|]. split.
  - rewrite Hres. do 2 apply filter_sorted.
    rewrite (fetchHistory_run u st db clock Hu). unfold stateOf.
    cbn [fst snd attendanceHistory]. rewrite Hrole. cbn [negb].
    apply sortByTime_sorted.
  - intros Hsame. eapply List.Forall_impl; [|exact Hall].
    intros rec [_ Hrec]. subst weekAgo. cbv beta in Hrec. lia.
Qed.

Lemma placeholders_per_employee clock i employees :
  Forall2 (fun emp rec =>
             AttendanceRecord.email rec = User.email emp /\
             AttendanceRecord.name rec = User.name emp /\
             AttendanceRecord.department rec = User.department emp /\
             AttendanceRecord.status rec = Some noAttendance /\
             AttendanceRecord.checkOutTime rec = None)
          employees (placeholders clock i employees).
Proof.
  revert i. induction employees as [|emp rest IH]; intros i; simpl.
  - constructor.
  - constructor; [repeat split|apply IH].
Qed.


End Query.

Section QueryScenario.
Import AttendanceScreen Scenario.

Lemma query_visibility_witness :
  Forall (fun rec => AttendanceRecord.email rec = "ana@example.com"%string)
         (filteredHistory (Zone.fixed 0) (tick 0) (stateOf (fetchHistory tick anaView closedLedger))).
Proof.
  pose proof (query_visibility ana anaView closedLedger tick (Zone.fixed 0) (tick 0) eq_refl)
    as H.
  cbv zeta in H. destruct H as [H _]. apply H. discriminate.
Defined.

(** In New York at noon on 5 November 2024, two days after the clocks
    went back, the admin's week view of Engineering holds Ana's check-in
    of 29 October at 12:30. *)
Lemma autumn_week_view :
  In Cases.lastWeek
     (filteredHistory Cases.newYork Cases.noon
        (stateOf (fetchHistory tick (adminView week "Engineering") Cases.autumn))).
Proof.
  assert (Hdept : selectedDept (adminView week "Engineering") <> "All"%string)
    by discriminate.
  destruct (fetchHistory_keeps_filters root (adminView week "Engineering")
              Cases.autumn tick eq_refl) as (Hu & Hf & Hd).
  rewrite (filteredHistory_admin_week Cases.newYork Cases.noon _ root Hu eq_refl);
    [|now rewrite Hf|rewrite Hd; discriminate].
  rewrite Hd.
  assert (Hkey : Store.attendance Cases.autumn !! ("ana@example.com"%string, 20025)
                 = Some Cases.lastWeek) by apply lookup_insert_eq.
  apply filter_In. split; [|reflexivity].
  apply filter_In. split; [|reflexivity].
  rewrite (fetchHistory_admin_records root (adminView week "Engineering")
             Cases.autumn tick eq_refl eq_refl).
  - eapply Permutation_in; [symmetry; apply sortByTime_perm|].
    apply elem_of_map_to_list, list_elem_of_In in Hkey.
    set (stored := map_to_list (Store.attendance Cases.autumn)) in *.
    set (f := fun kv : string * Z * AttendanceRecord.t => complete root _ kv.2).
    exact (in_map f stored _ Hkey).
  - intros Hnil. apply elem_of_map_to_list in Hkey. rewrite Hnil in Hkey.
    inversion Hkey.
Qed.

(** That record is 7 days and 30 minutes old: the week of the filter is
    seven days on the wall clock, here an hour more than 7 x 24 hours. *)
Lemma week_filter_keeps_older_record :
  let result :=
    filteredHistory Cases.newYork Cases.noon
      (stateOf (fetchHistory tick (adminView week "Engineering") Cases.autumn)) in
  In Cases.lastWeek result /\
  sortTime Cases.lastWeek = Cases.noon - 7 * msPerDay - 30 * 60000 /\
  sortTime Cases.lastWeek < Cases.noon - 7 * msPerDay.
Proof.
  split; [exact autumn_week_view|]. split; [reflexivity|].
  vm_compute. reflexivity.
Qed.

Lemma admin_week_by_department_witness :
  let result :=
    filteredHistory Cases.newYork Cases.noon
      (stateOf (fetchHistory tick (adminView week "Engineering") Cases.autumn)) in
  In Cases.lastWeek result /\
  ~ In Cases.earlier result /\
  ~ In Cases.yesterday result.
Proof.
  assert (Hdept : selectedDept (adminView week "Engineering") <> "All"%string)
    by discriminate.
  pose proof (admin_week_by_department root (adminView week "Engineering")
                Cases.autumn tick Cases.newYork Cases.noon
                eq_refl eq_refl eq_refl Hdept) as H.
  cbv zeta in H. destruct H as (H & _ & _).
  rewrite List.Forall_forall in H.
  split; [exact autumn_week_view|]. split.
  - intros Hin. destruct (H _ Hin) as (_ & Hlo & _).
    revert Hlo. vm_compute. intros Hlo. now apply Hlo.
  - intros Hin. destruct (H _ Hin) as (Hd & _). discriminate Hd.
Defined.


End QueryScenario.

(** * Further properties of the screens *)

(** ** The distance *)

Section Distance.
Import HomeScreen.


(** X1. The distance does not depend on which of the two points comes
    first. *)
Theorem haversine_symmetric (lat1 lon1 lat2 lon2 : R) :
  haversine lat1 lon1 lat2 lon2 = haversine lat2 lon2 lat1 lon1.
Proof.
  rewrite !haversine_greatCircle. unfold greatCircleKm, hav.
  replace ((deg2rad lat1 - deg2rad lat2) / 2)%R
    with (- ((deg2rad lat2 - deg2rad lat1) / 2))%R by lra.
  replace ((deg2rad lon1 - deg2rad lon2) / 2)%R
    with (- ((deg2rad lon2 - deg2rad lon1) / 2))%R by lra.
  rewrite !sin_neg. do 2 f_equal. f_equal. ring.
Qed.


(** X3. Between two points of the same meridian, at most half a turn
    apart, the distance is the arc between them: 6371 km times the
    difference of latitude in radians, whichever point comes first. *)
Theorem distance_along_meridian (lat lon d : R) :
  (0 <= d <= 180)%R ->
  haversine lat lon (lat + d) lon = (6371 * (d * (PI / 180)))%R /\
  haversine (lat + d) lon lat lon = (6371 * (d * (PI / 180)))%R.
Proof.
  intros Hd. pose proof (haversine_meridian lat lon d Hd) as H.
  unfold deg2rad in H. split; [exact H|].
  rewrite !haversine_greatCircle in *. unfold greatCircleKm, hav in *.
  rewrite <- H.
  replace ((deg2rad lat - deg2rad (lat + d)) / 2)%R
    with (- ((deg2rad (lat + d) - deg2rad lat) / 2))%R by lra.
  rewrite !sin_neg. do 2 f_equal. f_equal. ring.
Qed.

Lemma distance_along_meridian_witness :
  haversine 36.7749 (-122.4194) (36.7749 + 1) (-122.4194)
  = (6371 * (1 * (PI / 180)))%R.
Proof.
  apply (distance_along_meridian 36.7749 (-122.4194) 1). lra.
Defined.

Lemma sin_half_turn (x : R) :
  (sin ((x + 2 * PI) / 2) * sin ((x + 2 * PI) / 2) = sin (x / 2) * sin (x / 2))%R.
Proof.
  replace ((x + 2 * PI) / 2)%R with (x / 2 + PI)%R by lra.
  rewrite neg_sin. ring.
Qed.

(** X4. Adding a full turn of 360 degrees to the longitude of the second
    point does not change the distance: the formula has no seam at the
    antimeridian. *)
Theorem haversine_longitude_turn (lat1 lon1 lat2 lon2 : R) :
  haversine lat1 lon1 lat2 (lon2 + 360) = haversine lat1 lon1 lat2 lon2.
Proof.
  rewrite !haversine_greatCircle. unfold greatCircleKm, hav.
  replace (deg2rad (lon2 + 360) - deg2rad lon1)%R
    with ((deg2rad lon2 - deg2rad lon1) + 2 * PI)%R
    by (unfold deg2rad; field).
  now rewrite sin_half_turn.
Qed.

End Distance.

(** ** Worked hours, continued *)

Section HoursMore.
Import HomeScreen.

Lemma Qfloor_unique (x : Q) (z : Z) :
  (inject_Z z <= x)%Q -> (x < inject_Z (z + 1))%Q -> Qfloor x = z.
Proof.
  intros Hlo Hhi.
  pose proof (Qfloor_le x) as Fl. pose proof (Qlt_floor x) as Fh.
  assert (H1 : (inject_Z (Qfloor x) < inject_Z (z + 1))%Q) by lra.
  assert (H2 : (inject_Z z < inject_Z (Qfloor x + 1))%Q) by lra.
  rewrite <- Zlt_Qlt in H1, H2. lia.
Qed.

Lemma toFixed2_comp (x y : Q) : (x == y)%Q -> toFixed2 x = toFixed2 y.
Proof.
  intros H. unfold toFixed2.
  assert (E : Qfloor (Qabs x * 100 + (1 # 2)) = Qfloor (Qabs y * 100 + (1 # 2)))
    by (apply Qfloor_comp; now rewrite H).
  rewrite E.
  destruct (Qlt_le_dec x 0), (Qlt_le_dec y 0); try reflexivity; lra.
Qed.

Lemma toFixed2_hundredths (n : Z) : toFixed2 (inject_Z n / 100) = n.
Proof.
  unfold toFixed2.
  assert (Hx : (inject_Z n / 100 == inject_Z n * (1 # 100))%Q)
    by (unfold Qdiv; now change (/ 100)%Q with (1 # 100)%Q).
  destruct (Z_lt_le_dec n 0) as [Hn|Hn].
  - assert (Hq : (inject_Z n < 0)%Q)
      by (change 0%Q with (inject_Z 0); now rewrite <- Zlt_Qlt).
    assert (Ha : (Qabs (inject_Z n / 100) == - (inject_Z n / 100))%Q)
      by (apply Qabs_neg; lra).
    rewrite (Qfloor_unique _ (- n)).
    + destruct (Qlt_le_dec (inject_Z n / 100) 0); [lia|lra].
    + rewrite inject_Z_opp. lra.
    + rewrite inject_Z_plus, inject_Z_opp. change (inject_Z 1) with 1%Q. lra.
  - assert (Hq : (0 <= inject_Z n)%Q)
      by (change 0%Q with (inject_Z 0); now rewrite <- Zle_Qle).
    assert (Ha : (Qabs (inject_Z n / 100) == inject_Z n / 100)%Q)
      by (apply Qabs_pos; lra).
    rewrite (Qfloor_unique _ n).
    + destruct (Qlt_le_dec (inject_Z n / 100) 0); [lra|reflexivity].
    + lra.
    + rewrite inject_Z_plus. change (inject_Z 1) with 1%Q. lra.
Qed.

Lemma Qfloor_nonneg (x : Q) : (0 <= x)%Q -> 0 <= Qfloor x.
Proof. intros H. apply (Qfloor_resp_le 0 x H). Qed.

Lemma toFixed2_mono (x y : Q) : (x <= y)%Q -> toFixed2 x <= toFixed2 y.
Proof.
  intros H. unfold toFixed2.
  pose proof (Qabs_nonneg x) as Hx. pose proof (Qabs_nonneg y) as Hy.
  destruct (Qlt_le_dec x 0) as [Hxn|Hxp], (Qlt_le_dec y 0) as [Hyn|Hyp].
  - assert (Ha : (Qabs y * 100 + (1 # 2) <= Qabs x * 100 + (1 # 2))%Q).
    { assert (Qabs x == - x)%Q by (apply Qabs_neg; lra).
      assert (Qabs y == - y)%Q by (apply Qabs_neg; lra). lra. }
    apply Qfloor_resp_le in Ha. lia.
  - assert (0 <= Qfloor (Qabs x * 100 + (1 # 2))) by (apply Qfloor_nonneg; lra).
    assert (0 <= Qfloor (Qabs y * 100 + (1 # 2))) by (apply Qfloor_nonneg; lra).
    lia.
  - lra.
  - assert (Ha : (Qabs x * 100 + (1 # 2) <= Qabs y * 100 + (1 # 2))%Q).
    { assert (Qabs x == x)%Q by (apply Qabs_pos; lra).
      assert (Qabs y == y)%Q by (apply Qabs_pos; lra). lra. }
    now apply Qfloor_resp_le in Ha.
Qed.

Lemma hours_quotient_le (a b : Z) :
  a <= b -> (inject_Z a / inject_Z msPerHour <= inject_Z b / inject_Z msPerHour)%Q.
Proof.
  intros H. rewrite Zle_Qle in H. unfold Qdiv.
  change (/ inject_Z msPerHour)%Q with (1 # 3600000)%Q. lra.
Qed.

(** X5. When the time worked is a whole number [n] of hundredths of an
    hour (36 s each), the recorded hours are exactly [n / 100]: rounding
    changes nothing. *)
Theorem calculateHours_exact (start n : Z) :
  exists h : Q,
    calculateHours (Some start) (start + 36000 * n) = Some h /\
    (h == inject_Z n / 100)%Q.
Proof.
  eexists. split; [reflexivity|].
  rewrite Qred_correct.
  rewrite (toFixed2_comp _ (inject_Z n / 100)).
  - rewrite toFixed2_hundredths. apply Qmake_Qdiv.
  - replace (start + 36000 * n - start) with (36000 * n) by lia.
    rewrite inject_Z_mult. unfold Qdiv.
    change (/ inject_Z msPerHour)%Q with (1 # 3600000)%Q.
    change (/ 100)%Q with (1 # 100)%Q. change (inject_Z 36000) with 36000%Q.
    lra.
Qed.

(** X6. Checking out later never records fewer hours, and a check-out
    that is not before the check-in never records a negative number. *)
Theorem calculateHours_monotone (start finish1 finish2 : Z) :
  finish1 <= finish2 ->
  exists h1 h2 : Q,
    calculateHours (Some start) finish1 = Some h1 /\
    calculateHours (Some start) finish2 = Some h2 /\
    (h1 <= h2)%Q /\
    (start <= finish1 -> (0 <= h1)%Q).
Proof.
  intros H. do 2 eexists. split; [reflexivity|]. split; [reflexivity|].
  rewrite !Qred_correct. split.
  - assert (Hm := toFixed2_mono _ _
                    (hours_quotient_le (finish1 - start) (finish2 - start)
                                       ltac:(lia))).
    unfold Qle. simpl. lia.
  - intros Hs.
    assert (Hm := toFixed2_mono _ _ (hours_quotient_le 0 (finish1 - start) ltac:(lia))).
    rewrite (toFixed2_comp _ (inject_Z 0 / 100)) in Hm by reflexivity.
    rewrite toFixed2_hundredths in Hm.
    unfold Qle. simpl. lia.
Qed.

Lemma calculateHours_monotone_witness :
  exists h1 h2 : Q,
    calculateHours (Some 0) (9 * msPerHour) = Some h1 /\
    calculateHours (Some 0) (17 * msPerHour) = Some h2 /\
    (h1 <= h2)%Q.
Proof.
  destruct (calculateHours_monotone 0 (9 * msPerHour) (17 * msPerHour))
    as (h1 & h2 & H1 & H2 & Hle & _); [discriminate|].
  exists h1, h2. repeat split; assumption.
Defined.

End HoursMore.

(** ** The attendance handler, whatever the outcome *)

Section Press.
Import HomeScreen.

(** The outcomes of a run for a signed-in user, as one case analysis. *)
Lemma handleAttendance_cases (u : User.t) (st : State) (db : Store.t) (r : Readings) :
  user st = Some u ->
  let key := (User.email u, isoDate (clockToday r)) in
  let run := handleAttendance r st db in
  (Store.attendance (storeOf run) = Store.attendance db /\
   attendanceStatus (stateOf run) = attendanceStatus st /\
   forall e d, ~ In (SetItem (Store.Attendance e d)) (effectsOf run)) \/
  (exists g p,
     geofence (Some u) = Some g /\ locationStatus st = inside /\
     position r = Some p /\ isInside p g = true /\
     (Store.attendance db !! key = None \/ attendanceStatus st = Some false) /\
     Store.attendance (storeOf run) =
       <[key := checkInData u (isoDate (clockToday r)) (clockNow r) p]>
         (Store.attendance db) /\
     attendanceStatus (stateOf run) = Some true) \/
  (exists g p rec,
     geofence (Some u) = Some g /\ locationStatus st = inside /\
     position r = Some p /\ isInside p g = true /\
     Store.attendance db !! key = Some rec /\ attendanceStatus st <> Some false /\
     Store.attendance (storeOf run) =
       <[key := updatedData rec (clockNow r) p
                  (calculateHours (AttendanceRecord.checkInTime rec) (clockNow r))]>
         (Store.attendance db) /\
     attendanceStatus (stateOf run) = Some false).
Proof.
  intros Hu key run. subst run.
  destruct (geofence (Some u)) as [g|] eqn:Hg.
  2:{ left. rewrite (handleAttendance_no_geofence u r st db Hu Hg).
      repeat split. intros e d [H|[]]. discriminate. }
  destruct (LocationStatus_eq_dec (locationStatus st) inside) as [Hs|Hs].
  2:{ left. rewrite (handleAttendance_cached_not_inside u g r st db Hu Hg Hs).
      repeat split. intros e d [H|[]]. discriminate. }
  destruct (position r) as [p|] eqn:Hp.
  2:{ left. rewrite (handleAttendance_position_fails u g r st db Hu Hg Hs Hp).
      repeat split. intros e d [H|[H|[]]]; discriminate. }
  destruct (isInside p g) eqn:Hin.
  2:{ left. rewrite (handleAttendance_fresh_outside u g r st db Hu Hg Hs p Hp Hin).
      unfold storeOf, stateOf, effectsOf. cbn [fst snd attendanceStatus].
      split; [apply snapshotStore_attendance|]. split; [reflexivity|].
      intros e d [H|H]; [discriminate|].
      apply in_app_or in H as [H|[H|[]]]; [|discriminate].
      now apply snapshotEffects_no_attendance in H. }
  destruct (Store.attendance db !! key) as [rec|] eqn:Hrec.
  - destruct (option_eq_dec_false (attendanceStatus st)) as [Hst|Hst].
    + right. left. exists g, p.
      rewrite (handleAttendance_check_in u g r st db Hu Hg Hs p Hp Hin (or_intror Hst)).
      unfold storeOf, stateOf. cbn [fst snd attendanceStatus Store.attendance
                                    Store.setAttendance].
      rewrite snapshotStore_attendance. repeat split; auto.
    + right. right. exists g, p, rec.
      rewrite (handleAttendance_check_out u g r st db Hu Hg Hs p Hp Hin rec Hrec Hst).
      unfold storeOf, stateOf. cbn [fst snd attendanceStatus Store.attendance
                                    Store.setAttendance].
      rewrite snapshotStore_attendance. repeat split; auto.
  - right. left. exists g, p.
    rewrite (handleAttendance_check_in u g r st db Hu Hg Hs p Hp Hin (or_introl Hrec)).
    unfold storeOf, stateOf. cbn [fst snd attendanceStatus Store.attendance
                                  Store.setAttendance].
    rewrite snapshotStore_attendance. repeat split; auto.
Qed.

(** X7. A press by a signed-in user leaves the users as they are, leaves
    every ledger entry other than the one of that user and day as it is,
    and never removes an entry; without a signed-in user it does nothing
    at all. *)
Theorem handleAttendance_touches_own_key
    (st : State) (db : Store.t) (r : Readings) :
  let run := handleAttendance r st db in
  (user st = None -> run = (tt, st, db, [])) /\
  (forall u : User.t, user st = Some u ->
     Store.users (storeOf run) = Store.users db /\
     (forall k, k <> (User.email u, isoDate (clockToday r)) ->
        Store.attendance (storeOf run) !! k = Store.attendance db !! k) /\
     (forall k, is_Some (Store.attendance db !! k) ->
        is_Some (Store.attendance (storeOf run) !! k))).
Proof.
  intros run. split.
  - intros Hu. subst run. unfold handleAttendance, bind, getState. now rewrite Hu.
  - intros u Hu.
    destruct (handleAttendance_frame u st db r Hu) as [Husers Hframe].
    fold run in Husers, Hframe.
    split; [exact Husers|]. split; [exact Hframe|].
    intros k Hk.
    destruct (decide (k = (User.email u, isoDate (clockToday r)))) as [->|Hne];
      [|now rewrite Hframe].
    destruct (handleAttendance_cases u st db r Hu)
      as [(E & _) | [(g & p & _ & _ & _ & _ & _ & E & _)
                    | (g & p & rec & _ & _ & _ & _ & _ & _ & E & _)]];
      fold run in E; rewrite E; [exact Hk| |]; rewrite lookup_insert_eq; eauto.
Qed.

Lemma handleAttendance_touches_own_key_witness :
  Store.users (storeOf (handleAttendance Scenario.at0900 Scenario.mounted
                                         Scenario.closedLedger))
  = Some [Scenario.ana].
Proof.
  pose proof (handleAttendance_touches_own_key Scenario.mounted
                Scenario.closedLedger Scenario.at0900) as H.
  cbv zeta in H. destruct H as [_ H].
  destruct (H Scenario.ana eq_refl) as [Hu _]. exact Hu.
Defined.

(** X8. If every record of the ledger sits under the key of its own
    e-mail and date, this is still so after a press, whatever its
    outcome. *)
Theorem handleAttendance_keeps_wellKeyed
    (u : User.t) (st : State) (db : Store.t) (r : Readings) :
  user st = Some u ->
  wellKeyed (Store.attendance db) ->
  wellKeyed (Store.attendance (storeOf (handleAttendance r st db))).
Proof.
  intros Hu Hwk.
  destruct (handleAttendance_cases u st db r Hu)
    as [(E & _) | [(g & p & _ & _ & _ & _ & _ & E & _)
                  | (g & p & rec & _ & _ & _ & _ & Hrec & _ & E & _)]];
    rewrite E; [exact Hwk| |]; intros k rec' Hk.
  - destruct (decide (k = (User.email u, isoDate (clockToday r)))) as [->|Hne].
    + rewrite lookup_insert_eq in Hk. injection Hk as <-. split; reflexivity.
    + rewrite lookup_insert_ne in Hk by congruence. now apply Hwk.
  - destruct (decide (k = (User.email u, isoDate (clockToday r)))) as [->|Hne].
    + rewrite lookup_insert_eq in Hk. injection Hk as <-.
      exact (Hwk _ _ Hrec).
    + rewrite lookup_insert_ne in Hk by congruence. now apply Hwk.
Qed.

Lemma wellKeyed_empty : wellKeyed ∅.
Proof. intros k rec H. now rewrite lookup_empty in H. Qed.

Lemma handleAttendance_keeps_wellKeyed_witness :
  wellKeyed (Store.attendance (storeOf Scenario.afterCheckIn)).
Proof.
  apply (handleAttendance_keeps_wellKeyed Scenario.ana Scenario.mounted
           Scenario.emptyLedger Scenario.at0900 eq_refl).
  exact wellKeyed_empty.
Defined.

(** X9. If the screen's attendance status is in step with the record of
    the day before a press, it is in step with it after the press, whether
    the press checked in, checked out or was turned down. *)
Theorem handleAttendance_keeps_inStep
    (u : User.t) (st : State) (db : Store.t) (r : Readings) :
  user st = Some u ->
  let key := (User.email u, isoDate (clockToday r)) in
  let run := handleAttendance r st db in
  inStep (attendanceStatus st) (Store.attendance db !! key) ->
  inStep (attendanceStatus (stateOf run)) (Store.attendance (storeOf run) !! key).
Proof.
  intros Hu key run Hstep.
  destruct (handleAttendance_cases u st db r Hu)
    as [(E & Es & _) | [(g & p & _ & _ & _ & _ & _ & E & Es)
                       | (g & p & rec & _ & _ & _ & _ & _ & _ & E & Es)]];
    fold run key in E, Es; rewrite E, Es; [exact Hstep| |];
    rewrite lookup_insert_eq; reflexivity.
Qed.

Lemma handleAttendance_keeps_inStep_witness :
  inStep (attendanceStatus (stateOf (handleAttendance Scenario.at1800 Scenario.mounted
                                                      Scenario.closedLedger)))
         (Store.attendance
            (storeOf (handleAttendance Scenario.at1800 Scenario.mounted
                                       Scenario.closedLedger)) !! Scenario.today).
Proof.
  apply (handleAttendance_keeps_inStep Scenario.ana Scenario.mounted
           Scenario.closedLedger Scenario.at1800 eq_refl).
  change (User.email Scenario.ana, isoDate (clockToday Scenario.at1800))
    with Scenario.today.
  unfold inStep, Scenario.closedLedger. cbn [Store.attendance].
  now rewrite lookup_singleton_eq.
Defined.

(** X10. A failed position query is recoverable: it writes nothing, shows
    the error notice, and the next press gives the result the press would
    have given had the failure not happened. *)
Theorem handleAttendance_retry_after_failure
    (u : User.t) (g : Geofence.t) (st : State) (db : Store.t) (r1 r2 : Readings) :
  user st = Some u ->
  geofence (Some u) = Some g ->
  locationStatus st = inside ->
  position r1 = None ->
  position r2 <> None ->
  let failed := handleAttendance r1 st db in
  storeOf failed = db /\
  effectsOf failed = [GetCurrentPosition; Alert "Error" failedMessage] /\
  fetchingLocation (stateOf failed) = false /\
  handleAttendance r2 (stateOf failed) (storeOf failed) = handleAttendance r2 st db.
Proof.
  intros Hu Hg Hs Hp1 Hp2 failed. subst failed.
  rewrite (handleAttendance_position_fails u g r1 st db Hu Hg Hs Hp1).
  unfold storeOf, stateOf, effectsOf. cbn [fst snd fetchingLocation].
  repeat split.
  destruct (position r2) as [p|] eqn:Hp; [clear Hp2|congruence].
  set (st' := mkState (Some u) (location st) inside (attendanceStatus st) false).
  destruct (isInside p g) eqn:Hin.
  - destruct (Store.attendance db !! (User.email u, isoDate (clockToday r2)))
      as [rec|] eqn:Hrec.
    + destruct (option_eq_dec_false (attendanceStatus st)) as [Hst|Hst].
      * rewrite (handleAttendance_check_in u g r2 st' db eq_refl Hg eq_refl p Hp Hin
                   (or_intror Hst)).
        now rewrite (handleAttendance_check_in u g r2 st db Hu Hg Hs p Hp Hin
                       (or_intror Hst)).
      * rewrite (handleAttendance_check_out u g r2 st' db eq_refl Hg eq_refl p Hp Hin
                   rec Hrec Hst).
        now rewrite (handleAttendance_check_out u g r2 st db Hu Hg Hs p Hp Hin
                       rec Hrec Hst).
    + rewrite (handleAttendance_check_in u g r2 st' db eq_refl Hg eq_refl p Hp Hin
                 (or_introl Hrec)).
      now rewrite (handleAttendance_check_in u g r2 st db Hu Hg Hs p Hp Hin
                     (or_introl Hrec)).
  - rewrite (handleAttendance_fresh_outside u g r2 st' db eq_refl Hg eq_refl p Hp Hin).
    now rewrite (handleAttendance_fresh_outside u g r2 st db Hu Hg Hs p Hp Hin).
Qed.

Lemma handleAttendance_retry_after_failure_witness :
  storeOf (handleAttendance Cases.noFix Scenario.mounted Scenario.emptyLedger)
  = Scenario.emptyLedger /\
  handleAttendance Scenario.at0900
    (stateOf (handleAttendance Cases.noFix Scenario.mounted Scenario.emptyLedger))
    (storeOf (handleAttendance Cases.noFix Scenario.mounted Scenario.emptyLedger))
  = handleAttendance Scenario.at0900 Scenario.mounted Scenario.emptyLedger.
Proof.
  assert (Hfix : position Scenario.at0900 <> None) by discriminate.
  pose proof (handleAttendance_retry_after_failure Scenario.ana Scenario.boundary
                Scenario.mounted Scenario.emptyLedger Cases.noFix Scenario.at0900
                eq_refl scenario_geofence eq_refl eq_refl Hfix) as H.
  cbv zeta in H. destruct H as (Hs & _ & _ & Hr). split; [exact Hs|exact Hr].
Defined.

End Press.

(** ** Location snapshots, status on mount, refresh *)

Section Location.
Import HomeScreen.

(** X11. For an employee with a geofence, [updateLocationStatus] records
    under the employee's e-mail a snapshot of the position, stamped and
    flagged inside exactly when the status it sets is [inside]; the
    snapshots of the others, the users and the ledger are left alone. For
    any other role, and for anybody without a geofence, it writes
    nothing. *)
Theorem updateLocationStatus_snapshot
    (u : User.t) (g : Geofence.t) (p : Coords.t) (now : Z)
    (st : State) (db : Store.t) :
  let run := updateLocationStatus (Some u) (Some g) p now st db in
  Store.users (storeOf run) = Store.users db /\
  Store.attendance (storeOf run) = Store.attendance db /\
  (User.role u = "employee"%string ->
   exists (m : gmap string Snapshot.t) (snap : Snapshot.t),
     Store.employeeLocations (storeOf run) = Some m /\
     m !! User.email u = Some snap /\
     Snapshot.latitude snap = Coords.latitude p /\
     Snapshot.longitude snap = Coords.longitude p /\
     Snapshot.timestamp snap = now /\
     (Snapshot.isInside snap = true <-> locationStatus (stateOf run) = inside) /\
     forall e, e <> User.email u ->
       m !! e = default ∅ (Store.employeeLocations db) !! e) /\
  (User.role u <> "employee"%string -> storeOf run = db /\ effectsOf run = []) /\
  (forall who, storeOf (updateLocationStatus who None p now st db) = db).
Proof.
  intros run. subst run. rewrite updateLocationStatus_run.
  unfold storeOf, stateOf, effectsOf, snapshotStore, snapshotEffects.
  cbn [fst snd locationStatus].
  split; [destruct (User.isEmployee u); reflexivity|].
  split; [destruct (User.isEmployee u); reflexivity|].
  split; [|split].
  - intros Hrole. apply String.eqb_eq in Hrole. unfold User.isEmployee.
    rewrite Hrole. cbn [Store.employeeLocations Store.setEmployeeLocations].
    eexists _, _. split; [reflexivity|]. split; [apply lookup_insert_eq|].
    cbn. repeat split; try (destruct (isInside p g); congruence).
    intros e He. now apply lookup_insert_ne.
  - intros Hrole. apply String.eqb_neq in Hrole. unfold User.isEmployee.
    now rewrite Hrole.
  - reflexivity.
Qed.

Lemma updateLocationStatus_snapshot_witness :
  exists (m : gmap string Snapshot.t) (snap : Snapshot.t),
    Store.employeeLocations
      (storeOf (updateLocationStatus (Some Scenario.ana) (Some Scenario.boundary)
                  Scenario.desk Scenario.midnight Scenario.mounted
                  Scenario.emptyLedger)) = Some m /\
    m !! "ana@example.com"%string = Some snap /\
    Snapshot.timestamp snap = Scenario.midnight.
Proof.
  pose proof (updateLocationStatus_snapshot Scenario.ana Scenario.boundary
                Scenario.desk Scenario.midnight Scenario.mounted
                Scenario.emptyLedger) as H.
  cbv zeta in H. destruct H as (_ & _ & H & _).
  destruct (H eq_refl) as (m & snap & Hm & Hs & _ & _ & Ht & _).
  exists m, snap. repeat split; assumption.
Defined.

(** X12. [getAttendanceStatus] only reads: it sets the attendance status
    to checked-in exactly when the ledger holds, under the key of the
    signed-in user and of the day read from the clock, a record without
    check-out time, and to checked-out otherwise; records of other days
    or users play no part, and without a signed-in user nothing
    changes. *)
Theorem getAttendanceStatus_reads_today (st : State) (db : Store.t) (today : Z) :
  let run := getAttendanceStatus today st db in
  storeOf run = db /\
  effectsOf run = [] /\
  locationStatus (stateOf run) = locationStatus st /\
  (user st = None -> stateOf run = st) /\
  (forall u : User.t, user st = Some u ->
     (attendanceStatus (stateOf run) = Some true <->
      exists rec, Store.attendance db !! (User.email u, isoDate today) = Some rec /\
                  AttendanceRecord.checkOutTime rec = None) /\
     (attendanceStatus (stateOf run) = Some true \/
      attendanceStatus (stateOf run) = Some false)).
Proof.
  intros run. subst run.
  unfold getAttendanceStatus, bind, getState, getAttendance, setAttendanceStatus,
    setState, ret, storeOf, stateOf, effectsOf.
  destruct (user st) as [u|] eqn:Hu; cbn [fst snd].
  - destruct (Store.attendance db !! (User.email u, isoDate today)) as [rec|] eqn:Hrec;
      cbn [fst snd locationStatus attendanceStatus];
      (split; [reflexivity|]); (split; [reflexivity|]); (split; [reflexivity|]);
      (split; [discriminate|]); intros u0 [= <-]; rewrite Hrec.
    + split; [split|].
      * intros Ht. exists rec. split; [reflexivity|].
        destruct (AttendanceRecord.checkOutTime rec); [discriminate|reflexivity].
      * intros (rec' & [= <-] & Hout). now rewrite Hout.
      * destruct (AttendanceRecord.checkOutTime rec); [now right|now left].
    + split; [split|].
      * discriminate.
      * intros (rec' & Hrec' & _). discriminate.
      * now right.
  - repeat split; discriminate.
Qed.

(** X13. [refreshLocation] never touches the users or the ledger and
    leaves the attendance status alone. When the position query fails it
    shows an error notice and keeps the cached position and status; when
    it succeeds the cached position is the fresh one and the cached
    status is the evaluator's verdict on it. *)
Theorem refreshLocation_frame (position : option Coords.t) (now : Z)
    (st : State) (db : Store.t) :
  let run := refreshLocation position now st db in
  Store.users (storeOf run) = Store.users db /\
  Store.attendance (storeOf run) = Store.attendance db /\
  attendanceStatus (stateOf run) = attendanceStatus st /\
  fetchingLocation (stateOf run) = false /\
  In GetCurrentPosition (effectsOf run) /\
  (position = None ->
   storeOf run = db /\
   location (stateOf run) = location st /\
   locationStatus (stateOf run) = locationStatus st /\
   In (Alert "Error" (Text "Could not update your location.")) (effectsOf run)) /\
  (forall p, position = Some p ->
   location (stateOf run) = Some p /\
   locationStatus (stateOf run) =
     match geofence (user st) with
     | Some g => if isInside p g then inside else outside
     | None => unknown
     end).
Proof.
  intros run. subst run.
  unfold refreshLocation, updateLocationStatus, bind, getState, setState, emit,
    alert, setLocation, setLocationStatus, setFetchingLocation,
    getEmployeeLocations, setEmployeeLocations, ret, storeOf, stateOf, effectsOf.
  destruct position as [p|].
  - assert (Hcases :
      (exists g u, geofence (user st) = Some g /\ user st = Some u) \/
      geofence (user st) = None).
    { destruct (user st) as [u|]; [|now right].
      destruct (geofence (Some u)) as [g|]; [left; eauto|now right]. }
    destruct Hcases as [(g & u & Hg & Hu)|Hg]; rewrite Hg; [rewrite Hu|].
    + destruct (User.isEmployee u); cbn;
        (split; [reflexivity|]); (split; [reflexivity|]); (split; [reflexivity|]);
        (split; [reflexivity|]); (split; [now left|]);
        (split; [discriminate|]); intros q [= <-]; split; reflexivity.
    + cbn. (split; [reflexivity|]); (split; [reflexivity|]); (split; [reflexivity|]);
        (split; [reflexivity|]); (split; [now left|]);
        (split; [discriminate|]); intros q [= <-]; split; reflexivity.
  - cbn. (split; [reflexivity|]); (split; [reflexivity|]); (split; [reflexivity|]);
      (split; [reflexivity|]); (split; [now left|]). split.
    + intros _. repeat split. right. now left.
    + discriminate.
Qed.

End Location.

(** ** The ledger query, continued *)

Section QueryMore.
Import AttendanceScreen.

Lemma complete_not_admin u employees rec :
  User.isAdmin u = false -> complete u employees rec = rec.
Proof. intros H. unfold complete. now rewrite H. Qed.

(** X14. What a requester who is not an admin gets loaded is exactly the
    records of the ledger that carry the requester's e-mail, each as
    stored, newest first. *)
Theorem employee_history_exact
    (u : User.t) (st : State) (db : Store.t) (clock : nat -> Z) :
  user st = Some u ->
  User.role u <> "admin"%string ->
  let history := attendanceHistory (stateOf (fetchHistory clock st db)) in
  (forall rec : AttendanceRecord.t,
     In rec history <->
     (exists k, Store.attendance db !! k = Some rec) /\
     AttendanceRecord.email rec = User.email u) /\
  StronglySorted newestFirst history.
Proof.
  intros Hu Hrole history. apply String.eqb_neq in Hrole.
  subst history. rewrite (fetchHistory_employee u st db clock Hu Hrole).
  split; [|apply filter_sorted, sortByTime_sorted].
  intros rec. rewrite filter_In, String.eqb_eq.
  assert (Hin : In rec (sortByTime
                  (map (fun kv => complete u
                          (List.filter User.isEmployee (default [] (Store.users db)))
                          kv.2)
                       (map_to_list (Store.attendance db)))) <->
                exists k, Store.attendance db !! k = Some rec).
  { split.
    - intros H. apply (Permutation_in _ (sortByTime_perm _)) in H.
      apply in_map_iff in H as ([k r] & Hr & Hk).
      rewrite complete_not_admin in Hr by exact Hrole. cbn in Hr. subst r.
      exists k. apply elem_of_map_to_list. now apply list_elem_of_In.
    - intros (k & Hk).
      apply (Permutation_in _ (Permutation_sym (sortByTime_perm _))).
      apply in_map_iff. exists (k, rec). split.
      + now apply complete_not_admin.
      + apply list_elem_of_In. now apply elem_of_map_to_list. }
  now rewrite Hin.
Qed.

Lemma employee_history_exact_witness :
  In Scenario.closedRecord
     (attendanceHistory (stateOf (fetchHistory Scenario.tick Scenario.anaView
                                               Scenario.closedLedger))).
Proof.
  pose proof (employee_history_exact Scenario.ana Scenario.anaView
                Scenario.closedLedger Scenario.tick eq_refl) as H.
  cbv zeta in H. destruct H as [H _]; [discriminate|].
  apply H. split; [|reflexivity].
  exists Scenario.today. apply lookup_singleton_eq.
Defined.

(** X15. A check-in made on the home screen is there when the same
    employee opens the attendance screen: the record just written is in
    the loaded history, and it is shown when no period filter is set. *)
Theorem check_in_appears_in_history
    (u : User.t) (g : HomeScreen.Geofence.t) (hst : HomeScreen.State)
    (db : Store.t) (r : HomeScreen.Readings) (p : Coords.t)
    (st : State) (clock : nat -> Z) (tz : Zone.t) (now : Z) :
  HomeScreen.user hst = Some u ->
  HomeScreen.geofence (Some u) = Some g ->
  HomeScreen.locationStatus hst = HomeScreen.inside ->
  HomeScreen.position r = Some p ->
  HomeScreen.isInside p g = true ->
  Store.attendance db !! (User.email u, isoDate (HomeScreen.clockToday r)) = None
    \/ HomeScreen.attendanceStatus hst = Some false ->
  user st = Some u ->
  User.role u <> "admin"%string ->
  let db' := storeOf (HomeScreen.handleAttendance r hst db) in
  let loaded := stateOf (fetchHistory clock st db') in
  let rec := HomeScreen.checkInData u (isoDate (HomeScreen.clockToday r))
                                    (HomeScreen.clockNow r) p in
  In rec (attendanceHistory loaded) /\
  (filter st = all -> In rec (filteredHistory tz now loaded)).
Proof.
  intros Hu Hg Hs Hp Hin Hfirst Hust Hrole db' loaded rec.
  assert (Hrec : Store.attendance db' !! (User.email u, isoDate (HomeScreen.clockToday r))
                 = Some rec).
  { subst db'.
    rewrite (handleAttendance_check_in u g r hst db Hu Hg Hs p Hp Hin Hfirst).
    unfold storeOf. cbn [fst snd Store.attendance Store.setAttendance].
    apply lookup_insert_eq. }
  assert (Hadmin : User.isAdmin u = false) by now apply String.eqb_neq.
  assert (Hloaded : In rec (attendanceHistory loaded)).
  { subst loaded. rewrite (fetchHistory_employee u st db' clock Hust Hadmin).
    apply filter_In. split; [|apply String.eqb_refl].
    apply (Permutation_in _ (Permutation_sym (sortByTime_perm _))).
    apply in_map_iff. exists ((User.email u, isoDate (HomeScreen.clockToday r)), rec).
    split; [now apply complete_not_admin|].
    apply list_elem_of_In. now apply elem_of_map_to_list. }
  split; [exact Hloaded|].
  intros Hall.
  destruct (fetchHistory_keeps_filters u st db' clock Hust) as (Hu' & Hf & _).
  fold loaded in Hu', Hf.
  unfold filteredHistory. rewrite Hu', Hf, Hall, Hadmin. exact Hloaded.
Qed.

Lemma check_in_appears_in_history_witness :
  In (HomeScreen.checkInData Scenario.ana 20000
        (Scenario.midnight + 9 * msPerHour) Scenario.desk)
     (attendanceHistory
        (stateOf (fetchHistory Scenario.tick Scenario.anaView
                               (storeOf Scenario.afterCheckIn)))).
Proof.
  assert (Hrole : User.role Scenario.ana <> "admin"%string) by discriminate.
  pose proof (check_in_appears_in_history Scenario.ana Scenario.boundary
                Scenario.mounted Scenario.emptyLedger Scenario.at0900 Scenario.desk
                Scenario.anaView Scenario.tick (Zone.fixed 0) 0
                eq_refl scenario_geofence eq_refl eq_refl scenario_inside
                (or_intror eq_refl) eq_refl Hrole) as H.
  cbv zeta in H. destruct H as [H _]. exact H.
Defined.

Lemma insertByTime_filter_time (t : Z) (a : AttendanceRecord.t) l :
  List.filter (fun r => sortTime r =? t) (insertByTime a l) =
  List.filter (fun r => sortTime r =? t) (a :: l).
Proof.
  induction l as [|b l IH]; [reflexivity|].
  cbn [insertByTime]. destruct (Z.ltb_spec (sortTime a) (sortTime b)) as [Hlt|Hge];
    [|reflexivity].
  cbn [List.filter] in *. rewrite IH.
  destruct (Z.eqb_spec (sortTime b) t) as [Hb|Hb],
           (Z.eqb_spec (sortTime a) t) as [Ha|Ha]; try reflexivity.
  lia.
Qed.

(** X16. Sorting the history loses and invents no record, puts the
    records newest first, and is stable: records with the same time keep
    the order in which they were read. *)
Theorem sortByTime_stable_sort (l : list AttendanceRecord.t) :
  Permutation (sortByTime l) l /\
  StronglySorted newestFirst (sortByTime l) /\
  forall t : Z,
    List.filter (fun r => sortTime r =? t) (sortByTime l) =
    List.filter (fun r => sortTime r =? t) l.
Proof.
  split; [apply sortByTime_perm|]. split; [apply sortByTime_sorted|].
  intros t. induction l as [|a l IH]; [reflexivity|].
  change (sortByTime (a :: l)) with (insertByTime a (sortByTime l)).
  rewrite insertByTime_filter_time. cbn [List.filter]. now rewrite IH.
Qed.

End QueryMore.

(** ** Departments, filters, completion, statistics *)

Section Display.
Import AttendanceScreen.

Lemma existsb_eqb_In (x : string) (l : list string) :
  existsb (String.eqb x) l = true <-> In x l.
Proof.
  rewrite existsb_exists. split.
  - intros (y & Hy & E). apply String.eqb_eq in E. now subst.
  - intros H. exists x. split; [exact H|apply String.eqb_refl].
Qed.

Lemma unique_In (x : string) (l seen : list string) :
  In x (unique l seen) <-> In x l /\ ~ In x seen.
Proof.
  revert seen. induction l as [|y l IH]; intros seen; cbn [unique].
  - cbn. tauto.
  - destruct (existsb (String.eqb y) seen) eqn:E.
    + apply existsb_eqb_In in E. rewrite IH. cbn.
      split; [tauto|]. intros [[->|H] Hn]; [contradiction|tauto].
    + assert (Hy : ~ In y seen)
        by (intros H; apply existsb_eqb_In in H; congruence).
      cbn. rewrite IH. cbn.
      destruct (String.eqb_spec y x) as [->|Hne]; [tauto|].
      split; [intros [H|H]; tauto|]. intros [[H|H] Hn]; [tauto|].
      right. split; [exact H|]. intros [H'|H']; congruence.
Qed.

Lemma unique_NoDup (l seen : list string) : List.NoDup (unique l seen).
Proof.
  revert seen. induction l as [|y l IH]; intros seen; cbn [unique].
  - constructor.
  - destruct (existsb (String.eqb y) seen); [apply IH|].
    constructor; [|apply IH].
    rewrite unique_In. cbn. tauto.
Qed.

Lemma NoDup_filter_list {A} (f : A -> bool) (l : list A) :
  List.NoDup l -> List.NoDup (List.filter f l).
Proof.
  induction 1 as [|x l Hx Hl IH]; cbn; [constructor|].
  destruct (f x); [|exact IH].
  constructor; [|exact IH]. rewrite filter_In. tauto.
Qed.

(** X17. The department chips start with "All", name no department
    twice, and besides "All" hold exactly the non-empty departments of the
    users on file. *)
Theorem departmentsOf_spec (users : list User.t) :
  (exists rest, departmentsOf users = "All"%string :: rest) /\
  List.NoDup (departmentsOf users) /\
  forall d : string,
    In d (departmentsOf users) <->
    d = "All"%string \/
    (d <> ""%string /\
     exists u, In u users /\ User.department u = Some d).
Proof.
  unfold departmentsOf.
  set (named := omap (fun u => if truthy (User.department u)
                               then User.department u else None) users).
  assert (Hnamed : forall d, In d named <->
            d <> ""%string /\ exists u, In u users /\ User.department u = Some d).
  { intros d. subst named. rewrite <- list_elem_of_In, list_elem_of_omap.
    split.
    - intros (u & Hu & Hd). apply list_elem_of_In in Hu.
      destruct (User.department u) as [d'|] eqn:E; cbn in Hd; [|discriminate].
      destruct (String.eqb_spec d' ""); cbn in Hd; [discriminate|].
      injection Hd as ->. split; [assumption|]. eauto.
    - intros (Hne & u & Hu & Hd). exists u. split; [now apply list_elem_of_In|].
      rewrite Hd. cbn. apply String.eqb_neq in Hne. now rewrite Hne. }
  split; [eauto|]. split.
  - constructor.
    + rewrite filter_In. intros [_ H]. discriminate.
    + apply NoDup_filter_list, unique_NoDup.
  - intros d. cbn [In]. rewrite filter_In, unique_In, Hnamed. cbn [In].
    destruct (String.eqb_spec d "All") as [->|Hne]; cbn.
    + split; [now left|]. now left.
    + split.
      * intros [H|[[H _] _]]; [now left; subst|now right].
      * intros [H|H]; [contradiction|]. right. tauto.
Qed.

Lemma filter_sublist {A} (f : A -> bool) (l : list A) : sublist (List.filter f l) l.
Proof.
  induction l as [|x l IH]; cbn; [constructor|].
  destruct (f x); now constructor.
Qed.

(** X18. Whatever the filters, what is shown is a subsequence of what was
    loaded: no record is invented, repeated or reordered. For a requester
    who is not an admin the department selection has no effect. *)
Theorem filteredHistory_subsequence (tz : Zone.t) (now : Z) (st : State) :
  sublist (filteredHistory tz now st) (attendanceHistory st) /\
  (forall u dept,
     user st = Some u -> User.role u <> "admin"%string ->
     filteredHistory tz now
       (mkState (user st) (attendanceHistory st) (filter st) (departments st)
                dept (allUsers st) (loading st) (refreshing st))
     = filteredHistory tz now st).
Proof.
  split.
  - unfold filteredHistory.
    assert (Hd : sublist
      match user st with
      | Some u =>
          if User.isAdmin u && negb (String.eqb (selectedDept st) "All")
          then List.filter (inDepartment (selectedDept st)) (attendanceHistory st)
          else attendanceHistory st
      | None => attendanceHistory st
      end (attendanceHistory st)).
    { destruct (user st) as [u|]; [|reflexivity].
      destruct (User.isAdmin u && _); [apply filter_sublist|reflexivity]. }
    destruct (filter st); [exact Hd| |];
      (etransitivity; [apply filter_sublist|exact Hd]).
  - intros u dept Hu Hrole. apply String.eqb_neq in Hrole.
    unfold filteredHistory. cbn [user attendanceHistory filter selectedDept].
    rewrite Hu. unfold User.isAdmin. now rewrite Hrole.
Qed.

(** Completing a record for the admin's view changes nothing but a
    missing name or a missing department: e-mail, date, times, places,
    hours and status are kept, a name or department that is present is
    kept, and for any other requester the record is returned as it is. *)
Lemma complete_keeps_record
    (u : User.t) (employees : list User.t) (rec : AttendanceRecord.t) :
  let rec' := complete u employees rec in
  AttendanceRecord.email rec' = AttendanceRecord.email rec /\
  AttendanceRecord.date rec' = AttendanceRecord.date rec /\
  AttendanceRecord.checkInTime rec' = AttendanceRecord.checkInTime rec /\
  AttendanceRecord.checkInLocation rec' = AttendanceRecord.checkInLocation rec /\
  AttendanceRecord.checkOutTime rec' = AttendanceRecord.checkOutTime rec /\
  AttendanceRecord.checkOutLocation rec' = AttendanceRecord.checkOutLocation rec /\
  AttendanceRecord.totalHours rec' = AttendanceRecord.totalHours rec /\
  AttendanceRecord.status rec' = AttendanceRecord.status rec /\
  (truthy (AttendanceRecord.name rec) = true ->
   AttendanceRecord.name rec' = AttendanceRecord.name rec) /\
  (truthy (AttendanceRecord.department rec) = true ->
   AttendanceRecord.department rec' = AttendanceRecord.department rec) /\
  (User.role u <> "admin"%string -> rec' = rec) /\
  ((forall e, In e employees -> User.email e <> AttendanceRecord.email rec) ->
   rec' = rec).
Proof.
  cbv zeta. unfold complete.
  destruct (User.isAdmin u && _) eqn:Hc.
  - destruct (List.find _ employees) as [e|] eqn:Hf.
    + cbn. repeat split.
      * intros Ht. unfold strOr. now rewrite Ht.
      * intros Ht. unfold strOr. now rewrite Ht.
      * intros Hrole. apply String.eqb_neq in Hrole.
        unfold User.isAdmin in Hc. now rewrite Hrole in Hc.
      * intros Hnone. apply find_some in Hf as [Hin He].
        apply String.eqb_eq in He. now apply Hnone in Hin.
    + repeat split.
  - repeat split.
Qed.

Lemma filter_all {A} (f : A -> bool) (l : list A) :
  Forall (fun x => f x = true) l -> List.filter f l = l.
Proof.
  induction 1 as [|x l Hx Hl IH]; cbn; [reflexivity|]. now rewrite Hx, IH.
Qed.

Lemma filter_none {A} (f : A -> bool) (l : list A) :
  Forall (fun x => f x = false) l -> List.filter f l = [].
Proof.
  induction 1 as [|x l Hx Hl IH]; cbn; [reflexivity|]. now rewrite Hx, IH.
Qed.

Lemma count_partition {A} (f g h : A -> bool) (l : list A) :
  (forall x, (if f x then 1 else 0) + (if g x then 1 else 0) + (if h x then 1 else 0)
             = 1)%nat ->
  (length (List.filter f l) + length (List.filter g l) + length (List.filter h l)
   = length l)%nat.
Proof.
  intros H. induction l as [|x l IH]; cbn; [reflexivity|].
  specialize (H x). destruct (f x), (g x), (h x); cbn in *; lia.
Qed.

(** X19. In the statistics strip every record counts once: the total is
    the number of open records (check-in without check-out) plus the
    number of closed ones (with a check-out) plus the number of records
    without any time. *)
Theorem stats_partition (history : list AttendanceRecord.t) :
  let s := AttendanceStats.stats history in
  AttendanceStats.total s = length history /\
  (AttendanceStats.total s =
   AttendanceStats.checkIns s + AttendanceStats.checkOuts s +
   length (List.filter
             (fun item => negb (AttendanceStats.isSome (AttendanceRecord.checkInTime item)) &&
                          negb (AttendanceStats.isSome (AttendanceRecord.checkOutTime item)))
             history))%nat /\
  (Forall (fun item => AttendanceStats.isSome (AttendanceRecord.checkInTime item) = true)
          history ->
   (AttendanceStats.total s = AttendanceStats.checkIns s + AttendanceStats.checkOuts s)%nat).
Proof.
  cbv zeta. unfold AttendanceStats.stats.
  cbn [AttendanceStats.total AttendanceStats.checkIns AttendanceStats.checkOuts].
  split; [reflexivity|].
  assert (Hpart := count_partition
    (fun item => AttendanceStats.isSome (AttendanceRecord.checkInTime item) &&
                 negb (AttendanceStats.isSome (AttendanceRecord.checkOutTime item)))
    (fun item => AttendanceStats.isSome (AttendanceRecord.checkOutTime item))
    (fun item => negb (AttendanceStats.isSome (AttendanceRecord.checkInTime item)) &&
                 negb (AttendanceStats.isSome (AttendanceRecord.checkOutTime item)))
    history).
  rewrite Hpart.
  2:{ intros x. destruct (AttendanceRecord.checkInTime x),
                         (AttendanceRecord.checkOutTime x); reflexivity. }
  split; [reflexivity|].
  intros Hall. rewrite <- Hpart at 1.
  2:{ intros x. destruct (AttendanceRecord.checkInTime x),
                         (AttendanceRecord.checkOutTime x); reflexivity. }
  rewrite (filter_none (fun item => negb _ && negb _)); [cbn; lia|].
  eapply Forall_impl; [exact Hall|]. cbn. intros x ->. reflexivity.
Qed.

Lemma placeholders_open clock i employees :
  Forall (fun item =>
            AttendanceStats.isSome (AttendanceRecord.checkInTime item) = true /\
            AttendanceRecord.checkOutTime item = None /\
            AttendanceRecord.totalHours item = None)
         (placeholders clock i employees).
Proof.
  revert i. induction employees as [|emp rest IH]; intros i; cbn; constructor;
    [repeat split|apply IH].
Qed.

(** X20. When the ledger is empty and there are [n] employees on file,
    the statistics strip of an admin with no filter set counts the [n]
    placeholders as records: total [n], [n] check-ins, no check-out, and
    an average of 0.0 hours. *)
Theorem stats_count_placeholders
    (u : User.t) (st : State) (db : Store.t) (clock : nat -> Z) (tz : Zone.t) (now : Z) :
  user st = Some u ->
  User.role u = "admin"%string ->
  Store.attendance db = ∅ ->
  let employees := List.filter User.isEmployee (default [] (Store.users db)) in
  employees <> [] ->
  filter st = all ->
  selectedDept st = "All"%string ->
  AttendanceStats.stats (filteredHistory tz now (stateOf (fetchHistory clock st db)))
  = AttendanceStats.mk (length employees) (length employees) 0 0.
Proof.
  intros Hu Hadmin Hempty employees Hemp Hall Hdept.
  assert (Hrole : User.isAdmin u = true)
    by (unfold User.isAdmin; now apply String.eqb_eq).
  destruct (fetchHistory_keeps_filters u st db clock Hu) as (_ & Hf & Hd).
  rewrite filteredHistory_unfiltered by congruence.
  pose proof (fetchHistory_admin_placeholders u st db clock Hu Hrole Hempty Hemp) as Hh.
  fold employees in Hh.
  set (history := attendanceHistory (stateOf (fetchHistory clock st db))) in *.
  assert (Hperm : Permutation (placeholders clock 0 employees) history)
    by (rewrite Hh; symmetry; apply sortByTime_perm).
  pose proof (Permutation_Forall Hperm (placeholders_open clock 0 employees)) as Hopen.
  assert (Hlen : length history = length employees).
  { rewrite <- (Permutation_length Hperm).
    symmetry. exact (Forall2_length _ _ _ (placeholders_per_employee clock 0 employees)). }
  unfold AttendanceStats.stats.
  rewrite (filter_all (fun item => _ && negb _)).
  2:{ eapply Forall_impl; [exact Hopen|]. cbn. intros x (-> & -> & _). reflexivity. }
  rewrite (filter_none (fun item => AttendanceStats.isSome (AttendanceRecord.checkOutTime item))).
  2:{ eapply Forall_impl; [exact Hopen|]. cbn. intros x (_ & -> & _). reflexivity. }
  rewrite (filter_none AttendanceStats.hasHours).
  2:{ eapply Forall_impl; [exact Hopen|]. cbn. intros x (_ & _ & Hx).
      unfold AttendanceStats.hasHours. now rewrite Hx. }
  rewrite Hlen. reflexivity.
Qed.

Lemma stats_count_placeholders_witness :
  AttendanceStats.stats
    (filteredHistory (Zone.fixed 0) (Scenario.tick 0)
       (stateOf (fetchHistory Scenario.tick (Scenario.adminView all "All")
                              Scenario.staff)))
  = AttendanceStats.mk 2 2 0 0.
Proof.
  assert (Hemp : List.filter User.isEmployee (default [] (Store.users Scenario.staff))
                 <> []) by discriminate.
  exact (stats_count_placeholders Scenario.root (Scenario.adminView all "All")
           Scenario.staff Scenario.tick (Zone.fixed 0) (Scenario.tick 0)
           eq_refl eq_refl eq_refl Hemp eq_refl eq_refl).
Defined.

End Display.

(** ** Profile screen, continued *)

Section ProfileMore.
Import ProfileScreen ProfileAdmin.

Lemma hasDefaultOffice_emptied (u : User.t) :
  hasDefaultOffice (withAssignedLocation u emptyLocation) = false.
Proof. reflexivity. Qed.

Lemma existsb_false_Forall {A} (f : A -> bool) (l : list A) :
  existsb f l = false <-> Forall (fun x => f x = false) l.
Proof.
  induction l as [|x l IH]; cbn.
  - split; [constructor|reflexivity].
  - rewrite orb_false_iff, IH. split.
    + intros [Hx Hl]. now constructor.
    + intros H. inversion H; subst. tauto.
Qed.

Lemma cleaned_no_default (users : list User.t) :
  Forall (fun u => hasDefaultOffice u = false)
         (map (fun u => if hasDefaultOffice u
                        then withAssignedLocation u emptyLocation else u) users).
Proof.
  induction users as [|u l IH]; cbn; constructor; [|exact IH].
  destruct (hasDefaultOffice u) eqn:E; [apply hasDefaultOffice_emptied|exact E].
Qed.

Lemma cleanupDefaultOffice_run {S} (st : S) (db : Store.t) :
  cleanupDefaultOffice st db =
  if existsb hasDefaultOffice (default [] (Store.users db))
  then (tt, st,
        Store.setUsers
          (map (fun u => if hasDefaultOffice u
                         then withAssignedLocation u emptyLocation else u)
               (default [] (Store.users db))) db,
        [SetItem Store.Users])
  else (tt, st, db, []).
Proof.
  unfold cleanupDefaultOffice, bind, getUsers, setUsers, ret.
  cbn [fst snd]. destruct (existsb hasDefaultOffice (default [] (Store.users db)));
    reflexivity.
Qed.

(** X21. The clean-up of the default office writes the users back only
    when one of them has the default office as a pair of numbers. Then it
    replaces that user's assigned location with an empty object and
    leaves every other field and every other user as they are; in every
    case no stored user has the default office afterwards, the ledger and
    the snapshots are untouched, and a second run writes nothing. *)
Theorem cleanupDefaultOffice_spec {S} (st : S) (db : Store.t) :
  let run := cleanupDefaultOffice st db in
  let users := default [] (Store.users db) in
  stateOf run = st /\
  Store.attendance (storeOf run) = Store.attendance db /\
  Store.employeeLocations (storeOf run) = Store.employeeLocations db /\
  (Forall (fun u => hasDefaultOffice u = false) users ->
   storeOf run = db /\ effectsOf run = []) /\
  (Exists (fun u => hasDefaultOffice u = true) users ->
   effectsOf run = [SetItem Store.Users] /\
   exists written,
     Store.users (storeOf run) = Some written /\
     length written = length users /\
     forall (i : nat) (u : User.t), users !! i = Some u ->
       exists u', written !! i = Some u' /\
         (hasDefaultOffice u = false -> u' = u) /\
         (hasDefaultOffice u = true ->
          User.assignedLocation u' = Some emptyLocation) /\
         User.id u' = User.id u /\ User.email u' = User.email u /\
         User.password u' = User.password u /\ User.name u' = User.name u /\
         User.department u' = User.department u /\ User.role u' = User.role u /\
         User.roleChangeRequested u' = User.roleChangeRequested u /\
         User.notificationSettings u' = User.notificationSettings u) /\
  Forall (fun u => hasDefaultOffice u = false)
         (default [] (Store.users (storeOf run))) /\
  cleanupDefaultOffice (stateOf run) (storeOf run) = (tt, st, storeOf run, []).
Proof.
  intros run users. subst run. rewrite cleanupDefaultOffice_run. fold users.
  destruct (existsb hasDefaultOffice users) eqn:E.
  - unfold stateOf, storeOf, effectsOf.
    cbn [fst snd Store.attendance Store.employeeLocations Store.users Store.setUsers].
    split; [reflexivity|]. split; [reflexivity|]. split; [reflexivity|]. split.
    { intros Hnone. apply existsb_false_Forall in Hnone. congruence. }
    split.
    { intros _. split; [reflexivity|]. eexists. split; [reflexivity|].
      split; [apply length_map|].
      intros i u Hi. rewrite list_lookup_fmap, Hi. cbn.
      destruct (hasDefaultOffice u) eqn:Hu; eexists; (split; [reflexivity|]);
        repeat split; try reflexivity; congruence. }
    split; [apply cleaned_no_default|].
    rewrite cleanupDefaultOffice_run.
    change (default [] (Store.users (Store.setUsers ?l db))) with l.
    now rewrite (proj2 (existsb_false_Forall _ _) (cleaned_no_default users)).
  - unfold stateOf, storeOf, effectsOf. cbn [fst snd].
    split; [reflexivity|]. split; [reflexivity|]. split; [reflexivity|].
    split; [now intros _|]. split.
    { intros Hex. apply Exists_exists in Hex as (u & Hin & Hu).
      apply existsb_false_Forall in E. rewrite Forall_forall in E.
      specialize (E u Hin). congruence. }
    split; [now apply existsb_false_Forall|].
    rewrite cleanupDefaultOffice_run. fold users. now rewrite E.
Qed.

(** X22. An employee whose assigned location was emptied by the clean-up
    still has a geofence, of radius 100 m around a centre that is not a
    number: every position is classified outside, and no press of the
    attendance button changes the ledger any more. *)
Theorem emptied_location_blocks_attendance
    (u : User.t) (st : HomeScreen.State) (db : Store.t) (r : HomeScreen.Readings) :
  HomeScreen.user st = Some u ->
  User.assignedLocation u = Some emptyLocation ->
  exists g : HomeScreen.Geofence.t,
    HomeScreen.geofence (Some u) = Some g /\
    HomeScreen.Geofence.latitude g = Js.NaN /\
    HomeScreen.Geofence.longitude g = Js.NaN /\
    HomeScreen.Geofence.radius g = Js.Fin 100 /\
    (forall p, HomeScreen.isInside p g = false) /\
    (forall p now st' db',
       HomeScreen.locationStatus
         (stateOf (HomeScreen.updateLocationStatus (Some u) (Some g) p now st' db'))
       = HomeScreen.outside) /\
    Store.attendance (storeOf (HomeScreen.handleAttendance r st db))
    = Store.attendance db.
Proof.
  intros Hu Ha.
  eexists. split; [unfold HomeScreen.geofence; rewrite Ha; reflexivity|].
  cbn [HomeScreen.Geofence.latitude HomeScreen.Geofence.longitude
       HomeScreen.Geofence.radius AssignedLocation.latitude
       AssignedLocation.longitude AssignedLocation.radius AssignedLocation.name
       emptyLocation parseFloat Js.orElse].
  split; [reflexivity|]. split; [reflexivity|]. split; [reflexivity|].
  assert (Hout : forall p,
    HomeScreen.isInside p
      (HomeScreen.Geofence.mk Js.NaN Js.NaN (Js.Fin 100)
         (valueOr Js.Undefined (Js.Str "Office"))) = false) by reflexivity.
  split; [exact Hout|]. split.
  - intros p now st' db'. rewrite updateLocationStatus_status. now rewrite Hout.
  - destruct (handleAttendance_cases u st db r Hu)
      as [(E & _) | [(g & p & Hg & _ & _ & Hin & _)
                    | (g & p & rec & Hg & _ & _ & Hin & _)]];
      [exact E| |];
      unfold HomeScreen.geofence in Hg; rewrite Ha in Hg;
      injection Hg as <-; cbn in Hin; discriminate.
Qed.

Lemma emptied_location_blocks_attendance_witness :
  Store.attendance
    (storeOf (HomeScreen.handleAttendance Scenario.at0900 Cases.clearedHome
                                          Scenario.emptyLedger))
  = Store.attendance Scenario.emptyLedger.
Proof.
  pose proof (emptied_location_blocks_attendance Cases.cleared Cases.clearedHome
                Scenario.emptyLedger Scenario.at0900 eq_refl eq_refl) as H.
  destruct H as (g & _ & _ & _ & _ & _ & _ & H). exact H.
Defined.

Lemma manageEmployeeLocations_run (user : option User.t) (st : State) (db : Store.t) :
  manageEmployeeLocations user st db =
  (if match user with Some u => User.isAdmin u | None => false end then
    match Store.users db with
    | None =>
        (tt, mkState false (showGeofenceModal st) (employees st) (selectedEmployee st)
                     (geofenceLocation st) (roleRequests st),
         db, [Alert "Error" (Text "No users found")])
    | Some users =>
        if (length (List.filter User.isEmployee users) =? 0)%nat then
          (tt, mkState false (showGeofenceModal st) (employees st)
                       (selectedEmployee st) (geofenceLocation st) (roleRequests st),
           db, [Alert "Info" (Text "No employees found to assign locations")])
        else
          (tt, mkState false true (List.filter User.isEmployee users)
                       (selectedEmployee st) (geofenceLocation st) (roleRequests st),
           db, [])
    end
  else (tt, st, db, [])).
Proof.
  unfold manageEmployeeLocations.
  destruct (match user with Some u => User.isAdmin u | None => false end);
    [|reflexivity].
  unfold bind, getUsers, alert, emit, setIsSaving, setShowGeofenceModal,
    setEmployees, setState.
  destruct (Store.users db) as [users|]; [|reflexivity].
  cbn [fst snd]. destruct (length (List.filter User.isEmployee users) =? 0)%nat;
    reflexivity.
Qed.

(** X23. Opening the location manager reads the store and never writes
    it. For anyone but an admin it does nothing at all; for an admin it
    lists exactly the stored users whose role is employee, in stored
    order, and opens the modal when there is at least one; otherwise it
    shows one notice and opens nothing. It never changes the selection,
    the entries of the form or the role requests, and it ends with the
    saving flag down. *)
Theorem manageEmployeeLocations_spec
    (user : option User.t) (st : State) (db : Store.t) :
  let run := manageEmployeeLocations user st db in
  let admin := match user with Some u => User.isAdmin u | None => false end in
  let listed := List.filter User.isEmployee (default [] (Store.users db)) in
  storeOf run = db /\
  selectedEmployee (stateOf run) = selectedEmployee st /\
  geofenceLocation (stateOf run) = geofenceLocation st /\
  roleRequests (stateOf run) = roleRequests st /\
  (admin = false -> run = (tt, st, db, [])) /\
  (admin = true -> isSaving (stateOf run) = false) /\
  (admin = true -> listed <> [] ->
   effectsOf run = [] /\
   showGeofenceModal (stateOf run) = true /\
   employees (stateOf run) = listed /\
   forall e, In e (employees (stateOf run)) <->
             In e (default [] (Store.users db)) /\ User.role e = "employee"%string) /\
  (admin = true -> listed = [] ->
   (exists title msg, effectsOf run = [Alert title msg]) /\
   showGeofenceModal (stateOf run) = showGeofenceModal st /\
   employees (stateOf run) = employees st).
Proof.
  intros run admin listed. subst run. rewrite manageEmployeeLocations_run.
  fold admin. destruct admin.
  2: { unfold stateOf, storeOf, effectsOf. cbn.
       do 4 (split; [reflexivity|]). split; [reflexivity|].
       split; [discriminate|]. split; discriminate. }
  assert (Hempty : forall title msg,
    let run := (tt, mkState false (showGeofenceModal st) (employees st)
                      (selectedEmployee st) (geofenceLocation st) (roleRequests st),
                db, [Alert title msg]) in
    listed = [] ->
    storeOf run = db /\
    selectedEmployee (stateOf run) = selectedEmployee st /\
    geofenceLocation (stateOf run) = geofenceLocation st /\
    roleRequests (stateOf run) = roleRequests st /\
    (true = false -> run = (tt, st, db, [])) /\
    (true = true -> isSaving (stateOf run) = false) /\
    (true = true -> listed <> [] ->
     effectsOf run = [] /\
     showGeofenceModal (stateOf run) = true /\
     employees (stateOf run) = listed /\
     forall e, In e (employees (stateOf run)) <->
               In e (default [] (Store.users db)) /\ User.role e = "employee"%string) /\
    (true = true -> listed = [] ->
     (exists title msg, effectsOf run = [Alert title msg]) /\
     showGeofenceModal (stateOf run) = showGeofenceModal st /\
     employees (stateOf run) = employees st)).
  { intros title msg run Hnil. subst run. unfold stateOf, storeOf, effectsOf. cbn.
    do 4 (split; [reflexivity|]). split; [discriminate|]. split; [reflexivity|].
    split; [intros _ Hne; contradiction|].
    intros _ _. split; [eauto|]. split; reflexivity. }
  destruct (Store.users db) as [users|] eqn:Hus; [|apply Hempty; reflexivity].
  assert (Hl : listed = List.filter User.isEmployee users) by reflexivity.
  destruct (length (List.filter User.isEmployee users) =? 0)%nat eqn:Hlen.
  { apply Hempty. rewrite Hl. apply Nat.eqb_eq in Hlen.
    now apply length_zero_iff_nil in Hlen. }
  assert (Hne : listed <> []).
  { intros Hnil. rewrite Hl in Hnil. now rewrite Hnil in Hlen. }
  unfold stateOf, storeOf, effectsOf. cbn.
  do 4 (split; [reflexivity|]). split; [discriminate|]. split; [reflexivity|].
  split; [|intros _ Hnil; contradiction].
  intros _ _. do 3 (split; [reflexivity|]).
  intros e. rewrite List.filter_In. unfold User.isEmployee.
  now rewrite String.eqb_eq.
Qed.

End ProfileMore.

(** ** Saving a geofence and reading it back *)

Section SaveGeofence.
Import ProfileScreen.

Lemma handleSaveGeofence_rejected (st : State) (db : Store.t) :
  selectedEmployee st = None \/
  Js.isNaN (parseFloat (Js.Str (GeofenceLocation.latitude (geofenceLocation st)))) = true \/
  Js.isNaN (parseFloat (Js.Str (GeofenceLocation.longitude (geofenceLocation st)))) = true \/
  Js.isNaN (parseFloat (Js.Str (GeofenceLocation.radius (geofenceLocation st)))) = true \/
  Store.users db = None ->
  exists (msg : Message) (saving : bool),
    handleSaveGeofence st db =
    (tt, mkState saving (showGeofenceModal st) (employees st) (selectedEmployee st)
                 (geofenceLocation st) (roleRequests st),
     db, [Alert "Error" msg]) /\
    (selectedEmployee st <> None -> saving = false).
Proof.
  intros H.
  unfold handleSaveGeofence, bind, getState, getUsers, setUsers, alert, emit,
    setIsSaving, setShowGeofenceModal, setSelectedEmployee, setState.
  destruct (selectedEmployee st) as [selected|] eqn:Hsel.
  - cbn [fst snd geofenceLocation selectedEmployee showGeofenceModal employees
         roleRequests isSaving].
    destruct (Js.isNaN (parseFloat (Js.Str (GeofenceLocation.latitude (geofenceLocation st)))))
      eqn:Hlat; cbn [orb];
      [eexists; exists false; rewrite Hsel; split; [reflexivity|reflexivity]|].
    destruct (Js.isNaN (parseFloat (Js.Str (GeofenceLocation.longitude (geofenceLocation st)))))
      eqn:Hlon; cbn [orb];
      [eexists; exists false; rewrite Hsel; split; [reflexivity|reflexivity]|].
    destruct (Js.isNaN (parseFloat (Js.Str (GeofenceLocation.radius (geofenceLocation st)))))
      eqn:Hrad; cbn [orb];
      [eexists; exists false; rewrite Hsel; split; [reflexivity|reflexivity]|].
    destruct (Store.users db) as [users|] eqn:Hus.
    + destruct H as [H|[H|[H|[H|H]]]]; discriminate.
    + eexists; exists false; rewrite Hsel; split; [reflexivity|reflexivity].
  - eexists; exists (isSaving st). split; [|congruence].
    destruct st; cbn in *. subst. reflexivity.
Qed.

(** X24. Nothing is written unless an employee is selected, the three
    entries parse as numbers and the users collection is on file. A save
    that is refused shows one error notice, leaves the store as it was,
    and keeps the modal, the selection, the list and the entries, so the
    admin can correct and try again. *)
Theorem handleSaveGeofence_guarded (st : State) (db : Store.t) :
  let run := handleSaveGeofence st db in
  let form := geofenceLocation st in
  let valid : Prop :=
    (exists selected, selectedEmployee st = Some selected) /\
    Js.isNaN (parseFloat (Js.Str (GeofenceLocation.latitude form))) = false /\
    Js.isNaN (parseFloat (Js.Str (GeofenceLocation.longitude form))) = false /\
    Js.isNaN (parseFloat (Js.Str (GeofenceLocation.radius form))) = false /\
    (exists users, Store.users db = Some users) in
  (In (SetItem Store.Users) (effectsOf run) <-> valid) /\
  (~ valid ->
   storeOf run = db /\
   (exists msg, effectsOf run = [Alert "Error" msg]) /\
   showGeofenceModal (stateOf run) = showGeofenceModal st /\
   employees (stateOf run) = employees st /\
   selectedEmployee (stateOf run) = selectedEmployee st /\
   geofenceLocation (stateOf run) = geofenceLocation st /\
   roleRequests (stateOf run) = roleRequests st /\
   (selectedEmployee st <> None -> isSaving (stateOf run) = false)).
Proof.
  intros run form valid.
  assert (Hdec : valid \/
    (selectedEmployee st = None \/
     Js.isNaN (parseFloat (Js.Str (GeofenceLocation.latitude form))) = true \/
     Js.isNaN (parseFloat (Js.Str (GeofenceLocation.longitude form))) = true \/
     Js.isNaN (parseFloat (Js.Str (GeofenceLocation.radius form))) = true \/
     Store.users db = None)).
  { subst valid.
    destruct (selectedEmployee st); [|tauto].
    destruct (Js.isNaN (parseFloat (Js.Str (GeofenceLocation.latitude form)))); [tauto|].
    destruct (Js.isNaN (parseFloat (Js.Str (GeofenceLocation.longitude form)))); [tauto|].
    destruct (Js.isNaN (parseFloat (Js.Str (GeofenceLocation.radius form)))); [tauto|].
    destruct (Store.users db); [|tauto].
    left. repeat split; eauto. }
  destruct Hdec as [Hv|Hbad].
  - split; [|tauto]. split; [intros _; exact Hv|intros _].
    destruct Hv as ((selected & Hsel) & Hlat & Hlon & Hrad & (users & Hus)).
    subst run. rewrite (handleSaveGeofence_run st db selected users Hsel Hlat Hlon Hrad Hus).
    left. reflexivity.
  - assert (Hnv : ~ valid).
    { subst valid. intros ((selected & Hsel) & Hlat & Hlon & Hrad & (users & Hus)).
      destruct Hbad as [H|[H|[H|[H|H]]]]; congruence. }
    destruct (handleSaveGeofence_rejected st db Hbad) as (msg & saving & E & Hsaving).
    subst run. rewrite E. unfold stateOf, storeOf, effectsOf. cbn.
    split.
    + split; [intros [H|[]]; discriminate|tauto].
    + intros _. split; [reflexivity|]. split; [eauto|].
      do 5 (split; [reflexivity|]). exact Hsaving.
Qed.

(** X25. A saved geofence is the one the employee's home screen computes
    at the next render: the stored user keeps id, e-mail and role, the
    centre is the pair of numbers the entries parse to, and the radius is
    the number entered, except that an entry of zero is read back as
    100 m. The radius read back is never zero and never missing. *)
Theorem saved_geofence_read_back
    (st : State) (db : Store.t) (selected u : User.t) (users : list User.t) :
  selectedEmployee st = Some selected ->
  Js.isNaN (parseFloat (Js.Str (GeofenceLocation.latitude (geofenceLocation st)))) = false ->
  Js.isNaN (parseFloat (Js.Str (GeofenceLocation.longitude (geofenceLocation st)))) = false ->
  Js.isNaN (parseFloat (Js.Str (GeofenceLocation.radius (geofenceLocation st)))) = false ->
  Store.users db = Some users ->
  In u users ->
  User.email u = User.email selected ->
  let form := geofenceLocation st in
  let db' := storeOf (handleSaveGeofence st db) in
  exists (u' : User.t) (g : HomeScreen.Geofence.t),
    In u' (default [] (Store.users db')) /\
    User.id u' = User.id u /\ User.email u' = User.email u /\
    User.role u' = User.role u /\
    HomeScreen.geofence (Some u') = Some g /\
    HomeScreen.Geofence.latitude g = parseFloat (Js.Str (GeofenceLocation.latitude form)) /\
    HomeScreen.Geofence.longitude g = parseFloat (Js.Str (GeofenceLocation.longitude form)) /\
    HomeScreen.Geofence.radius g =
      Js.orElse (parseFloat (Js.Str (GeofenceLocation.radius form))) (Js.Fin 100) /\
    (parseFloat (Js.Str (GeofenceLocation.radius form)) = Js.Fin 0 ->
     HomeScreen.Geofence.radius g = Js.Fin 100) /\
    HomeScreen.Geofence.radius g <> Js.Fin 0 /\
    Js.isNaN (HomeScreen.Geofence.radius g) = false.
Proof.
  intros Hsel Hlat Hlon Hrad Hus Hin Hemail form db'. subst db'.
  rewrite (handleSaveGeofence_run st db selected users Hsel Hlat Hlon Hrad Hus).
  unfold storeOf. cbn [fst snd Store.users Store.setUsers default].
  exists (withAssignedLocation u (enteredLocation form)). eexists.
  split.
  { apply in_map_iff. exists u. split; [|exact Hin].
    rewrite Hemail, String.eqb_refl. reflexivity. }
  do 3 (split; [reflexivity|]). split; [reflexivity|].
  cbn [HomeScreen.Geofence.latitude HomeScreen.Geofence.longitude
       HomeScreen.Geofence.radius].
  do 3 (split; [reflexivity|]).
  cbn [AssignedLocation.radius enteredLocation withAssignedLocation
       User.assignedLocation].
  fold form in Hrad.
  destruct (parseFloat (Js.Str (GeofenceLocation.radius form))) as [|x|neg];
    [discriminate| |].
  - unfold Js.orElse. destruct (Req_dec_T x 0) as [->|Hx].
    + split; [reflexivity|]. split; [|reflexivity].
      intros [= H]. lra.
    + split; [intros [= H]; contradiction|]. split; [|reflexivity].
      intros [= H]. contradiction.
  - cbn. split; [discriminate|]. split; [discriminate|reflexivity].
Qed.

Lemma saved_geofence_read_back_witness :
  exists u' : User.t,
    In u' (default [] (Store.users
             (storeOf (handleSaveGeofence Scenario.assigning Scenario.staff)))) /\
    User.email u' = "bo@example.com"%string.
Proof.
  pose proof (saved_geofence_read_back Scenario.assigning Scenario.staff
                Scenario.bo Scenario.bo [Scenario.ana; Scenario.bo]
                eq_refl
                (parseFloat_decimal_number "37.7749" false 377749 (-4) eq_refl)
                (parseFloat_decimal_number "-122.4194" true 1224194 (-4) eq_refl)
                (parseFloat_decimal_number "100" false 100 0 eq_refl)
                eq_refl
                (or_intror (or_introl eq_refl)) eq_refl) as H.
  cbv zeta in H. destruct H as (u' & g & Hin & _ & He & _).
  exists u'. split; [exact Hin|exact He].
Defined.

End SaveGeofence.

(** ** The radius of a geofence *)

Section Radius.
Import HomeScreen.


End Radius.

(** ** The period filters *)

Section Periods.
Import AttendanceScreen.

(** The pieces [civilFromDays] computes: the year of the era, the day of
    the year counted from 1 March, and the month counted from March. *)
Lemma civilFromDays_parts (D : Z) :
  exists era yoe doy mp : Z,
    0 <= yoe <= 399 /\ 0 <= doy <= 365 /\ 0 <= mp <= 11 /\
    D = era * 146097 + (yoe * 365 + yoe / 4 - yoe / 100 + doy) - 719468 /\
    1 <= doy - (153 * mp + 2) / 5 + 1 <= 31 /\
    mp = (5 * doy + 2) / 153 /\
    Calendar.civilFromDays D =
      ((if (if mp <? 10 then mp + 3 else mp - 9) <=? 2
        then yoe + era * 400 + 1 else yoe + era * 400),
       (if mp <? 10 then mp + 3 else mp - 9),
       doy - (153 * mp + 2) / 5 + 1).
Proof.
  unfold Calendar.civilFromDays.
  set (z := D + 719468). set (era := z / 146097).
  set (doe := z - era * 146097).
  assert (Hdoe : 0 <= doe <= 146096)
    by (subst doe era; Z.div_mod_to_equations; lia).
  set (yoe := (doe - doe / 1460 + doe / 36524 - doe / 146096) / 365).
  set (doy := doe - (365 * yoe + yoe / 4 - yoe / 100)).
  assert (H : 0 <= yoe <= 399 /\ 0 <= doy <= 365)
    by (subst doy yoe; Z.div_mod_to_equations; lia).
  set (mp := (5 * doy + 2) / 153).
  exists era, yoe, doy, mp.
  assert (Hmp : 0 <= mp <= 11) by (subst mp; Z.div_mod_to_equations; lia).
  assert (Hday : 1 <= doy - (153 * mp + 2) / 5 + 1 <= 31)
    by (subst mp; Z.div_mod_to_equations; lia).
  assert (HD : D = era * 146097 + (yoe * 365 + yoe / 4 - yoe / 100 + doy) - 719468)
    by (subst doy doe z; lia).
  repeat split; try lia; try reflexivity.
Qed.

(** The day reached by going back one month lies 28 to 31 days before. *)
Lemma monthBack_gap (D : Z) :
  let '(y, m, d) := Calendar.civilFromDays D in
  28 <= D - (Calendar.daysFromCivil (y + (m - 2) / 12) ((m - 2) mod 12 + 1) 1 + (d - 1))
     <= 31.
Proof.
  destruct (civilFromDays_parts D)
    as (era & yoe & doy & mp & Hy & Hd & Hm & HD & Hday & Hmp & ->).
  unfold Calendar.daysFromCivil.
  destruct (Z.ltb_spec mp 10); cbv beta iota;
  repeat match goal with
  | |- context [?a <? ?b] => destruct (Z.ltb_spec a b); cbv beta iota
  | |- context [?a <=? ?b] => destruct (Z.leb_spec a b); cbv beta iota
  end;
  Z.div_mod_to_equations; lia.
Qed.

(** One month back is the same reading of the wall clock 28 to 31 days
    earlier. *)
Lemma minusMonth_gap (zone : Zone.t) (t : Z) :
  exists G : Z,
    28 <= G <= 31 /\
    Calendar.minusMonth zone t
    = Zone.utc zone (Zone.localTime zone t - G * msPerDay).
Proof.
  unfold Calendar.minusMonth. cbv zeta.
  set (wall := Zone.localTime zone t).
  pose proof (monthBack_gap (wall / msPerDay)) as H.
  destruct (Calendar.civilFromDays (wall / msPerDay)) as [[y m] d].
  set (F := Calendar.daysFromCivil (y + (m - 2) / 12) ((m - 2) mod 12 + 1) 1 + (d - 1)) in *.
  exists (wall / msPerDay - F). split; [lia|]. f_equal.
  unfold msPerDay in *.
  pose proof (Z.div_mod wall 86400000 ltac:(lia)) as Hdm.
  lia.
Qed.

Lemma filter_sublist_impl {A} (f g : A -> bool) (l : list A) :
  (forall x, f x = true -> g x = true) ->
  sublist (List.filter f l) (List.filter g l).
Proof.
  intros Himp. induction l as [|x l IH]; cbn; [constructor|].
  destruct (f x) eqn:Hf.
  - rewrite (Himp x Hf). now constructor.
  - destruct (g x); [now constructor|exact IH].
Qed.

(** X27. One month back on the calendar is the same reading of the wall
    clock 28 to 31 days earlier, whatever the date and the time of day.
    On a device whose offset from UTC never exceeds 14 hours either way,
    that is between 28 days less 28 hours and 31 days plus 28 hours
    before, and seven days back on the wall clock is at most 7 days and
    28 hours before. So every record the week filter lets through passes
    the month filter too, and with the other selections unchanged the
    week view is a subsequence of the month view. *)
Theorem week_within_month (zone : Zone.t) (now : Z) :
  (forall (t : Z) (isUTC : bool),
     - (14 * msPerHour) <= Zone.localTZA zone t isUTC <= 14 * msPerHour) ->
  (exists G : Z,
     28 <= G <= 31 /\
     Calendar.minusMonth zone now
     = Zone.utc zone (Zone.localTime zone now - G * msPerDay)) /\
  28 * msPerDay - 28 * msPerHour <= now - Calendar.minusMonth zone now
    <= 31 * msPerDay + 28 * msPerHour /\
  7 * msPerDay - 28 * msPerHour <= now - Calendar.minusDays zone now 7
    <= 7 * msPerDay + 28 * msPerHour /\
  (forall item : AttendanceRecord.t,
     inPeriod week zone now item = true -> inPeriod month zone now item = true) /\
  forall user history departments dept allUsers loading refreshing,
    sublist
      (filteredHistory zone now
         (mkState user history week departments dept allUsers loading refreshing))
      (filteredHistory zone now
         (mkState user history month departments dept allUsers loading refreshing)).
Proof.
  intros Hzone.
  destruct (minusMonth_gap zone now) as (G & HG & Hmonth).
  assert (Hm : 28 * msPerDay - 28 * msPerHour <= now - Calendar.minusMonth zone now
               <= 31 * msPerDay + 28 * msPerHour).
  { rewrite Hmonth. unfold Zone.utc, Zone.localTime.
    pose proof (Hzone now true) as H1.
    pose proof (Hzone (now + Zone.localTZA zone now true - G * msPerDay) false) as H2.
    unfold msPerDay, msPerHour in *. lia. }
  assert (Hw : 7 * msPerDay - 28 * msPerHour <= now - Calendar.minusDays zone now 7
               <= 7 * msPerDay + 28 * msPerHour).
  { unfold Calendar.minusDays, Zone.utc, Zone.localTime. cbv zeta.
    pose proof (Hzone now true) as H1.
    pose proof (Hzone (now + Zone.localTZA zone now true - 7 * msPerDay) false) as H2.
    unfold msPerDay, msPerHour in *. lia. }
  assert (Himp : forall item : AttendanceRecord.t,
            inPeriod week zone now item = true -> inPeriod month zone now item = true).
  { intros item. unfold inPeriod. cbv zeta.
    rewrite !andb_true_iff, !Z.leb_le. unfold msPerDay, msPerHour in *. lia. }
  split; [exists G; split; [exact HG|exact Hmonth]|].
  split; [exact Hm|]. split; [exact Hw|]. split; [exact Himp|].
  intros user history departments dept allUsers loading refreshing.
  unfold filteredHistory.
  cbn [AttendanceScreen.filter AttendanceScreen.user
       AttendanceScreen.attendanceHistory AttendanceScreen.selectedDept].
  apply filter_sublist_impl, Himp.
Qed.

Lemma week_within_month_witness :
  28 * msPerDay - 28 * msPerHour
    <= Cases.noon - Calendar.minusMonth Cases.newYork Cases.noon
    <= 31 * msPerDay + 28 * msPerHour.
Proof.
  assert (Hzone : forall (t : Z) (isUTC : bool),
            - (14 * msPerHour) <= Zone.localTZA Cases.newYork t isUTC
              <= 14 * msPerHour).
  { intros t isUTC. unfold Cases.newYork, Zone.localTZA.
    destruct (t <? _); unfold msPerHour; lia. }
  pose proof (week_within_month Cases.newYork Cases.noon Hzone) as H.
  destruct H as (_ & H & _). exact H.
Defined.

End Periods.

(** ** Sign-in screen *)

Section Login.
Import LoginScreen.

Lemma checkStoredUsers_run (st : State) (db : Store.t) :
  checkStoredUsers st db =
  match default [] (Store.users db) with
  | [] =>
      (tt,
       mkState (email st) (password st)
               "Default admin account was created: admin@onsite.com / admin123"
               (isLoggingIn st),
       Store.setUsers [adminUser] db, [SetItem Store.Users])
  | _ :: _ => (tt, st, db, [])
  end.
Proof.
  unfold checkStoredUsers, bind, getUsers, setUsers, setUserMessage, setState, ret.
  cbn [fst snd]. destruct (default [] (Store.users db)); reflexivity.
Qed.

(** X28. The check made when the sign-in screen mounts leaves a store
    that has any user exactly as it is, whether or not one of them is an
    admin. Only when no user is on file does it write the users
    collection, holding the default admin alone, and announce it; the
    ledger and the snapshots are untouched. Afterwards some user is
    always on file, and a second run changes nothing. *)
Theorem checkStoredUsers_spec (st : State) (db : Store.t) :
  let run := checkStoredUsers st db in
  let users := default [] (Store.users db) in
  (users <> [] -> run = (tt, st, db, [])) /\
  (users = [] ->
   Store.users (storeOf run) = Some [adminUser] /\
   effectsOf run = [SetItem Store.Users] /\
   userMessage (stateOf run)
   = "Default admin account was created: admin@onsite.com / admin123"%string) /\
  (exists u rest, Store.users (storeOf run) = Some (u :: rest)) /\
  Store.attendance (storeOf run) = Store.attendance db /\
  Store.employeeLocations (storeOf run) = Store.employeeLocations db /\
  email (stateOf run) = email st /\
  password (stateOf run) = password st /\
  isLoggingIn (stateOf run) = isLoggingIn st /\
  checkStoredUsers (stateOf run) (storeOf run) = (tt, stateOf run, storeOf run, []).
Proof.
  intros run users. subst run. rewrite checkStoredUsers_run. fold users.
  destruct users as [|u rest] eqn:Hus.
  - unfold stateOf, storeOf, effectsOf.
    cbn [fst snd Store.users Store.setUsers Store.attendance
         Store.employeeLocations email password isLoggingIn userMessage].
    split; [intros H; contradiction|].
    split; [intros _; split; [reflexivity|split; reflexivity]|].
    split; [eauto|]. do 5 (split; [reflexivity|]).
    rewrite checkStoredUsers_run. reflexivity.
  - unfold stateOf, storeOf, effectsOf. cbn [fst snd].
    split; [reflexivity|]. split; [discriminate|].
    split.
    { subst users. destruct (Store.users db) as [l|]; [|discriminate].
      cbn in Hus. subst l. eauto. }
    do 5 (split; [reflexivity|]).
    rewrite checkStoredUsers_run. fold users. now rewrite Hus.
Qed.

Lemma find_none_email (users : list User.t) (e : string) :
  (forall u, In u users -> User.email u <> e) ->
  List.find (fun v => String.eqb (User.email v) e) users = None.
Proof.
  intros H. destruct (List.find _ users) as [v|] eqn:Hf; [|reflexivity].
  apply List.find_some in Hf as [Hin Hv]. apply String.eqb_eq in Hv.
  now destruct (H v Hin).
Qed.

Lemma find_unique_email (users : list User.t) (u : User.t) :
  List.NoDup (map User.email users) ->
  In u users ->
  List.find (fun v => String.eqb (User.email v) (User.email u)) users = Some u.
Proof.
  induction users as [|a l IH]; intros Hnd Hin; [destruct Hin|].
  cbn [map] in Hnd. inversion Hnd as [|? ? Hnotin Hnd']; subst.
  cbn [List.find]. destruct Hin as [->|Hin].
  - now rewrite String.eqb_refl.
  - destruct (String.eqb_spec (User.email a) (User.email u)) as [E|_].
    + exfalso. apply Hnotin. rewrite E. now apply in_map.
    + now apply IH.
Qed.

Lemma handleLogin_blank (login : string -> string -> Auth.Call)
    (st : State) (db : Store.t) :
  String.eqb (email st) "" || String.eqb (password st) "" = true ->
  handleLogin login st db =
  (tt, mkState (email st) (password st) (userMessage st) false, db,
   [Alert "Error" (Text "Please fill in all fields")]).
Proof.
  intros H. unfold handleLogin, bind, getState. cbn [fst snd]. rewrite H.
  reflexivity.
Qed.

Lemma handleLogin_called (login : string -> string -> Auth.Call)
    (st : State) (db db1 : Store.t) (o : Auth.Outcome) (e : list Effect) :
  String.eqb (email st) "" || String.eqb (password st) "" = false ->
  login (email st) (password st) db = (o, db1, e) ->
  handleLogin login st db =
  (tt, mkState (email st) (password st) (userMessage st) false, db1,
   e ++ match o with
        | Auth.Resolved => []
        | Auth.Rejected message =>
            match List.find (fun u => String.eqb (User.email u) (email st))
                            (default [] (Store.users db1)) with
            | None => [Alert "Login Failed" (noAccountMessage (email st))]
            | Some found =>
                if negb (String.eqb (User.password found) (password st))
                then [Alert "Login Failed" (Text "Incorrect password. Please try again.")]
                else [Alert "Login Error"
                        (Text (Auth.messageOr message
                                 "Something went wrong during login"))]
            end
        end).
Proof.
  intros H Hl.
  unfold handleLogin, bind, getState, Auth.call, setIsLoggingIn, setState, getUsers,
    alert, emit, ret.
  cbn [fst snd]. rewrite H. cbn [email password]. rewrite Hl.
  destruct o as [|message]; cbn [fst snd userMessage email password].
  - now rewrite !app_nil_r.
  - destruct (List.find _ (default [] (Store.users db1))) as [found|].
    + destruct (negb (String.eqb (User.password found) (password st)));
        cbn; now rewrite !app_nil_r.
    + cbn. now rewrite !app_nil_r.
Qed.

(** X29. Signing in with an empty e-mail or password never reaches the
    authentication context: the store is untouched and one notice asks
    to fill in all fields. Otherwise the context is called once; the
    screen itself writes nothing, adds no notice to a successful
    sign-in, and adds exactly one to a failed one: no account when no
    stored user has the e-mail, incorrect password when the user with
    that e-mail has another password, and the error's own message (or
    the stock one when it has none) when e-mail and password both match.
    On every path the e-mail and password entered are kept and the
    signing-in flag ends down. *)
Theorem handleLogin_spec (login : string -> string -> Auth.Call)
    (st : State) (db : Store.t) :
  let run := handleLogin login st db in
  email (stateOf run) = email st /\
  password (stateOf run) = password st /\
  userMessage (stateOf run) = userMessage st /\
  isLoggingIn (stateOf run) = false /\
  (email st = ""%string \/ password st = ""%string ->
   storeOf run = db /\
   effectsOf run = [Alert "Error" (Text "Please fill in all fields")]) /\
  (email st <> ""%string -> password st <> ""%string ->
   forall (o : Auth.Outcome) (db1 : Store.t) (e : list Effect),
     login (email st) (password st) db = (o, db1, e) ->
     storeOf run = db1 /\
     match o with
     | Auth.Resolved => effectsOf run = e
     | Auth.Rejected message =>
         let users := default [] (Store.users db1) in
         ((forall u, In u users -> User.email u <> email st) ->
          effectsOf run = e ++ [Alert "Login Failed" (noAccountMessage (email st))]) /\
         (forall u, In u users -> List.NoDup (map User.email users) ->
            User.email u = email st ->
            (User.password u <> password st ->
             effectsOf run =
             e ++ [Alert "Login Failed" (Text "Incorrect password. Please try again.")]) /\
            (User.password u = password st ->
             effectsOf run =
             e ++ [Alert "Login Error"
                     (Text (Auth.messageOr message
                              "Something went wrong during login"))]))
     end).
Proof.
  intros run. subst run.
  destruct (String.eqb (email st) "" || String.eqb (password st) "") eqn:Hblank.
  - rewrite (handleLogin_blank login st db Hblank).
    unfold stateOf, storeOf, effectsOf. cbn.
    do 4 (split; [reflexivity|]). split; [intros _; split; reflexivity|].
    intros He Hp. apply orb_true_iff in Hblank as [H|H];
      apply String.eqb_eq in H; contradiction.
  - destruct (login (email st) (password st) db) as [[o db1] e] eqn:Hl.
    rewrite (handleLogin_called login st db db1 o e Hblank Hl).
    unfold stateOf, storeOf, effectsOf. cbn [fst snd email password userMessage isLoggingIn].
    do 4 (split; [reflexivity|]).
    apply orb_false_iff in Hblank as [He Hp].
    apply String.eqb_neq in He, Hp.
    split; [intros [H|H]; contradiction|].
    intros _ _ o' db' e' [= <- <- <-]. split; [reflexivity|].
    destruct o as [|message]; [now rewrite app_nil_r|].
    cbv zeta. split.
    + intros Hnone. now rewrite (find_none_email _ _ Hnone).
    + intros u Hin Hnd Hu. rewrite <- Hu.
      rewrite (find_unique_email _ u Hnd Hin). split; intros Hpw.
      * apply String.eqb_neq in Hpw. now rewrite Hpw.
      * apply String.eqb_eq in Hpw. now rewrite Hpw.
Qed.

End Login.

(** ** Registration screen *)

Section Register.
Import RegisterScreen.

Lemma blank_false (s : string) : blank s = false <-> s <> ""%string.
Proof. unfold blank. apply String.eqb_neq. Qed.

Lemma handleRegister_called (register : Register) (st : State) (db db1 : Store.t)
    (o : Auth.Outcome) (e : list Effect) :
  let f := formState st in
  blank (FormState.email f) = false -> blank (FormState.password f) = false ->
  blank (FormState.confirmPassword f) = false -> blank (FormState.name f) = false ->
  blank (FormState.department f) = false ->
  String.eqb (FormState.password f) (FormState.confirmPassword f) = true ->
  hasInvitation st && blank (FormState.inviteToken f) = false ->
  register (FormState.email f) (FormState.password f) (FormState.name f)
           (FormState.department f)
           (if hasInvitation st then Some (FormState.inviteToken f) else None) db
  = (o, db1, e) ->
  handleRegister register st db =
  (tt, st, db1,
   e ++ [match o with
         | Auth.Resolved =>
             Alert "Registration Successful"
                   (Text "Your account has been created successfully")
         | Auth.Rejected message =>
             Alert "Registration Failed"
                   (Text (Auth.messageOr message
                            "An error occurred during registration"))
         end]).
Proof.
  intros f He Hp Hc Hn Hd Heq Htok Hr.
  unfold handleRegister, bind, getState, Auth.call, alert, emit.
  cbn [fst snd]. fold f. rewrite He, Hp, Hc, Hn, Hd, Heq, Htok. cbn [orb negb].
  rewrite Hr. destruct o; reflexivity.
Qed.

Lemma handleRegister_refused (register : Register) (st : State) (db : Store.t) :
  let f := formState st in
  blank (FormState.email f) || blank (FormState.password f)
  || blank (FormState.confirmPassword f) || blank (FormState.name f)
  || blank (FormState.department f)
  || negb (String.eqb (FormState.password f) (FormState.confirmPassword f))
  || hasInvitation st && blank (FormState.inviteToken f) = true ->
  exists title msg,
    handleRegister register st db = (tt, st, db, [Alert title msg]) /\
    title <> "Registration Successful"%string.
Proof.
  intros f H.
  unfold handleRegister, bind, getState, Auth.call, alert, emit.
  cbn [fst snd]. fold f.
  destruct (blank (FormState.email f) || blank (FormState.password f)
            || blank (FormState.confirmPassword f) || blank (FormState.name f)
            || blank (FormState.department f)) eqn:Hb.
  { do 2 eexists. split; [reflexivity|discriminate]. }
  cbn [orb] in H.
  destruct (negb (String.eqb (FormState.password f) (FormState.confirmPassword f))) eqn:Hm.
  { do 2 eexists. split; [reflexivity|discriminate]. }
  cbn [orb] in H. rewrite H.
  do 2 eexists. split; [reflexivity|discriminate].
Qed.

(** X30. Registration reaches the authentication context only with a
    complete form: e-mail, password, confirmation, name and department
    non-empty, the two passwords equal, and a token entered if the
    invitation box is ticked. A form that fails any of these gets one
    notice and the store is untouched. A complete form is passed on once,
    with the token only if the box is ticked, and the screen then shows
    one notice, of success or of failure with the error's message. With
    the box unticked whatever was typed in the token field has no effect
    at all. The screen's own state is never changed. *)
Theorem handleRegister_spec (register : Register) (st : State) (db : Store.t) :
  let run := handleRegister register st db in
  let f := formState st in
  let valid : Prop :=
    FormState.email f <> ""%string /\ FormState.password f <> ""%string /\
    FormState.confirmPassword f <> ""%string /\ FormState.name f <> ""%string /\
    FormState.department f <> ""%string /\
    FormState.password f = FormState.confirmPassword f /\
    (hasInvitation st = true -> FormState.inviteToken f <> ""%string) in
  let token := if hasInvitation st then Some (FormState.inviteToken f) else None in
  stateOf run = st /\
  (~ valid ->
   storeOf run = db /\
   exists title msg, effectsOf run = [Alert title msg] /\
                     title <> "Registration Successful"%string) /\
  (valid ->
   forall (o : Auth.Outcome) (db1 : Store.t) (e : list Effect),
     register (FormState.email f) (FormState.password f) (FormState.name f)
              (FormState.department f) token db = (o, db1, e) ->
     storeOf run = db1 /\
     effectsOf run =
     e ++ [match o with
           | Auth.Resolved =>
               Alert "Registration Successful"
                     (Text "Your account has been created successfully")
           | Auth.Rejected message =>
               Alert "Registration Failed"
                     (Text (Auth.messageOr message
                              "An error occurred during registration"))
           end]) /\
  (hasInvitation st = false ->
   forall typed : string,
     let st' := mkState (FormState.mk (FormState.email f) (FormState.password f)
                           (FormState.confirmPassword f) (FormState.name f)
                           (FormState.department f) typed) false in
     storeOf (handleRegister register st' db) = storeOf run /\
     effectsOf (handleRegister register st' db) = effectsOf run).
Proof.
  intros run f valid token.
  assert (Hlast : hasInvitation st = false ->
   forall typed : string,
     let st' := mkState (FormState.mk (FormState.email f) (FormState.password f)
                           (FormState.confirmPassword f) (FormState.name f)
                           (FormState.department f) typed) false in
     storeOf (handleRegister register st' db) = storeOf run /\
     effectsOf (handleRegister register st' db) = effectsOf run).
  { intros Hno typed st'. subst st' run.
    unfold handleRegister, bind, getState, Auth.call, alert, emit.
    cbn [fst snd formState hasInvitation FormState.email FormState.password
         FormState.confirmPassword FormState.name FormState.department
         FormState.inviteToken]. fold f. rewrite Hno. cbn [andb].
    destruct (blank (FormState.email f) || blank (FormState.password f)
              || blank (FormState.confirmPassword f) || blank (FormState.name f)
              || blank (FormState.department f)); [split; reflexivity|].
    destruct (negb (String.eqb (FormState.password f) (FormState.confirmPassword f)));
      [split; reflexivity|].
    destruct (register (FormState.email f) (FormState.password f) (FormState.name f)
                (FormState.department f) None db) as [[o db1] e].
    destruct o; split; reflexivity. }
  destruct (blank (FormState.email f) || blank (FormState.password f)
            || blank (FormState.confirmPassword f) || blank (FormState.name f)
            || blank (FormState.department f)
            || negb (String.eqb (FormState.password f) (FormState.confirmPassword f))
            || hasInvitation st && blank (FormState.inviteToken f)) eqn:Hbad.
  - destruct (handleRegister_refused register st db Hbad) as (title & msg & E & Ht).
    assert (Hnv : ~ valid).
    { subst valid. intros (He & Hp & Hc & Hn & Hd & Heq & Htok).
      apply blank_false in He, Hp, Hc, Hn, Hd. fold f in Hbad.
      rewrite He, Hp, Hc, Hn, Hd in Hbad. apply String.eqb_eq in Heq.
      rewrite Heq in Hbad. cbn [orb negb] in Hbad.
      apply andb_true_iff in Hbad as [Hh Hb]. specialize (Htok Hh).
      apply blank_false in Htok. congruence. }
    subst run. rewrite E. unfold stateOf, storeOf, effectsOf. cbn [fst snd].
    split; [reflexivity|]. split; [intros _; split; [reflexivity|eauto]|].
    split; [intros Hv; contradiction|].
    intros Hno typed. specialize (Hlast Hno typed). cbv zeta in Hlast.
    rewrite E in Hlast. exact Hlast.
  - repeat (apply orb_false_iff in Hbad as [Hbad ?]).
    assert (Hv : valid).
    { subst valid. rewrite <- !blank_false. repeat (split; [assumption|]).
      split.
      - apply String.eqb_eq. now apply negb_false_iff.
      - intros Hh.
        match goal with
        | Ht : hasInvitation st && _ = false |- _ => rewrite Hh in Ht; exact Ht
        end. }
    split.
    { subst run.
      destruct (register (FormState.email f) (FormState.password f) (FormState.name f)
                  (FormState.department f) token db) as [[o db1] e] eqn:Hr.
      rewrite (handleRegister_called register st db db1 o e); try assumption.
      - reflexivity.
      - now apply negb_false_iff. }
    split; [intros Hnv; contradiction|].
    split; [|exact Hlast].
    intros _ o db1 e Hr. subst run.
    rewrite (handleRegister_called register st db db1 o e); try assumption.
    + split; reflexivity.
    + now apply negb_false_iff.
Qed.

End Register.
